(** * Weaves: connection registry, pinning ledger and ingestion pipeline

    A shallow embedding of the connection-management core of the Weaves
    browser extension: the [WeavesStorageManager] and [WeavesAI] classes and
    the [chrome.runtime.onMessage] listener of [background.js] with its
    periodic sweep, the alternative storage manager of
    [storage-manager.js], the duplicate-content gate of the content
    script, and the functions of the popup that turn a listed connection
    into a pin, unpin or delete message.

    Conventions of the embedding.
    - A JavaScript string is a [string]: a sequence of code units, here
      restricted to the range 0..255 (Latin-1).
    - A JavaScript number that is an integer in the code (timestamps, tab
      ids, sizes, indices) is a [Z]; a number that is a fraction
      (connection strengths, similarity ratios) is the rational [Q] it
      denotes, every finite double being a rational.  The non-finite
      numbers are added where the code can produce them ([JsNumber]).
    - A [Map] is an insertion-ordered association list with unique keys.
    - Instance state is passed explicitly; [chrome.storage.local] is a
      record of the four keys the extension uses, and writes to it succeed.
    - What the outside world supplies (the clock, the replies of the
      language model) is an argument of the function that consumes it. *)

From Stdlib Require Import ZArith QArith Qabs List String Ascii Bool.
From Stdlib Require Import DecimalString Sorted Permutation Lia Lqa.
Import ListNotations.

Open Scope string_scope.
Open Scope Z_scope.

(* ================================================================== *)
(** * The JavaScript primitives the code relies on *)
(* ================================================================== *)

Module Js.

(** ** Characters and strings *)

(** [\s] of a regular expression and the white space of [trim], on code
    units below 256: TAB, LF, VT, FF, CR, SPACE and NBSP. *)
Definition isWhiteSpace (c : ascii) : bool :=
  let n := N_of_ascii c in
  (((9 <=? n) && (n <=? 13)) || (n =? 32) || (n =? 160))%N.

(** One code unit through [String.prototype.toLowerCase]: A-Z and the
    Latin-1 capitals (all of 192..222 but the multiplication sign). *)
Definition lowerChar (c : ascii) : ascii :=
  let n := N_of_ascii c in
  if (((65 <=? n) && (n <=? 90)) ||
      ((192 <=? n) && (n <=? 222) && negb (n =? 215)))%N
  then ascii_of_N (n + 32) else c.

Fixpoint toLowerCase (s : string) : string :=
  match s with
  | EmptyString => EmptyString
  | String c r => String (lowerChar c) (toLowerCase r)
  end.

(** [s.startsWith(p)] *)
Fixpoint startsWith (s p : string) : bool :=
  match p, s with
  | EmptyString, _ => true
  | String _ _, EmptyString => false
  | String a p', String b s' => Ascii.eqb a b && startsWith s' p'
  end.

(** [s.includes(sub)] *)
Fixpoint includes (s sub : string) : bool :=
  startsWith s sub ||
  match s with
  | EmptyString => false
  | String _ r => includes r sub
  end.

Fixpoint take (n : nat) (s : string) : string :=
  match n, s with
  | O, _ => EmptyString
  | S _, EmptyString => EmptyString
  | S k, String c r => String c (take k r)
  end.

(** [s.substring(0, n)] *)
Definition substring0 (n : Z) (s : string) : string := take (Z.to_nat n) s.

Fixpoint drop (n : nat) (s : string) : string :=
  match n, s with
  | O, _ => s
  | S _, EmptyString => EmptyString
  | S k, String _ r => drop k r
  end.

(** [s.replace(pat, by)] with a string pattern: the first occurrence only. *)
Fixpoint replace (s pat by_ : string) : string :=
  if startsWith s pat then by_ ++ drop (String.length pat) s
  else match s with
       | EmptyString => EmptyString
       | String c r => String c (replace r pat by_)
       end.

(** [s.split(sep)] for a one-character separator. *)
Fixpoint split (sep : ascii) (s : string) : list string :=
  match s with
  | EmptyString => [EmptyString]
  | String c r =>
      let parts := split sep r in
      if Ascii.eqb c sep then EmptyString :: parts
      else match parts with
           | [] => [String c EmptyString]
           | p :: ps => String c p :: ps
           end
  end.

(** [s.split(/\s+/)]: the separators are the maximal runs of white space;
    a string that starts or ends with white space yields an empty first or
    last piece.  [in_run] tells that the previous character was white
    space; the head of the result is the piece under construction. *)
Fixpoint split_ws_from (in_run : bool) (s : string) : list string :=
  match s with
  | EmptyString => [EmptyString]
  | String c r =>
      if isWhiteSpace c then
        if in_run then split_ws_from true r
        else EmptyString :: split_ws_from true r
      else match split_ws_from false r with
           | [] => [String c EmptyString]
           | p :: ps => String c p :: ps
           end
  end.

Definition split_ws (s : string) : list string := split_ws_from false s.

Fixpoint trimStart (s : string) : string :=
  match s with
  | EmptyString => EmptyString
  | String c r => if isWhiteSpace c then trimStart r else s
  end.

Fixpoint trimEnd (s : string) : string :=
  match s with
  | EmptyString => EmptyString
  | String c r =>
      let r' := trimEnd r in
      if isWhiteSpace c && String.eqb r' EmptyString then EmptyString
      else String c r'
  end.

Definition trim (s : string) : string := trimEnd (trimStart s).

(** [s.replace(/\s+/g, ' ')]: every maximal run of white space becomes
    one space.  [in_run] tells that the previous character was white
    space. *)
Fixpoint collapse_from (in_run : bool) (s : string) : string :=
  match s with
  | EmptyString => EmptyString
  | String c r =>
      if isWhiteSpace c then
        if in_run then collapse_from true r
        else String " " (collapse_from true r)
      else String c (collapse_from false r)
  end.

Definition collapseWhiteSpace (s : string) : string := collapse_from false s.

(** ** Numbers *)

(** A number that may fail to be finite. *)
Inductive JsNumber : Type :=
| JsNaN
| JsInfinity (negative : bool)
| JsFinite (q : Q).

(** [x >= y] and [x <= y] against a finite [y]; [NaN] compares false. *)
Definition ge_finite (x : JsNumber) (y : Q) : bool :=
  match x with
  | JsNaN => false
  | JsInfinity neg => negb neg
  | JsFinite q => Qle_bool y q
  end.

Definition le_finite (x : JsNumber) (y : Q) : bool :=
  match x with
  | JsNaN => false
  | JsInfinity neg => neg
  | JsFinite q => Qle_bool q y
  end.

(** Integer [n / d] rounded to the nearest integer, ties to even. *)
Definition round_half_even (n d : Z) : Z :=
  let q := n / d in
  let r := n mod d in
  if 2 * r <? d then q
  else if d <? 2 * r then q + 1
  else if Z.even q then q else q + 1.

(** [(n / d) / 2^k] as a fraction of integers. *)
Definition scale2 (n d k : Z) : Z * Z :=
  if 0 <=? k then (n, d * 2 ^ k) else (n * 2 ^ (- k), d).

(** [m * 2^k] as a rational. *)
Definition pow2_times (m k : Z) : Q :=
  if 0 <=? k then inject_Z (m * 2 ^ k) else Qmake m (Z.to_pos (2 ^ (- k))).

(** The binary64 value nearest to the positive rational [n / d]
    (round to nearest, ties to even, gradual underflow, overflow to
    infinity): what a decimal literal or [parseFloat] evaluates to. *)
Definition binary64_of_pos (n d : positive) : JsNumber :=
  let e0 := Z.log2 (Zpos n) - Z.log2 (Zpos d) in
  let '(n0, d0) := scale2 (Zpos n) (Zpos d) e0 in
  let e := if d0 <=? n0 then e0 else e0 - 1 in
  let qe := Z.max e (-1022) - 52 in
  let '(n1, d1) := scale2 (Zpos n) (Zpos d) qe in
  let m := round_half_even n1 d1 in
  if (971 <? qe) || ((qe =? 971) && (2 ^ 53 <=? m)) then JsInfinity false
  else JsFinite (pow2_times m qe).

Definition binary64 (q : Q) : JsNumber :=
  match Qnum q with
  | Z0 => JsFinite 0
  | Zpos n => binary64_of_pos n (Qden q)
  | Zneg n =>
      match binary64_of_pos n (Qden q) with
      | JsFinite r => JsFinite (- r)
      | JsInfinity b => JsInfinity (negb b)
      | JsNaN => JsNaN
      end
  end.

(** The double nearest to [q], for [q] within the range of the finite
    doubles: the value of a decimal literal of the source, and of a
    quotient of two integers. *)
Definition double (q : Q) : Q :=
  match binary64 q with
  | JsFinite r => r
  | _ => q
  end.

(** [x < y] on finite numbers. *)
Definition lt (x y : Q) : bool := negb (Qle_bool y x).

(** [String(n)] for an integer [n] of at most 2^53 in absolute value, as
    every timestamp, tab id and index of the code is: there the number
    is the integer itself and JavaScript prints its decimal numeral.
    Beyond that bound a number need not be the integer and its digits
    can differ. *)
Definition toString (n : Z) : string := NilZero.string_of_int (Z.to_int n).

Definition digitValue (radix : Z) (c : ascii) : option Z :=
  let n := Z.of_N (N_of_ascii c) in
  let v := if (48 <=? n) && (n <=? 57) then n - 48
           else if (97 <=? n) && (n <=? 122) then n - 87
           else if (65 <=? n) && (n <=? 90) then n - 55
           else radix in
  if v <? radix then Some v else None.

(** The longest prefix of digits of [s] in [radix]: its value, read after
    [acc], the number of digits, and the rest of the string. *)
Fixpoint readDigits (radix : Z) (s : string) (acc : Z) (count : nat)
  : Z * nat * string :=
  match s with
  | EmptyString => (acc, count, s)
  | String c r =>
      match digitValue radix c with
      | Some v => readDigits radix r (acc * radix + v) (S count)
      | None => (acc, count, s)
      end
  end.

Definition readSign (s : string) : bool * string :=
  match s with
  | String "-" r => (true, r)
  | String "+" r => (false, r)
  | _ => (false, s)
  end.

(** [parseInt(s)] without a radix: leading white space, a sign, a [0x]
    prefix for base 16, then the longest run of digits; [None] is [NaN]. *)
Definition parseInt (s : string) : option Z :=
  let '(neg, body) := readSign (trimStart s) in
  let '(radix, digits) :=
    if startsWith body "0x" || startsWith body "0X"
    then (16, drop 2 body) else (10, body) in
  let '(v, count, _) := readDigits radix digits 0 O in
  match count with
  | O => None
  | S _ => Some (if neg then - v else v)
  end.

(** The exponent part [e[+-]digits] of a decimal literal, if there is one. *)
Definition readExponent (s : string) : Z :=
  match s with
  | String c r =>
      if Ascii.eqb c "e" || Ascii.eqb c "E" then
        let '(neg, r') := readSign r in
        let '(v, count, _) := readDigits 10 r' 0 O in
        match count with
        | O => 0
        | S _ => if neg then - v else v
        end
      else 0
  | EmptyString => 0
  end.

(** [parseFloat(s)]: leading white space, a sign, then the longest prefix
    that is [Infinity] or a decimal literal, rounded to binary64. *)
Definition parseFloat (s : string) : JsNumber :=
  let '(neg, body) := readSign (trimStart s) in
  if startsWith body "Infinity" then JsInfinity neg
  else
    let '(ip, icount, rest) := readDigits 10 body 0 O in
    let '(mant, fcount, rest') :=
      match rest with
      | String "." r =>
          let '(m, c, r') := readDigits 10 r ip O in (m, c, r')
      | _ => (ip, O, rest)
      end in
    match (icount + fcount)%nat with
    | O => JsNaN
    | S _ =>
        let ex := readExponent rest' - Z.of_nat fcount in
        let q := if 0 <=? ex then inject_Z (mant * 10 ^ ex)
                 else Qmake mant (Z.to_pos (10 ^ (- ex))) in
        binary64 (if neg then - q else q)%Q
    end.

(** ** Map

    A [Map] keeps its entries in insertion order; [set] on a key that is
    present replaces the value where it stands. *)

Definition Map (V : Type) : Type := list (string * V).

Section MapOps.
Context {V : Type}.

Fixpoint has (m : Map V) (k : string) : bool :=
  match m with
  | [] => false
  | (k', _) :: r => String.eqb k' k || has r k
  end.

Fixpoint get (m : Map V) (k : string) : option V :=
  match m with
  | [] => None
  | (k', v) :: r => if String.eqb k' k then Some v else get r k
  end.

Fixpoint set (m : Map V) (k : string) (v : V) : Map V :=
  match m with
  | [] => [(k, v)]
  | (k', v') :: r =>
      if String.eqb k' k then (k', v) :: r else (k', v') :: set r k v
  end.

(** [m.delete(k)]: the map without the key; the method's result, whether
    the key was there, is [has m k]. *)
Fixpoint delete (m : Map V) (k : string) : Map V :=
  match m with
  | [] => []
  | (k', v') :: r =>
      if String.eqb k' k then r else (k', v') :: delete r k
  end.

Definition size (m : Map V) : nat := List.length m.
Definition values (m : Map V) : list V := List.map snd m.
Definition keys (m : Map V) : list string := List.map fst m.
Definition entries (m : Map V) : list (string * V) := m.

(** [new Map(entries)] *)
Definition ofEntries (l : list (string * V)) : Map V :=
  fold_left (fun m kv => set m (fst kv) (snd kv)) l [].
End MapOps.

(** ** Set of strings

    A [Set] keeps its elements in insertion order, each once. *)

Definition setHas (s : list string) (x : string) : bool :=
  existsb (String.eqb x) s.

Definition setAdd (s : list string) (x : string) : list string :=
  if setHas s x then s else (s ++ [x])%list.

(** [new Set(array)] *)
Definition newSet (l : list string) : list string := fold_left setAdd l [].

(** ** Array.prototype.sort

    [sort] with a comparator is stable, and with a consistent comparator
    its result is ordered by it; that fixes the result, whatever algorithm
    the engine runs.  Here it is computed by insertion: an element goes
    before the first later element it does not compare greater than.  Only
    the sign of the comparator's result is looked at. *)

Section Sort.
Context {A : Type} (compareFn : A -> A -> Q).

Fixpoint insert (x : A) (l : list A) : list A :=
  match l with
  | [] => [x]
  | y :: r =>
      if Qle_bool (compareFn x y) 0 then x :: l else y :: insert x r
  end.

Definition sort (l : list A) : list A := fold_right insert [] l.

(** The comparator lets [a] stand before [b]: its result is not
    positive. *)
Definition notAfter (a b : A) : Prop := Qle_bool (compareFn a b) 0 = true.

(** [b] ranks with [a]: the comparator lets each stand before the other. *)
Definition sameRank (a b : A) : bool :=
  Qle_bool (compareFn a b) 0 && Qle_bool (compareFn b a) 0.
End Sort.

(** [a.slice(0, n)] for [n >= 0]. *)
Definition slice0 {A : Type} (n : nat) (l : list A) : list A := firstn n l.

End Js.

(* ================================================================== *)
(** * Data model *)
(* ================================================================== *)

(** The analysis attached to a content item. *)
Module Analysis.
Record t : Type := make {
  coreMessage : string;
  perspective : string;
  themes : list string;
  emotionalContext : string;
  problems : list string;
  solutions : list string;
  assumptions : list string;
  implications : list string;
  contentNature : string;
  summary : string
}.
End Analysis.

(** An entry of [weavesAI.contentStore]. *)
Module Content.
Record t : Type := make {
  id : string;
  tabId : Z;
  url : string;
  title : string;
  content : string;
  domain : string;
  platform : string;
  contentType : string;
  timestamp : Z;
  analysis : Analysis.t
}.
End Content.

(** An entry of [weavesAI.connections].  [pinned] is absent until one of
    the later PIN/UNPIN branches of the listener writes it. *)
Module Connection.
Record t : Type := make {
  from : string;
  to : string;
  fromTitle : string;
  toTitle : string;
  fromUrl : string;
  toUrl : string;
  strength : Q;
  reason : string;
  type : string;
  relationship : string;
  timestamp : Z;
  platforms : string;
  pinned : option bool
}.

(** [{...c, pinned: b}] *)
Definition withPinned (c : t) (b : bool) : t :=
  make (from c) (to c) (fromTitle c) (toTitle c) (fromUrl c) (toUrl c)
       (strength c) (reason c) (type c) (relationship c) (timestamp c)
       (platforms c) (Some b).

(** Truthiness of the [pinned] property. *)
Definition isPinned (c : t) : bool :=
  match pinned c with
  | Some b => b
  | None => false
  end.
End Connection.

(** A value of the pinned ledger:
    [{...connection, pinned: true, pinnedAt, pinnedDate}]. *)
Module Pinned.
Record t : Type := make {
  connection : Connection.t;
  pinnedAt : Z;
  pinnedDate : string
}.
End Pinned.

(** An entry of the merged view: [{...conn, id, pinned}].  [pin] carries
    [pinnedAt] and [pinnedDate] when the entry comes from the ledger. *)
Module Listed.
Record t : Type := make {
  connection : Connection.t;
  id : string;
  pin : option (Z * string)
}.

Definition pinned (l : t) : bool := Connection.isPinned (connection l).
Definition strength (l : t) : Q := Connection.strength (connection l).
Definition timestamp (l : t) : Z := Connection.timestamp (connection l).
End Listed.

Module Settings.
Record t : Type := make {
  autoResetEnabled : bool;
  resetTime : string;
  maxDailyContent : Z;
  maxPinnedConnections : Z;
  dataRetentionDays : Z
}.
End Settings.

(** [chrome.storage.local], by the keys of [STORAGE_KEYS]; [None] is a key
    that is absent or holds [null]. *)
Module Storage.
Record DailyData : Type := makeDaily {
  contentStore : list (string * Content.t);
  connections : list Connection.t;
  timestamp : Z
}.

Record t : Type := make {
  DAILY_DATA : option DailyData;
  PINNED_CONNECTIONS : option (list (string * Pinned.t));
  LAST_RESET_DATE : option string;
  SETTINGS : option Settings.t
}.

Definition setDailyData (s : t) (d : option DailyData) : t :=
  make d (PINNED_CONNECTIONS s) (LAST_RESET_DATE s) (SETTINGS s).
Definition setPinned (s : t) (p : list (string * Pinned.t)) : t :=
  make (DAILY_DATA s) (Some p) (LAST_RESET_DATE s) (SETTINGS s).
Definition setLastResetDate (s : t) (d : string) : t :=
  make (DAILY_DATA s) (PINNED_CONNECTIONS s) (Some d) (SETTINGS s).
End Storage.

(** An exception: [new Error(message)]. *)
Inductive Exception : Type :=
| Error (message : string).

(* ================================================================== *)
(** * class WeavesStorageManager (background.js) *)
(* ================================================================== *)

Module WeavesStorageManager.

Definition DEFAULT_SETTINGS : Settings.t :=
  Settings.make true "midnight" 100 50 7.

(** The fields of an instance. *)
Record t : Type := make {
  pinnedConnections : Js.Map Pinned.t;
  settings : Settings.t
}.

Definition withPinnedConnections (this : t) (m : Js.Map Pinned.t) : t :=
  make m (settings this).

(** [generateConnectionId(connection)] *)
Definition generateConnectionId (connection : Connection.t) : string :=
  Connection.from connection ++ "-" ++ Connection.to connection ++ "-"
    ++ Js.toString (Connection.timestamp connection).

(** [savePinnedConnections()] *)
Definition savePinnedConnections (this : t) (store : Storage.t) : Storage.t :=
  Storage.setPinned store (Js.entries (pinnedConnections this)).

(** The comparator of [cleanupPinnedConnections]:
    [([,a], [,b]) => a.pinnedAt - b.pinnedAt]. *)
Definition byPinnedAt (a b : string * Pinned.t) : Q :=
  inject_Z (Pinned.pinnedAt (snd a) - Pinned.pinnedAt (snd b)).

(** [cleanupPinnedConnections()] *)
Definition cleanupPinnedConnections (this : t) (store : Storage.t)
  : t * Storage.t :=
  let max := Settings.maxPinnedConnections (settings this) in
  if max <? Z.of_nat (Js.size (pinnedConnections this)) then
    let sortedPins := Js.sort byPinnedAt (Js.entries (pinnedConnections this)) in
    let toRemove :=
      Js.slice0 (Z.to_nat (Z.of_nat (List.length sortedPins) - max)) sortedPins in
    let this' :=
      withPinnedConnections this
        (fold_left (fun m e => Js.delete m (fst e)) toRemove
                   (pinnedConnections this)) in
    (this', savePinnedConnections this' store)
  else (this, store).

(** [performDailyReset(dateString)] *)
Definition performDailyReset (dateString : string) (this : t)
  (store : Storage.t) : t * Storage.t :=
  let store' :=
    Storage.setLastResetDate (Storage.setDailyData store None) dateString in
  cleanupPinnedConnections this store'.

(** [lastReset !== today] *)
Definition differs (lastReset : option string) (today : string) : bool :=
  match lastReset with
  | Some d => negb (String.eqb d today)
  | None => true
  end.

(** [checkAndPerformDailyReset()]; [today] is what
    [getCurrentDateString()] returns when it runs. *)
Definition checkAndPerformDailyReset (today : string) (this : t)
  (store : Storage.t) : t * Storage.t :=
  if negb (Settings.autoResetEnabled (settings this)) then (this, store)
  else
    let lastReset := Storage.LAST_RESET_DATE store in
    if differs lastReset today then performDailyReset today this store
    else (this, store).

(** The data [loadStoredData()] hands to [WeavesAI]. *)
Record Loaded : Type := makeLoaded {
  contentStore : Js.Map Content.t;
  connections : list Connection.t
}.

(** [loadStoredData()] *)
Definition loadStoredData (today : string) (this : t) (store : Storage.t)
  : Loaded * t * Storage.t :=
  let lastReset := Storage.LAST_RESET_DATE store in
  if differs lastReset today && Settings.autoResetEnabled (settings this) then
    let '(this', store') := performDailyReset today this store in
    (makeLoaded [] [], this', store')
  else
    match Storage.DAILY_DATA store with
    | Some data =>
        (makeLoaded (Js.ofEntries (Storage.contentStore data))
                    (Storage.connections data), this, store)
    | None => (makeLoaded [] [], this, store)
    end.

(** [saveData(contentStore, connections)] at time [now]. *)
Definition saveData (contentStore : Js.Map Content.t)
  (connections : list Connection.t) (now : Z) (this : t)
  (store : Storage.t) : Storage.t :=
  let dataToStore :=
    Storage.makeDaily (Js.entries contentStore) connections now in
  savePinnedConnections this (Storage.setDailyData store (Some dataToStore)).

(** [loadPinnedConnections()] *)
Definition loadPinnedConnections (this : t) (store : Storage.t) : t :=
  match Storage.PINNED_CONNECTIONS store with
  | Some l => withPinnedConnections this (Js.ofEntries l)
  | None => this
  end.

(** The body of the [try] of [pinConnection]: either the exception it
    throws or its result with the new instance and storage. *)
Definition pinConnection_body (connectionId : string)
  (connection : Connection.t) (now : Z) (today : string) (this : t)
  (store : Storage.t) : Exception + (bool * t * Storage.t) :=
  let max := Settings.maxPinnedConnections (settings this) in
  if max <=? Z.of_nat (Js.size (pinnedConnections this)) then
    inl (Error ("Cannot pin more than " ++ Js.toString max ++ " connections"))
  else
    let pinnedConnection :=
      Pinned.make (Connection.withPinned connection true) now today in
    let this' :=
      withPinnedConnections this
        (Js.set (pinnedConnections this) connectionId pinnedConnection) in
    inr (true, this', savePinnedConnections this' store).

(** [pinConnection(connectionId, connection)]: the [catch] turns the
    exception into [false]. *)
Definition pinConnection (connectionId : string) (connection : Connection.t)
  (now : Z) (today : string) (this : t) (store : Storage.t)
  : bool * t * Storage.t :=
  match pinConnection_body connectionId connection now today this store with
  | inr r => r
  | inl _ => (false, this, store)
  end.

(** [unpinConnection(connectionId)] *)
Definition unpinConnection (connectionId : string) (this : t)
  (store : Storage.t) : bool * t * Storage.t :=
  let removed := Js.has (pinnedConnections this) connectionId in
  let this' :=
    withPinnedConnections this
      (Js.delete (pinnedConnections this) connectionId) in
  if removed then (removed, this', savePinnedConnections this' store)
  else (removed, this', store).

(** [getPinnedConnections()] *)
Definition getPinnedConnections (this : t) : list Listed.t :=
  List.map
    (fun conn =>
       Listed.make (Connection.withPinned (Pinned.connection conn) true)
                   (generateConnectionId (Pinned.connection conn))
                   (Some (Pinned.pinnedAt conn, Pinned.pinnedDate conn)))
    (Js.values (pinnedConnections this)).

(** What [getStorageStats()] reports, but for [totalStorageBytes], the
    length of the JSON text of the whole storage. *)
Record Stats : Type := makeStats {
  pinnedConnectionsCount : nat;
  lastResetDate : option string;
  statsSettings : Settings.t
}.

Definition getStorageStats (this : t) (store : Storage.t) : Stats :=
  makeStats (Js.size (pinnedConnections this))
            (Storage.LAST_RESET_DATE store) (settings this).

End WeavesStorageManager.

(* ================================================================== *)
(** * class WeavesAI (background.js) *)
(* ================================================================== *)

(** How [session.prompt(prompt)] settles. *)
Inductive PromptResult : Type :=
| Rejects (error : Exception)
| Resolves (text : string).

(** An element of the array [findConnections] returns. *)
Module Candidate.
Record t : Type := make {
  contentId : string;
  strength : Q;
  reason : string;
  type : string;
  relationship : string
}.
End Candidate.

Module WeavesAI.

Record t : Type := make {
  isInitialized : bool;
  contentStore : Js.Map Content.t;
  connections : list Connection.t;
  storageManager : WeavesStorageManager.t
}.

Definition withStorageManager (this : t) (m : WeavesStorageManager.t) : t :=
  make (isInitialized this) (contentStore this) (connections this) m.
Definition withContentStore (this : t) (m : Js.Map Content.t) : t :=
  make (isInitialized this) m (connections this) (storageManager this).
Definition withConnections (this : t) (l : list Connection.t) : t :=
  make (isInitialized this) (contentStore this) l (storageManager this).

(** [getConnectionId(connection)] *)
Definition getConnectionId (connection : Connection.t) : string :=
  WeavesStorageManager.generateConnectionId connection.

(** [saveData()] *)
Definition saveData (now : Z) (this : t) (store : Storage.t) : Storage.t :=
  WeavesStorageManager.saveData (contentStore this) (connections this) now
    (storageManager this) store.

(** [loadStoredData()] *)
Definition loadStoredData (today : string) (this : t) (store : Storage.t)
  : t * Storage.t :=
  let '(data, m, store') :=
    WeavesStorageManager.loadStoredData today (storageManager this) store in
  (make (isInitialized this) (WeavesStorageManager.contentStore data)
        (WeavesStorageManager.connections data) m, store').

(** [this.connections.find(c => this.getConnectionId(c) === connectionId)] *)
Definition findConnection (this : t) (connectionId : string)
  : option Connection.t :=
  List.find (fun c => String.eqb (getConnectionId c) connectionId)
            (connections this).

(** [pinConnection(connectionId)] *)
Definition pinConnection (connectionId : string) (now : Z) (today : string)
  (this : t) (store : Storage.t) : bool * t * Storage.t :=
  match findConnection this connectionId with
  | Some connection =>
      let '(success, m, store') :=
        WeavesStorageManager.pinConnection connectionId connection now today
          (storageManager this) store in
      (success, withStorageManager this m, store')
  | None => (false, this, store)
  end.

(** [unpinConnection(connectionId)] *)
Definition unpinConnection (connectionId : string) (this : t)
  (store : Storage.t) : bool * t * Storage.t :=
  let '(removed, m, store') :=
    WeavesStorageManager.unpinConnection connectionId (storageManager this)
      store in
  (removed, withStorageManager this m, store').

(** The comparator of [getAllConnections]. *)
Definition compareListed (a b : Listed.t) : Q :=
  if Listed.pinned a && negb (Listed.pinned b) then (-1)%Q
  else if negb (Listed.pinned a) && Listed.pinned b then 1%Q
  else if negb (Qeq_bool (Listed.strength a) (Listed.strength b))
       then (Listed.strength b - Listed.strength a)%Q
  else inject_Z (Listed.timestamp b - Listed.timestamp a).

(** [this.connections.map(c => ({...c, id, pinned: false}))] *)
Definition regularConnections (this : t) : list Listed.t :=
  List.map
    (fun c => Listed.make (Connection.withPinned c false)
                          (getConnectionId c) None)
    (connections this).

(** The array [allConnections] before it is sorted: the pinned entries,
    then each regular entry whose id no pinned entry has. *)
Definition mergedConnections (this : t) : list Listed.t :=
  let pinnedConnections :=
    WeavesStorageManager.getPinnedConnections (storageManager this) in
  pinnedConnections ++
  List.filter
    (fun regular =>
       negb (existsb (fun pinned =>
                        String.eqb (Listed.id pinned) (Listed.id regular))
                     pinnedConnections))
    (regularConnections this).

(** [getAllConnections()] *)
Definition getAllConnections (this : t) : list Listed.t :=
  Js.sort compareListed (mergedConnections this).

(** [analyzeContent(content)].  With the model initialised the result is
    the parsed reply of the model or [minimalFallbackAnalysis(content)];
    that analysis is supplied as [analyzed]. *)
Definition analyzeContent (this : t) (content : string)
  (analyzed : Analysis.t) : Analysis.t :=
  if negb (isInitialized this) then
    Analysis.make "Content requires AI analysis" "unknown" [] "neutral"
      [] [] [] [] "unanalyzed" (Js.substring0 300 content ++ "...")
  else analyzed.

(** The numeric literals of [findConnections] and of the listener. *)
Definition minStrength : Q := Js.double (7 # 10).
Definition maxStrength : Q := Js.double 1.
Definition highQualityStrength : Q := Js.double (75 # 100).

(** The condition under which a parsed line is pushed; [count] is
    [existingAnalyses.length]. *)
Definition validConnection (count : nat) (index : option Z)
  (strength : Js.JsNumber) (reason : string) : bool :=
  match index with
  | Some i => (0 <=? i) && (i <? Z.of_nat count)
  | None => false
  end
  && Js.ge_finite strength minStrength
  && Js.le_finite strength maxStrength
  && (50 <? String.length reason)%nat
  && negb (Js.includes (Js.toLowerCase reason) "both mention")
  && negb (Js.includes (Js.toLowerCase reason) "both discuss")
  && negb (Js.includes (Js.toLowerCase reason) "both are about").

(** [existingContents.slice(0, 4).map(...)]: of the mapped objects only
    [id] and the number of them bear on the result. *)
Definition existingAnalyses (existingContents : list Content.t)
  : list Content.t :=
  Js.slice0 4 existingContents.

(** One turn of the loop over the lines of the reply: the candidate the
    line makes the loop push, if any. *)
Definition parseLine (analyses : list Content.t) (line : string)
  : option Candidate.t :=
  if Js.startsWith line "CONNECT:" then
    let parts :=
      List.map Js.trim (Js.split "|" (Js.replace line "CONNECT:" EmptyString)) in
    match parts with
    | p0 :: p1 :: p2 :: _ =>
        let index := Js.parseInt p0 in
        let strength := Js.parseFloat p1 in
        let reason := p2 in
        if validConnection (List.length analyses) index strength reason then
          match index, strength with
          | Some i, Js.JsFinite q =>
              match nth_error analyses (Z.to_nat i) with
              | Some existing =>
                  Some (Candidate.make (Content.id existing) q reason
                          "academic-insight" "provides-framework")
              | None => None
              end
          | _, _ => None
          end
        else None
    | _ => None
    end
  else None.

Fixpoint parseLines (analyses : list Content.t) (lines : list string)
  : list Candidate.t :=
  match lines with
  | [] => []
  | line :: rest =>
      match parseLine analyses line with
      | Some c => c :: parseLines analyses rest
      | None => parseLines analyses rest
      end
  end.

(** [findConnections(newContent, existingContents)]; [reply] is how the
    prompt built from the two arguments settles. *)
Definition findConnections (this : t) (newContent : Content.t)
  (existingContents : list Content.t) (reply : PromptResult)
  : list Candidate.t :=
  if negb (isInitialized this) then []
  else
    match reply with
    | Rejects _ => []
    | Resolves result =>
        if String.eqb (Js.trim result) "NO_CONNECTIONS" then []
        else parseLines (existingAnalyses existingContents)
                        (Js.split "010" result)
    end.

(** [minimalFallbackConnections(newContent, existingContents)] *)
Definition minimalFallbackConnections (newContent : Content.t)
  (existingContents : list Content.t) : list Candidate.t := [].

End WeavesAI.

(* ================================================================== *)
(** * The chrome.runtime.onMessage listener (background.js) *)
(* ================================================================== *)

Module Listener.

(** [sender.tab], absent when the message does not come from a tab. *)
Record Tab : Type := makeTab {
  tab_id : Z;
  tab_url : string
}.

Record Sender : Type := makeSender {
  tab : option Tab
}.

(** The messages, by their [type]. *)
Inductive Message : Type :=
| CONTENT_UPDATE (title content url domain platform contentType : string)
| GET_CONNECTIONS
| PIN_CONNECTION (connectionId : string)
| UNPIN_CONNECTION (connectionId : string)
| GET_STORAGE_STATS
| DELETE_CONNECTION (connectionId : string)
| CLEAR_DATA
| OTHER (type : string).

(** The objects handed to [sendResponse]. *)
Inductive Response : Type :=
| Processed (connections highQuality : nat)
    (* {success: true, connections, highQuality} *)
| Failed (error : string)
    (* {success: false, error} *)
| Listing (content : list Content.t) (connections : list Listed.t)
    (* {content, connections} *)
| Outcome (success : bool)
    (* {success} *)
| StatsReport (stats : WeavesStorageManager.Stats).
    (* {stats} *)

(** The [success] property of a response object. *)
Definition success (r : Response) : option bool :=
  match r with
  | Processed _ _ => Some true
  | Failed _ => Some false
  | Outcome b => Some b
  | Listing _ _ => None
  | StatsReport _ => None
  end.

(** Calls on [chrome.action]. *)
Inductive ActionCall : Type :=
| setBadgeText (text : string) (tabId : option Z)
| setBadgeBackgroundColor (color : string).

(** What one run of the listener takes from outside: [now k] is what
    the clock reads at the [k]-th point of the run where the code may
    call [Date.now()], [today] what [getCurrentDateString()] returns,
    [analyzed] and [reply] what the language model path yields. *)
Record Env : Type := makeEnv {
  now : nat -> Z;
  today : string;
  analyzed : Analysis.t;
  reply : PromptResult
}.

(** The state the listener works on: the [weavesAI] instance, the
    storage, the calls made on [chrome.action], and how many clock
    points the run has passed. *)
Record World : Type := makeWorld {
  weavesAI : WeavesAI.t;
  storage : Storage.t;
  action : list ActionCall;
  clock : nat
}.

(** One [if (message.type === ...)] block: the world it leaves and the
    responses it sends. *)
Definition Branch : Type := World -> World * list Response.

Definition andThen (b1 b2 : Branch) : Branch :=
  fun w =>
    let '(w1, r1) := b1 w in
    let '(w2, r2) := b2 w1 in
    (w2, (r1 ++ r2)%list).

Definition skip : Branch := fun w => (w, []).

(** [Array.from(contentStore.values()).sort((a, b) => b.timestamp - a.timestamp)] *)
Definition byRecency (a b : Content.t) : Q :=
  inject_Z (Content.timestamp b - Content.timestamp a).

(** The separator of the [platforms] property.  Two of its three
    characters lie outside the code units kept here, so it stands as the
    eight bytes it has in the source file. *)
Definition arrow : string :=
  String "195" (String "162" (String "226" (String "128" (String "160"
    (String "226" (String "128" (String "153" EmptyString))))))).

(** The connection pushed for a candidate [conn] of the item [content]. *)
Definition recordConnection (store : Js.Map Content.t) (content : Content.t)
  (conn : Candidate.t) (at_ : Z) : Connection.t :=
  let targetContent := Js.get store (Candidate.contentId conn) in
  let targetTitle :=
    match targetContent with
    | Some c => if String.eqb (Content.title c) EmptyString then "Unknown"
                else Content.title c
    | None => "Unknown"
    end in
  let targetUrl :=
    match targetContent with
    | Some c => Content.url c
    | None => EmptyString
    end in
  Connection.make (Content.id content) (Candidate.contentId conn)
    (Content.title content) targetTitle (Content.url content) targetUrl
    (Candidate.strength conn) (Candidate.reason conn) (Candidate.type conn)
    (Candidate.relationship conn) at_
    (Content.title content ++ " " ++ arrow ++ " " ++ targetTitle) None.

(** The [forEach] over the candidates: the [k]-th push reads the clock
    at point [from + k]. *)
Fixpoint recordConnections (store : Js.Map Content.t) (content : Content.t)
  (env : Env) (from : nat) (conns : list Candidate.t) : list Connection.t :=
  match conns with
  | [] => []
  | conn :: rest =>
      recordConnection store content conn (now env from)
        :: recordConnections store content env (S from) rest
  end.

(** [connections.filter(c => c.strength >= 0.75)] *)
Definition highQualityConnections (conns : list Candidate.t)
  : list Candidate.t :=
  List.filter
    (fun c => Qle_bool WeavesAI.highQualityStrength (Candidate.strength c))
    conns.

Definition tabUndefined : string :=
  "Cannot read properties of undefined (reading 'id')".

(** [if (message.type === 'CONTENT_UPDATE')] *)
Definition onContentUpdate (env : Env) (sender : Sender)
  (title content domain platform contentType : string) : Branch :=
  fun w =>
    match tab sender with
    | None => (w, [Failed tabUndefined])
    | Some t =>
        let ai := weavesAI w in
        let k := clock w in
        let tabId := tab_id t in
        let item :=
          Content.make (Js.toString tabId ++ "-" ++ Js.toString (now env k))
            tabId (tab_url t) title content domain platform contentType
            (now env (S k))
            (WeavesAI.analyzeContent ai content (analyzed env)) in
        let store := Js.set (WeavesAI.contentStore ai) (Content.id item) item in
        let existingContents :=
          Js.slice0 12
            (Js.sort byRecency
               (List.filter
                  (fun c => negb (String.eqb (Content.id c) (Content.id item)))
                  (Js.values store))) in
        let connections :=
          WeavesAI.findConnections ai item existingContents (reply env) in
        let recorded :=
          recordConnections store item env (S (S k)) connections in
        let ai' :=
          WeavesAI.withConnections (WeavesAI.withContentStore ai store)
            (WeavesAI.connections ai ++ recorded)%list in
        let k' := (S (S k) + List.length connections)%nat in
        let storage' := WeavesAI.saveData (now env k') ai' (storage w) in
        let highQuality := highQualityConnections connections in
        let action' :=
          match highQuality with
          | [] => action w
          | _ :: _ =>
              (action w ++
              [setBadgeText
                 (Js.toString (Z.of_nat (List.length highQuality)))
                 (Some tabId);
               setBadgeBackgroundColor "#4CAF50"])%list
          end in
        (makeWorld ai' storage' action' (S k'),
         [Processed (List.length connections) (List.length highQuality)])
    end.

(** [if (message.type === 'GET_CONNECTIONS')] *)
Definition onGetConnections : Branch :=
  fun w =>
    let ai := weavesAI w in
    let recentContent :=
      Js.slice0 25 (Js.sort byRecency (Js.values (WeavesAI.contentStore ai))) in
    let allConnections := Js.slice0 50 (WeavesAI.getAllConnections ai) in
    (w, [Listing recentContent allConnections]).

(** The first [if (message.type === 'PIN_CONNECTION')] *)
Definition onPinConnection1 (env : Env) (connectionId : string) : Branch :=
  fun w =>
    let '(ok, ai', storage') :=
      WeavesAI.pinConnection connectionId (now env (clock w)) (today env)
        (weavesAI w) (storage w) in
    (makeWorld ai' storage' (action w) (S (clock w)), [Outcome ok]).

(** The first [if (message.type === 'UNPIN_CONNECTION')] *)
Definition onUnpinConnection1 (connectionId : string) : Branch :=
  fun w =>
    let '(ok, ai', storage') :=
      WeavesAI.unpinConnection connectionId (weavesAI w) (storage w) in
    (makeWorld ai' storage' (action w) (clock w), [Outcome ok]).

(** [if (message.type === 'GET_STORAGE_STATS')] *)
Definition onGetStorageStats : Branch :=
  fun w =>
    (w, [StatsReport
           (WeavesStorageManager.getStorageStats
              (WeavesAI.storageManager (weavesAI w)) (storage w))]).

(** [weavesAI.connections.filter(conn => getConnectionId(conn) !== connectionId)] *)
Definition withoutConnection (connectionId : string)
  (l : list Connection.t) : list Connection.t :=
  List.filter
    (fun conn => negb (String.eqb (WeavesAI.getConnectionId conn) connectionId))
    l.

(** The first [if (message.type === 'DELETE_CONNECTION')] *)
Definition onDeleteConnection1 (env : Env) (connectionId : string) : Branch :=
  fun w =>
    let ai := weavesAI w in
    let ai1 :=
      WeavesAI.withConnections ai
        (withoutConnection connectionId (WeavesAI.connections ai)) in
    let '(_, ai2, storage2) :=
      WeavesAI.unpinConnection connectionId ai1 (storage w) in
    let storage3 := WeavesAI.saveData (now env (clock w)) ai2 storage2 in
    (makeWorld ai2 storage3 (action w) (S (clock w)), [Outcome true]).

(** [if (message.type === 'CLEAR_DATA')] *)
Definition onClearData (env : Env) : Branch :=
  fun w =>
    let ai :=
      WeavesAI.withConnections (WeavesAI.withContentStore (weavesAI w) []) [] in
    let action' := (action w ++ [setBadgeText EmptyString None])%list in
    let storage' := WeavesAI.saveData (now env (clock w)) ai (storage w) in
    (makeWorld ai storage' action' (S (clock w)), [Outcome true]).

(** [connection.pinned = b] on the object that [find] returned: the
    first element of the array with that id. *)
Fixpoint markPinned (connectionId : string) (b : bool)
  (l : list Connection.t) : list Connection.t :=
  match l with
  | [] => []
  | c :: r =>
      if String.eqb (WeavesStorageManager.generateConnectionId c) connectionId
      then Connection.withPinned c b :: r
      else c :: markPinned connectionId b r
  end.

(** The second [if (message.type === 'PIN_CONNECTION')] *)
Definition onPinConnection2 (env : Env) (connectionId : string) : Branch :=
  fun w =>
    let ai := weavesAI w in
    match WeavesAI.findConnection ai connectionId with
    | Some connection =>
        let ai1 :=
          WeavesAI.withConnections ai
            (markPinned connectionId true (WeavesAI.connections ai)) in
        let '(_, m, storage1) :=
          WeavesStorageManager.pinConnection connectionId
            (Connection.withPinned connection true)
            (now env (clock w)) (today env)
            (WeavesAI.storageManager ai1) (storage w) in
        let ai2 := WeavesAI.withStorageManager ai1 m in
        let storage2 := WeavesAI.saveData (now env (S (clock w))) ai2 storage1 in
        (makeWorld ai2 storage2 (action w) (S (S (clock w))), [Outcome true])
    | None => (w, [Failed "Connection not found"])
    end.

(** The second [if (message.type === 'UNPIN_CONNECTION')] *)
Definition onUnpinConnection2 (env : Env) (connectionId : string) : Branch :=
  fun w =>
    let ai := weavesAI w in
    let ai1 :=
      WeavesAI.withConnections ai
        (markPinned connectionId false (WeavesAI.connections ai)) in
    let '(_, m, storage1) :=
      WeavesStorageManager.unpinConnection connectionId
        (WeavesAI.storageManager ai1) (storage w) in
    let ai2 := WeavesAI.withStorageManager ai1 m in
    let storage2 := WeavesAI.saveData (now env (clock w)) ai2 storage1 in
    (makeWorld ai2 storage2 (action w) (S (clock w)), [Outcome true]).

(** The second [if (message.type === 'DELETE_CONNECTION')] *)
Definition onDeleteConnection2 (env : Env) (connectionId : string) : Branch :=
  fun w =>
    let ai := weavesAI w in
    let initialLength := List.length (WeavesAI.connections ai) in
    let ai1 :=
      WeavesAI.withConnections ai
        (withoutConnection connectionId (WeavesAI.connections ai)) in
    let wasDeleted :=
      (List.length (WeavesAI.connections ai1) <? initialLength)%nat in
    let '(_, m, storage1) :=
      WeavesStorageManager.unpinConnection connectionId
        (WeavesAI.storageManager ai1) (storage w) in
    let ai2 := WeavesAI.withStorageManager ai1 m in
    let storage2 := WeavesAI.saveData (now env (clock w)) ai2 storage1 in
    (makeWorld ai2 storage2 (action w) (S (clock w)), [Outcome wasDeleted]).

(** The listener: its [if] blocks in the order of the source, each
    guarded by the type of the message.  The result lists the calls of
    [sendResponse] in the order they are made. *)
Definition onMessage (env : Env) (message : Message) (sender : Sender)
  : Branch :=
  match message with
  | CONTENT_UPDATE title content _ domain platform contentType =>
      onContentUpdate env sender title content domain platform contentType
  | GET_CONNECTIONS => onGetConnections
  | PIN_CONNECTION connectionId =>
      andThen (onPinConnection1 env connectionId)
              (onPinConnection2 env connectionId)
  | UNPIN_CONNECTION connectionId =>
      andThen (onUnpinConnection1 connectionId)
              (onUnpinConnection2 env connectionId)
  | GET_STORAGE_STATS => onGetStorageStats
  | DELETE_CONNECTION connectionId =>
      andThen (onDeleteConnection1 env connectionId)
              (onDeleteConnection2 env connectionId)
  | CLEAR_DATA => onClearData env
  | OTHER _ => skip
  end.

(** The periodic sweep registered with [setInterval], run at [nowMs]. *)
Definition sweep (nowMs : Z) (w : World) : World :=
  let oneWeekAgo := nowMs - 7 * 24 * 60 * 60 * 1000 in
  let ai := weavesAI w in
  let store :=
    List.filter (fun e => negb (Content.timestamp (snd e) <? oneWeekAgo))
                (WeavesAI.contentStore ai) in
  let conns :=
    List.filter (fun conn => oneWeekAgo <? Connection.timestamp conn)
                (WeavesAI.connections ai) in
  makeWorld (WeavesAI.withConnections (WeavesAI.withContentStore ai store) conns)
            (storage w) (action w) (clock w).

End Listener.

(* ================================================================== *)
(** * class WeavesContentExtractor (content script) *)
(* ================================================================== *)

Module WeavesContentExtractor.

(** What [extractContent()] returns. *)
Record Extracted : Type := makeExtracted {
  title : string;
  content : string;
  url : string;
  domain : string;
  contentType : string;
  platform : string
}.

(** The field of an instance that the gate reads and writes. *)
Record t : Type := make {
  lastContent : string
}.

(** What [extractContent()] takes from the page: the title of the
    document, the text its selectors gather, with the meta description
    and the page context put before it, the address, and what
    [detectContentType] answers. *)
Record Document : Type := makeDocument {
  documentTitle : string;
  gathered : string;
  href : string;
  hostname : string;
  detectedType : string;
  detectedPlatform : string
}.

(** The end of [extractContent()]:
    [content.replace(/\s+/g, ' ').trim().substring(0, 8000)]. *)
Definition cleanContent (content : string) : string :=
  Js.substring0 8000 (Js.trim (Js.collapseWhiteSpace content)).

(** [extractContent()], from where the text of the page is gathered. *)
Definition extractContent (document : Document) : Extracted :=
  makeExtracted (Js.substring0 200 (documentTitle document))
    (cleanContent (gathered document)) (href document) (hostname document)
    (detectedType document) (detectedPlatform document).

(** [new Set(str.toLowerCase().split(/\s+/))] *)
Definition tokenSet (str : string) : list string :=
  Js.newSet (Js.split_ws (Js.toLowerCase str)).

(** [new Set([...set1].filter(x => set2.has(x)))] *)
Definition intersection (set1 set2 : list string) : list string :=
  Js.newSet (List.filter (Js.setHas set2) set1).

(** [new Set([...set1, ...set2])] *)
Definition union (set1 set2 : list string) : list string :=
  Js.newSet (set1 ++ set2).

(** [contentSimilarity(str1, str2)] *)
Definition contentSimilarity (str1 str2 : string) : Q :=
  if String.eqb str1 EmptyString || String.eqb str2 EmptyString then 0%Q
  else
    let set1 := tokenSet str1 in
    let set2 := tokenSet str2 in
    Js.double
      (Qmake (Z.of_nat (List.length (intersection set1 set2)))
             (Pos.of_nat (List.length (union set1 set2)))).

(** The threshold [0.8] of [extractAndSend]. *)
Definition duplicateThreshold : Q := Js.double (8 # 10).

(** [extractAndSend()] on the page [document]: the instance afterwards
    and the message sent, if one is sent. *)
Definition extractAndSend (document : Document) (this : t)
  : t * option Listener.Message :=
  let extracted := extractContent document in
  if (String.length (content extracted) <? 100)%nat then (this, None)
  else if Js.lt (contentSimilarity (content extracted) (lastContent this))
                duplicateThreshold
  then
    (make (content extracted),
     Some (Listener.CONTENT_UPDATE (title extracted) (content extracted)
             (url extracted) (domain extracted) (platform extracted)
             (contentType extracted)))
  else (this, None).

(** What [extractAndSend] does with the response: the arguments of
    [showConnectionNotification], if it is called. *)
Definition notification (response : Listener.Response)
  : option (nat * bool) :=
  match response with
  | Listener.Processed connections highQuality =>
      if (0 <? highQuality)%nat then Some (highQuality, true)
      else if (0 <? connections)%nat then Some (connections, false)
      else None
  | _ => None
  end.

End WeavesContentExtractor.

(** * A tab and the background together *)

Module Page.

(** One extraction in a tab: what [extractAndSend] sends, if anything,
    reaches the listener of the background with the tab as sender. *)
Definition extraction (env : Listener.Env) (tab : Listener.Tab)
  (document : WeavesContentExtractor.Document)
  (x : WeavesContentExtractor.t) (w : Listener.World)
  : WeavesContentExtractor.t * Listener.World * list Listener.Response :=
  match WeavesContentExtractor.extractAndSend document x with
  | (x', Some message) =>
      let '(w', sent) :=
        Listener.onMessage env message
          (Listener.makeSender (Some tab)) w in
      (x', w', sent)
  | (x', None) => (x', w, [])
  end.

End Page.


(* ================================================================== *)
(** * class WeavesStorageManager (storage-manager.js) *)
(* ================================================================== *)

(** The storage manager of [storage-manager.js]: the same ledger with
    other settings, a retention-based cleanup and no bound on pins. *)
Module StorageManagerJs.

Record SettingsT : Type := makeSettings {
  dailyResetEnabled : bool;
  resetTime : string;
  maxStorageSize : Z;
  retentionDays : Z
}.

Definition DEFAULT_SETTINGS : SettingsT := makeSettings true "00:00" 50 7.

(** A value of the ledger:
    [{...connection, pinned: true, pinnedAt, pinnedVersion}]. *)
Record PinnedT : Type := makePinned {
  connection : Connection.t;
  pinnedAt : Z;
  pinnedVersion : string
}.

(** An entry of the merged view; [id] is [null] when the connection
    lacks one of the fields the id is made of. *)
Record ListedT : Type := makeListed {
  listed : Connection.t;
  id : option string;
  pin : option (Z * string)
}.

(** The value stored under [WEAVES_DATA]. *)
Record DataT : Type := makeData {
  contentStore : list (string * Content.t);
  connections : list Connection.t;
  timestamp : Z;
  version : string
}.

(** [chrome.storage.local] by the keys of [STORAGE_KEYS]. *)
Record StoreT : Type := makeStore {
  WEAVES_DATA : option DataT;
  PINNED_CONNECTIONS : option (list (string * PinnedT));
  LAST_RESET_DATE : option string;
  SETTINGS : option SettingsT
}.

Record t : Type := make {
  pinnedConnections : Js.Map PinnedT;
  settings : SettingsT
}.

(** [generateConnectionId(connection)]: [None] is [null]. *)
Definition generateConnectionId (c : Connection.t) : option string :=
  if String.eqb (Connection.from c) EmptyString
     || String.eqb (Connection.to c) EmptyString
     || (Connection.timestamp c =? 0)
  then None
  else Some (Connection.from c ++ "-" ++ Connection.to c ++ "-"
               ++ Js.toString (Connection.timestamp c)).

(** [savePinnedConnections()] *)
Definition savePinnedConnections (this : t) (store : StoreT) : StoreT :=
  makeStore (WEAVES_DATA store) (Some (Js.entries (pinnedConnections this)))
            (LAST_RESET_DATE store) (SETTINGS store).

(** [cleanupPinnedConnections()] at time [now]. *)
Definition cleanupPinnedConnections (now : Z) (this : t) (store : StoreT)
  : t * StoreT :=
  let retentionMs := retentionDays (settings this) * 24 * 60 * 60 * 1000 in
  let cutoffTime := now - retentionMs in
  let kept :=
    List.filter (fun e => negb (pinnedAt (snd e) <? cutoffTime))
                (pinnedConnections this) in
  let cleanedCount :=
    (List.length (pinnedConnections this) - List.length kept)%nat in
  let this' := make kept (settings this) in
  if (0 <? cleanedCount)%nat then (this', savePinnedConnections this' store)
  else (this', store).

(** [performDailyReset()] *)
Definition performDailyReset (now : Z) (this : t) (store : StoreT)
  : t * StoreT :=
  let store' :=
    makeStore None (PINNED_CONNECTIONS store) (LAST_RESET_DATE store)
              (SETTINGS store) in
  cleanupPinnedConnections now this store'.

(** [checkDailyReset()] *)
Definition checkDailyReset (now : Z) (today : string) (this : t)
  (store : StoreT) : bool * t * StoreT :=
  if negb (dailyResetEnabled (settings this)) then (false, this, store)
  else
    let lastReset := LAST_RESET_DATE store in
    if WeavesStorageManager.differs lastReset today then
      let '(this', store') := performDailyReset now this store in
      (true, this',
       makeStore (WEAVES_DATA store') (PINNED_CONNECTIONS store')
                 (Some today) (SETTINGS store'))
    else (false, this, store).

(** [pinConnection(connection)] at time [now]. *)
Definition pinConnection (connection : Connection.t) (now : Z) (this : t)
  (store : StoreT) : bool * t * StoreT :=
  match generateConnectionId connection with
  | Some connectionId =>
      let this' :=
        make (Js.set (pinnedConnections this) connectionId
                (makePinned (Connection.withPinned connection true) now "1.0"))
             (settings this) in
      (true, this', savePinnedConnections this' store)
  | None => (false, this, store)
  end.

(** [unpinConnection(connectionId)] *)
Definition unpinConnection (connectionId : string) (this : t)
  (store : StoreT) : bool * t * StoreT :=
  let removed := Js.has (pinnedConnections this) connectionId in
  let this' :=
    make (Js.delete (pinnedConnections this) connectionId) (settings this) in
  if removed then (removed, this', savePinnedConnections this' store)
  else (removed, this', store).

(** [isPinned(connectionId)] *)
Definition isPinned (connectionId : string) (this : t) : bool :=
  Js.has (pinnedConnections this) connectionId.

(** [getPinnedConnections()] *)
Definition getPinnedConnections (this : t) : list ListedT :=
  List.map
    (fun conn =>
       makeListed (Connection.withPinned (connection conn) true)
                  (generateConnectionId (connection conn))
                  (Some (pinnedAt conn, pinnedVersion conn)))
    (Js.values (pinnedConnections this)).

(** [pinnedConn.id === regularConn.id] *)
Definition sameId (a b : option string) : bool :=
  match a, b with
  | Some x, Some y => String.eqb x y
  | None, None => true
  | _, _ => false
  end.

(** The comparator of [getAllConnections]. *)
Definition compareListed (a b : ListedT) : Q :=
  let pa := Connection.isPinned (listed a) in
  let pb := Connection.isPinned (listed b) in
  let sa := Connection.strength (listed a) in
  let sb := Connection.strength (listed b) in
  if pa && negb pb then (-1)%Q
  else if negb pa && pb then 1%Q
  else if negb (Qeq_bool sa sb) then (sb - sa)%Q
  else inject_Z (Connection.timestamp (listed b)
                 - Connection.timestamp (listed a)).

(** [getAllConnections(regularConnections)] *)
Definition getAllConnections (regularConnections : list Connection.t)
  (this : t) : list ListedT :=
  let regular :=
    List.map
      (fun c => makeListed (Connection.withPinned c false)
                           (generateConnectionId c) None)
      regularConnections in
  let pinned := getPinnedConnections this in
  Js.sort compareListed
    (pinned ++
     List.filter
       (fun regularConn =>
          negb (existsb (fun pinnedConn => sameId (id pinnedConn) (id regularConn))
                        pinned))
       regular).

End StorageManagerJs.

(** * The orders and measures of the specification, in its words *)

Module Spec.

(** The order of the merged view: pinned before unpinned, then by
    strength descending, then by timestamp descending. *)
Definition ranked (pa : bool) (sa : Q) (ta : Z) (pb : bool) (sb : Q) (tb : Z)
  : Prop :=
  (pa = true /\ pb = false) \/
  (pa = pb /\ ((sb < sa)%Q \/ ((sa == sb)%Q /\ tb <= ta))).

Definition inOrder (a b : Listed.t) : Prop :=
  ranked (Listed.pinned a) (Listed.strength a) (Listed.timestamp a)
         (Listed.pinned b) (Listed.strength b) (Listed.timestamp b).

(** The same order on the entries of storage-manager.js. *)
Definition inOrderJs (a b : StorageManagerJs.ListedT) : Prop :=
  ranked (Connection.isPinned (StorageManagerJs.listed a))
         (Connection.strength (StorageManagerJs.listed a))
         (Connection.timestamp (StorageManagerJs.listed a))
         (Connection.isPinned (StorageManagerJs.listed b))
         (Connection.strength (StorageManagerJs.listed b))
         (Connection.timestamp (StorageManagerJs.listed b)).

(** The ledger is a map (no key twice) within the configured maximum. *)
Definition ledgerWithinCapacity (m : WeavesStorageManager.t) : Prop :=
  NoDup (Js.keys (WeavesStorageManager.pinnedConnections m))
  /\ Z.of_nat (Js.size (WeavesStorageManager.pinnedConnections m))
     <= Settings.maxPinnedConnections (WeavesStorageManager.settings m).

(** The shallow-connection phrases. *)
Definition shallowPhrases : list string :=
  ["both mention"; "both discuss"; "both are about"].

(** What is asked of an accepted candidate: a strength between the
    numbers that [0.7] and [1.0] denote, a reason of more than 50
    characters, and none of the shallow phrases in the lower-cased reason. *)
Definition acceptable (strength : Q) (reason : string) : Prop :=
  (WeavesAI.minStrength <= strength)%Q
  /\ (strength <= WeavesAI.maxStrength)%Q
  /\ (50 < String.length reason)%nat
  /\ forall phrase, In phrase shallowPhrases ->
       Js.includes (Js.toLowerCase reason) phrase = false.

(** The lines of a reply that announce a connection. *)
Definition connectLines (text : string) : list string :=
  List.filter (fun line => Js.startsWith line "CONNECT:") (Js.split "010" text).

(** [|intersection| / |union|] over the lower-cased, whitespace-split
    tokens of the two texts, as an exact ratio. *)
Definition jaccard (a b : string) : Q :=
  let A := WeavesContentExtractor.tokenSet a in
  let B := WeavesContentExtractor.tokenSet b in
  Qmake (Z.of_nat (List.length (WeavesContentExtractor.intersection A B)))
        (Pos.of_nat (List.length (WeavesContentExtractor.union A B))).

(** The entry of the merged view that stands for a value [p] of the
    ledger, and the one that stands for a connection [c] of the list. *)
Definition pinnedEntry (p : Pinned.t) : Listed.t :=
  Listed.make (Connection.withPinned (Pinned.connection p) true)
    (WeavesStorageManager.generateConnectionId (Pinned.connection p))
    (Some (Pinned.pinnedAt p, Pinned.pinnedDate p)).

Definition plainEntry (c : Connection.t) : Listed.t :=
  Listed.make (Connection.withPinned c false)
    (WeavesStorageManager.generateConnectionId c) None.

(** No entry of the ledger is for a connection with the composite id of
    [c]. *)
Definition unmatchedBy (ledger : Js.Map Pinned.t) (c : Connection.t) : Prop :=
  forall k p, In (k, p) ledger ->
    WeavesStorageManager.generateConnectionId (Pinned.connection p)
    <> WeavesStorageManager.generateConnectionId c.

(** The three fields of a line [CONNECT: index | strength | reason], if
    it has that many. *)
Definition fields (line : string) : option (string * string * string) :=
  match List.map Js.trim
          (Js.split "|" (Js.replace line "CONNECT:" EmptyString)) with
  | p0 :: p1 :: p2 :: _ => Some (p0, p1, p2)
  | _ => None
  end.

(** A line of the reply passes the validation against [count] compared
    contents, with index [i], strength [q] and reason [reason]: it starts
    with CONNECT:, its index names one of the contents, and its strength
    and reason are acceptable. *)
Definition accepted (count : nat) (line : string) (i : Z) (q : Q)
  (reason : string) : Prop :=
  Js.startsWith line "CONNECT:" = true
  /\ exists p0 p1,
       fields line = Some (p0, p1, reason)
       /\ Js.parseInt p0 = Some i /\ 0 <= i < Z.of_nat count
       /\ Js.parseFloat p1 = Js.JsFinite q
       /\ acceptable q reason.

(** [links] holds, in the order of [lines], one link for each line that
    passes the validation and none for the others: the id of the content
    the line names, its strength and its reason. *)
Fixpoint oneForEachAccepted (compared : list Content.t) (lines : list string)
  (links : list (string * Q * string)) : Prop :=
  match lines with
  | [] => links = []
  | line :: rest =>
      (exists i q reason target links',
          accepted (List.length compared) line i q reason
          /\ nth_error compared (Z.to_nat i) = Some target
          /\ links = (Content.id target, q, reason) :: links'
          /\ oneForEachAccepted compared rest links')
      \/ ((forall i q reason,
             ~ accepted (List.length compared) line i q reason)
          /\ oneForEachAccepted compared rest links)
  end.

(** The link a recorded connection stands for. *)
Definition linkOf (c : Connection.t) : string * Q * string :=
  (Connection.to c, Connection.strength c, Connection.reason c).

End Spec.

(* ================================================================== *)
(** * Sample data *)
(* ================================================================== *)

(** Concrete states and messages on which the statements below are
    exercised. *)
Module Sample.

Definition analysis : Analysis.t :=
  Analysis.make "core" "analyzed" [] "neutral" [] [] [] [] "general" "sum...".

Definition item (id title : string) (timestamp : Z) : Content.t :=
  Content.make id 7 ("https://example.org/" ++ id) title
    "text of the page" "example.org" "Web" "general" timestamp analysis.

Definition connection (from to : string) (strength : Q) (timestamp : Z)
  : Connection.t :=
  Connection.make from to "From" "To" "u" "v" strength "why" "academic-insight"
    "provides-framework" timestamp "From -> To" None.

Definition emptyStorage : Storage.t := Storage.make None None None None.

Definition emptyManager : WeavesStorageManager.t :=
  WeavesStorageManager.make [] WeavesStorageManager.DEFAULT_SETTINGS.

(** A ledger of [n] entries under the default settings, the [k]-th pinned
    at time [k]. *)
Definition ledgerOf (n : nat) : WeavesStorageManager.t :=
  WeavesStorageManager.make
    (List.map
       (fun k =>
          let c := connection "a" "b" (8 # 10) (Z.of_nat k) in
          (WeavesStorageManager.generateConnectionId c,
           Pinned.make (Connection.withPinned c true) (Z.of_nat k)
                       "Mon Jan 01 2024"))
       (List.seq 1 n))
    WeavesStorageManager.DEFAULT_SETTINGS.

Definition day : Z := 24 * 60 * 60 * 1000.

(** Thirty days after the pins of [ledgerOf] were made. *)
Definition later : Z := 30 * day.

Definition env (reply : PromptResult) : Listener.Env :=
  Listener.makeEnv (fun k => later + Z.of_nat k) "Wed Jan 31 2024" analysis reply.

Definition tab : Listener.Tab := Listener.makeTab 7 "https://example.org/new".
Definition sender : Listener.Sender := Listener.makeSender (Some tab).

Definition emptyWorld : Listener.World :=
  Listener.makeWorld (WeavesAI.make true [] [] emptyManager) emptyStorage [] 0.

(** A background with the model initialised and two items in the store. *)
Definition world2 : Listener.World :=
  Listener.makeWorld
    (WeavesAI.make true
       [("7-1", item "7-1" "First" 1); ("7-2", item "7-2" "Second" 2)]
       [] emptyManager)
    emptyStorage [] 0.

(** The same background before the model is initialised. *)
Definition world2_uninitialized : Listener.World :=
  Listener.makeWorld
    (WeavesAI.make false
       [("7-1", item "7-1" "First" 1); ("7-2", item "7-2" "Second" 2)]
       [] emptyManager)
    emptyStorage [] 0.

Definition newline : string := String "010" EmptyString.

(** A reason of 67 characters without a shallow phrase. *)
Definition reason : string :=
  "This framework explains how the method in one applies to the other.".

(** A reply of three well-formed lines. *)
Definition reply3 : string :=
  "CONNECT: 0 | 0.9 | " ++ reason ++ newline ++
  "CONNECT: 1 | 0.8 | " ++ reason ++ newline ++
  "CONNECT: 0 | 0.7 | " ++ reason.

Definition shallowReply : string := "CONNECT: 0 | 0.9 | both discuss climate".

Definition update : Listener.Message :=
  Listener.CONTENT_UPDATE "New" "text of the new page" "https://example.org/new"
    "example.org" "Web" "general".

(** A background with three regular connections, the first of them
    pinned in the ledger. *)
Definition aiWithPin : WeavesAI.t :=
  WeavesAI.make true []
    [connection "a" "b" (8 # 10) 1; connection "x" "y" (9 # 10) 4;
     connection "x" "z" (9 # 10) 7]
    (ledgerOf 1).

(** A text of 105 characters and a near copy of it: 19 of the 20 tokens
    of the two are shared. *)
Definition text : string :=
  "the quick brown fox jumps over the lazy dog while the cat sleeps on a warm mat near the old fireplace now".

Definition textAgain : string :=
  "The quick brown fox jumps over the lazy dog while the cat sleeps on a warm mat near the old fireplace NOW again".

(** A page whose gathered text is [gathered]. *)
Definition document (gathered : string) : WeavesContentExtractor.Document :=
  WeavesContentExtractor.makeDocument "New" gathered "https://example.org/new"
    "example.org" "general" "Web".

End Sample.

(* ================================================================== *)
(** * The popup script *)
(* ================================================================== *)

(** The functions of the popup through which a connection of the listing
    becomes a PIN_CONNECTION, UNPIN_CONNECTION or DELETE_CONNECTION
    message.  A connection is an entry of the listing as the background
    sent it. *)
Module Popup.

(** The global state the functions share. *)
Record t : Type := make {
  currentConnections : list Listed.t;
  pinnedConnections : list Listed.t
}.

(** [connection.from && connection.to && connection.timestamp] *)
Definition hasRequiredFields (connection : Listed.t) : bool :=
  negb (String.eqb (Connection.from (Listed.connection connection)) EmptyString)
  && negb (String.eqb (Connection.to (Listed.connection connection)) EmptyString)
  && negb (Listed.timestamp connection =? 0).

(** Truthiness of [connection.id]. *)
Definition hasId (connection : Listed.t) : bool :=
  negb (String.eqb (Listed.id connection) EmptyString).

(** [generateConnectionId(connection)] of the popup; [None] is [null]. *)
Definition generateConnectionId (connection : Listed.t) : option string :=
  if hasId connection then Some (Listed.id connection)
  else if hasRequiredFields connection then
    Some (Connection.from (Listed.connection connection) ++ "-"
            ++ Connection.to (Listed.connection connection) ++ "-"
            ++ Js.toString (Listed.timestamp connection))
  else None.

(** [connection.id || generateConnectionId(connection)] *)
Definition idOf (connection : Listed.t) : option string :=
  if hasId connection then Some (Listed.id connection)
  else generateConnectionId connection.

(** The filter of [loadConnectionsData]. *)
Definition validConnections (connections : list Listed.t) : list Listed.t :=
  List.filter
    (fun connection =>
       hasRequiredFields connection
       && (hasId connection || hasRequiredFields connection))
    connections.

(** [loadConnectionsData()] once the response has arrived; [None] is no
    response.  A response without a [connections] array leaves nothing to
    show. *)
Definition loadConnectionsData (response : option Listener.Response) : t :=
  match response with
  | Some (Listener.Listing _ connections) =>
      let valid := validConnections connections in
      make valid (List.filter Listed.pinned valid)
  | _ => make [] []
  end.

(** [currentConnections.slice(0, 12)] of [displayConnections]. *)
Definition displayed (this : t) : list Listed.t :=
  Js.slice0 12 (currentConnections this).

(** The [data-action] of the buttons. *)
Inductive Action : Type :=
| pin
| unpin
| delete.

(** The pin button [createConnectionHTML(connection, isPinned)] makes:
    its [data-connection-id] and [data-action]. *)
Definition pinButton (connection : Listed.t) (isPinned : bool)
  : option string * Action :=
  (idOf connection,
   if isPinned || Listed.pinned connection then unpin else pin).

(** The delete button of the same item. *)
Definition deleteButton (connection : Listed.t) : option string * Action :=
  (idOf connection, delete).

(** [currentConnections.find(c => (c.id || generateConnectionId(c)) === connectionId)] *)
Definition findConnection (this : t) (connectionId : string)
  : option Listed.t :=
  List.find
    (fun c => match idOf c with
              | Some i => String.eqb i connectionId
              | None => false
              end)
    (currentConnections this).

(** The message [togglePin(connectionId, isCurrentlyPinned)] sends
    first, no refresh being under way ([isRefreshing] false): the pin or
    unpin for a connection the popup holds, and for an id it does not
    hold the GET_CONNECTIONS of [loadConnectionsData()].  The refresh
    that follows the answer is not followed here. *)
Definition togglePin (connectionId : string) (isCurrentlyPinned : bool)
  (this : t) : option Listener.Message :=
  match findConnection this connectionId with
  | None => Some Listener.GET_CONNECTIONS
  | Some _ =>
      Some (if isCurrentlyPinned then Listener.UNPIN_CONNECTION connectionId
            else Listener.PIN_CONNECTION connectionId)
  end.

(** The message [deleteConnection(connectionId)] sends first, under the
    same condition: the delete for a connection the popup holds, the
    GET_CONNECTIONS of the refresh for an id it does not hold. *)
Definition deleteConnection (connectionId : string) (this : t)
  : option Listener.Message :=
  match findConnection this connectionId with
  | None => Some Listener.GET_CONNECTIONS
  | Some _ => Some (Listener.DELETE_CONNECTION connectionId)
  end.

(** [handleConnectionClick] on a button that carries an id and an
    action. *)
Definition handleConnectionClick (connectionId : string) (action : Action)
  (this : t) : option Listener.Message :=
  match action with
  | pin => togglePin connectionId false this
  | unpin => togglePin connectionId true this
  | delete => deleteConnection connectionId this
  end.

End Popup.

(* ================================================================== *)
(** * Conditions on the state *)
(* ================================================================== *)

Module Inv.

(** Every entry of the ledger is stored under the composite id of its
    connection. *)
Definition ledgerKeyed (m : WeavesStorageManager.t) : Prop :=
  forall k p, In (k, p) (WeavesStorageManager.pinnedConnections m) ->
    WeavesStorageManager.generateConnectionId (Pinned.connection p) = k.

(** The content store is a map whose entries are stored under their
    [id]. *)
Definition storeKeyed (store : Js.Map Content.t) : Prop :=
  NoDup (Js.keys store)
  /\ forall k c, In (k, c) store -> Content.id c = k.

(** The storage holds what the instance holds: the daily data saved are
    the content store and the connection list, the pinned connections
    saved are the ledger. *)
Definition persisted (w : Listener.World) : Prop :=
  (exists t,
      Storage.DAILY_DATA (Listener.storage w)
      = Some (Storage.makeDaily
                (Js.entries (WeavesAI.contentStore (Listener.weavesAI w)))
                (WeavesAI.connections (Listener.weavesAI w)) t))
  /\ Storage.PINNED_CONNECTIONS (Listener.storage w)
     = Some (Js.entries
               (WeavesStorageManager.pinnedConnections
                  (WeavesAI.storageManager (Listener.weavesAI w)))).

(** The messages that write the daily data whatever the state. *)
Definition saves (message : Listener.Message) (sender : Listener.Sender)
  : bool :=
  match message with
  | Listener.CONTENT_UPDATE _ _ _ _ _ _ =>
      match Listener.tab sender with
      | Some _ => true
      | None => false
      end
  | Listener.UNPIN_CONNECTION _ => true
  | Listener.DELETE_CONNECTION _ => true
  | Listener.CLEAR_DATA => true
  | _ => false
  end.

End Inv.

(** * More sample data *)

Module More.

(** The default settings with room for two pins only. *)
Definition tightSettings : Settings.t := Settings.make true "midnight" 100 2 7.

(** A ledger of three entries, pinned at times 1, 2 and 3, under
    [tightSettings]. *)
Definition crowded : WeavesStorageManager.t :=
  WeavesStorageManager.make
    (WeavesStorageManager.pinnedConnections (Sample.ledgerOf 3)) tightSettings.

(** A ledger of storage-manager.js with an entry pinned at time 1 and one
    pinned 29 days later, under the default settings. *)
Definition jsLedger : StorageManagerJs.t :=
  StorageManagerJs.make
    [("a-b-1",
      StorageManagerJs.makePinned
        (Connection.withPinned (Sample.connection "a" "b" (8 # 10) 1) true) 1 "1.0");
     ("a-c-2",
      StorageManagerJs.makePinned
        (Connection.withPinned (Sample.connection "a" "c" (8 # 10) 2) true)
        (29 * Sample.day) "1.0")]
    StorageManagerJs.DEFAULT_SETTINGS.

Definition jsStore : StorageManagerJs.StoreT :=
  StorageManagerJs.makeStore None None None None.

(** A background with two items, a connection between them that is not
    pinned, and an empty ledger; its storage holds the same. *)
Definition listed : Connection.t :=
  Connection.make "7-2" "7-1" "Second" "First" "https://example.org/7-2"
    "https://example.org/7-1" (9 # 10) Sample.reason "academic-insight"
    "provides-framework" 5 "Second -> First" None.

Definition background : Listener.World :=
  let store := [("7-1", Sample.item "7-1" "First" 1);
                ("7-2", Sample.item "7-2" "Second" 2)] in
  Listener.makeWorld
    (WeavesAI.make true store [listed] Sample.emptyManager)
    (Storage.make (Some (Storage.makeDaily store [listed] 6)) (Some [])
                  (Some "Wed Jan 31 2024") None)
    [] 0.

(** The sample background after its connection was pinned at time 7: the
    connection is flagged in the list and held by the ledger. *)
Definition pinnedBackground : Listener.World :=
  let store := [("7-1", Sample.item "7-1" "First" 1);
                ("7-2", Sample.item "7-2" "Second" 2)] in
  let ledger :=
    [("7-2-7-1-5",
      Pinned.make (Connection.withPinned listed true) 7 "Wed Jan 31 2024")] in
  Listener.makeWorld
    (WeavesAI.make true store [Connection.withPinned listed true]
       (WeavesStorageManager.make ledger WeavesStorageManager.DEFAULT_SETTINGS))
    (Storage.make
       (Some (Storage.makeDaily store [Connection.withPinned listed true] 8))
       (Some ledger) (Some "Wed Jan 31 2024") None)
    [] 2.

(** A line that passes the validation whenever there is a content to
    compare with, and the reply made of [n] such lines, each ended by a
    line feed. *)
Definition validLine : string := "CONNECT: 0 | 0.9 | " ++ Sample.reason.

Fixpoint replyOf (n : nat) : string :=
  match n with
  | O => EmptyString
  | S k => validLine ++ Sample.newline ++ replyOf k
  end.

End More.

(* ================================================================== *)
(** * Facts about the primitives *)
(* ================================================================== *)

Section MapFacts.
Context {V : Type}.
Implicit Types (m : Js.Map V) (k : string) (v : V).

Lemma get_set_same m k v : Js.get (Js.set m k v) k = Some v.
Proof.
  induction m as [| [k' v'] r IH]; simpl.
  - now rewrite String.eqb_refl.
  - destruct (String.eqb k' k) eqn:E; simpl; rewrite E; auto.
Qed.

Lemma delete_absent m k : Js.has m k = false -> Js.delete m k = m.
Proof.
  induction m as [| [k' v'] r IH]; simpl; auto.
  intros H. apply orb_false_iff in H as [E H]. rewrite E, IH; auto.
Qed.

Lemma size_delete_le m k : (Js.size (Js.delete m k) <= Js.size m)%nat.
Proof.
  unfold Js.size.
  induction m as [| [k' v'] r IH]; simpl; auto.
  destruct (String.eqb k' k); simpl; lia.
Qed.

Lemma delete_incl m k e : In e (Js.delete m k) -> In e m.
Proof.
  induction m as [| [k' v'] r IH]; simpl; auto.
  destruct (String.eqb k' k); simpl; intuition.
Qed.
End MapFacts.

(** ** The stable sort *)

Section SortFacts.
Context {A : Type} (compareFn : A -> A -> Q).

Local Abbreviation notAfter := (Js.notAfter compareFn).
Local Abbreviation sameRank := (Js.sameRank compareFn).

Lemma insert_perm x l : Permutation (Js.insert compareFn x l) (x :: l).
Proof.
  induction l as [| y r IH]; simpl; auto.
  destruct (Qle_bool (compareFn x y) 0); auto.
  rewrite IH. apply perm_swap.
Qed.

Lemma sort_perm l : Permutation (Js.sort compareFn l) l.
Proof.
  induction l as [| x r IH]; simpl; auto.
  rewrite insert_perm. now constructor.
Qed.

Lemma sort_In l x : In x (Js.sort compareFn l) <-> In x l.
Proof.
  split; apply Permutation_in; [| symmetry]; apply sort_perm.
Qed.

Lemma sort_length l : List.length (Js.sort compareFn l) = List.length l.
Proof. apply Permutation_length, sort_perm. Qed.

(** The comparator is consistent: any two elements compare one way or
    the other, and transitively. *)
Hypothesis total : forall a b, notAfter a b \/ notAfter b a.
Hypothesis trans : forall a b c, notAfter a b -> notAfter b c -> notAfter a c.

Lemma insert_sorted x l :
  StronglySorted notAfter l -> StronglySorted notAfter (Js.insert compareFn x l).
Proof.
  induction 1 as [| y r Hs IH Hy]; simpl.
  - repeat constructor.
  - destruct (Qle_bool (compareFn x y) 0) eqn:E.
    + constructor; [constructor; auto |].
      constructor; [exact E |].
      eapply Forall_impl; [| exact Hy]. intros z Hz. eapply trans; eauto.
    + constructor; auto.
      assert (Hyx : notAfter y x).
      { destruct (total x y) as [H | H]; auto. unfold notAfter in H. congruence. }
      rewrite Forall_forall in *. intros z Hz.
      apply (Permutation_in _ (insert_perm x r)) in Hz.
      destruct Hz as [<- | Hz]; auto.
Qed.

Lemma sort_sorted l : StronglySorted notAfter (Js.sort compareFn l).
Proof.
  induction l as [| x r IH]; simpl; [constructor | now apply insert_sorted].
Qed.

Lemma insert_sameRank k x l :
  filter (sameRank k) (Js.insert compareFn x l) = filter (sameRank k) (x :: l).
Proof.
  induction l as [| y r IH]; auto.
  cbn [Js.insert].
  destruct (Qle_bool (compareFn x y) 0) eqn:E; auto.
  cbn [filter] in *. rewrite IH.
  destruct (sameRank k x) eqn:Ex, (sameRank k y) eqn:Ey; auto.
  exfalso.
  apply andb_true_iff in Ex as [Ekx Exk], Ey as [Eky Eyk].
  assert (notAfter x y) by (eapply trans; eauto).
  unfold notAfter in *. congruence.
Qed.

(** Stability: the elements of one rank keep the order they came in. *)
Lemma sort_stable k l :
  filter (sameRank k) (Js.sort compareFn l) = filter (sameRank k) l.
Proof.
  induction l as [| x r IH]; auto.
  cbn [Js.sort fold_right]. fold (Js.sort compareFn r).
  rewrite insert_sameRank. cbn [filter]. now rewrite IH.
Qed.
End SortFacts.

(** ** The comparator of the merged view *)

Lemma inject_Z_nonpos (z : Z) : Qle_bool (inject_Z z) 0 = true <-> z <= 0.
Proof.
  rewrite Qle_bool_iff. unfold Qle, inject_Z; simpl. lia.
Qed.

Lemma comparator_ranked (pa : bool) (sa : Q) (ta : Z) (pb : bool) (sb : Q)
  (tb : Z) :
  Qle_bool
    (if pa && negb pb then (-1)%Q
     else if negb pa && pb then 1%Q
     else if negb (Qeq_bool sa sb) then (sb - sa)%Q
     else inject_Z (tb - ta)) 0 = true
  <-> Spec.ranked pa sa ta pb sb tb.
Proof.
  unfold Spec.ranked.
  destruct pa, pb; cbn [andb negb].
  - destruct (Qeq_bool sa sb) eqn:E; cbn [negb].
    + apply Qeq_bool_iff in E. rewrite inject_Z_nonpos.
      split.
      * intros H. right. split; auto. right. split; auto. lia.
      * intros [[_ H] | [_ [H | [_ H]]]]; [discriminate | lra | lia].
    + apply Qeq_bool_neq in E. rewrite Qle_bool_iff.
      split.
      * intros H. right. split; auto. left. lra.
      * intros [[_ H] | [_ [H | [H _]]]]; [discriminate | lra | contradiction].
  - split; [intros _; left; auto | reflexivity].
  - split; [discriminate |].
    intros [[H _] | [H _]]; discriminate.
  - destruct (Qeq_bool sa sb) eqn:E; cbn [negb].
    + apply Qeq_bool_iff in E. rewrite inject_Z_nonpos.
      split.
      * intros H. right. split; auto. right. split; auto. lia.
      * intros [[H _] | [_ [H | [_ H]]]]; [discriminate | lra | lia].
    + apply Qeq_bool_neq in E. rewrite Qle_bool_iff.
      split.
      * intros H. right. split; auto. left. lra.
      * intros [[H _] | [_ [H | [H _]]]]; [discriminate | lra | contradiction].
Qed.

Lemma ranked_total (pa : bool) (sa : Q) (ta : Z) (pb : bool) (sb : Q) (tb : Z) :
  Spec.ranked pa sa ta pb sb tb \/ Spec.ranked pb sb tb pa sa ta.
Proof.
  unfold Spec.ranked.
  destruct pa, pb; auto.
  - destruct (Q_dec sa sb) as [[H | H] | H].
    + right. right. auto.
    + left. right. auto.
    + destruct (Z_le_gt_dec tb ta).
      * left. right. split; auto.
      * right. right. split; auto. right. split; [symmetry; auto | lia].
  - destruct (Q_dec sa sb) as [[H | H] | H].
    + right. right. auto.
    + left. right. auto.
    + destruct (Z_le_gt_dec tb ta).
      * left. right. split; auto.
      * right. right. split; auto. right. split; [symmetry; auto | lia].
Qed.

Lemma ranked_trans (pa : bool) (sa : Q) (ta : Z) (pb : bool) (sb : Q) (tb : Z)
  (pc : bool) (sc : Q) (tc : Z) :
  Spec.ranked pa sa ta pb sb tb -> Spec.ranked pb sb tb pc sc tc ->
  Spec.ranked pa sa ta pc sc tc.
Proof.
  unfold Spec.ranked.
  intros [[Ha Hb] | [Hab H1]] [[Hb' Hc] | [Hbc H2]].
  - congruence.
  - left. split; congruence.
  - left. split; congruence.
  - right. split; [congruence |].
    destruct H1 as [H1 | [H1 T1]], H2 as [H2 | [H2 T2]].
    + left. lra.
    + left. lra.
    + left. lra.
    + right. split; [lra | lia].
Qed.

Lemma compareListed_inOrder (a b : Listed.t) :
  Js.notAfter WeavesAI.compareListed a b <-> Spec.inOrder a b.
Proof. apply comparator_ranked. Qed.

Lemma inOrder_total (a b : Listed.t) : Spec.inOrder a b \/ Spec.inOrder b a.
Proof. apply ranked_total. Qed.

Lemma inOrder_trans (a b c : Listed.t) :
  Spec.inOrder a b -> Spec.inOrder b c -> Spec.inOrder a c.
Proof. apply ranked_trans. Qed.

Lemma compareListed_total (a b : Listed.t) :
  Js.notAfter WeavesAI.compareListed a b \/ Js.notAfter WeavesAI.compareListed b a.
Proof. rewrite !compareListed_inOrder. apply inOrder_total. Qed.

Lemma compareListed_trans (a b c : Listed.t) :
  Js.notAfter WeavesAI.compareListed a b ->
  Js.notAfter WeavesAI.compareListed b c ->
  Js.notAfter WeavesAI.compareListed a c.
Proof. rewrite !compareListed_inOrder. apply inOrder_trans. Qed.

(** ** The merged view *)

Lemma filter_length_perm {A : Type} (f : A -> bool) (l l' : list A) :
  Permutation l l' -> List.length (filter f l) = List.length (filter f l').
Proof.
  induction 1 as [| x l l' _ IH | x y l | l l' l'' _ IH1 _ IH2]; simpl; auto.
  - destruct (f x); simpl; auto.
  - destruct (f x), (f y); simpl; auto.
  - congruence.
Qed.

Lemma pinned_entries_flagged (m : WeavesStorageManager.t) (p : Listed.t) :
  In p (WeavesStorageManager.getPinnedConnections m) -> Listed.pinned p = true.
Proof.
  unfold WeavesStorageManager.getPinnedConnections.
  rewrite in_map_iff. intros [c [<- _]]. reflexivity.
Qed.

Lemma regular_entries_unflagged (ai : WeavesAI.t) (r : Listed.t) :
  In r (WeavesAI.regularConnections ai) -> Listed.pinned r = false.
Proof.
  unfold WeavesAI.regularConnections.
  rewrite in_map_iff. intros [c [<- _]]. reflexivity.
Qed.

Lemma merged_flagged_count (ai : WeavesAI.t) :
  List.length (filter Listed.pinned (WeavesAI.mergedConnections ai)) =
  List.length (WeavesStorageManager.getPinnedConnections (WeavesAI.storageManager ai)).
Proof.
  unfold WeavesAI.mergedConnections.
  rewrite filter_app, length_app.
  set (P := WeavesStorageManager.getPinnedConnections (WeavesAI.storageManager ai)).
  match goal with |- (_ + List.length (filter _ ?u) = _)%nat => set (U := u) end.
  assert (HP : filter Listed.pinned P = P).
  { apply forallb_filter_id, forallb_forall. intros p Hp.
    eapply pinned_entries_flagged; eauto. }
  assert (HU : filter Listed.pinned U = []).
  { assert (G : forall x, In x U -> Listed.pinned x = false).
    { intros x Hx. apply filter_In in Hx as [Hx _].
      eapply regular_entries_unflagged; eauto. }
    clearbody U. induction U as [| x U IH]; auto.
    simpl. rewrite (G x) by (left; auto). apply IH.
    intros y Hy. apply G. right; auto. }
  rewrite HP, HU. simpl. lia.
Qed.

(** In a list in the order of the view, the flagged entries come first:
    a prefix as long as their number holds them all. *)
Lemma flagged_within_prefix (l : list Listed.t) :
  StronglySorted Spec.inOrder l ->
  forall n, (List.length (filter Listed.pinned l) <= n)%nat ->
  forall p, In p l -> Listed.pinned p = true -> In p (firstn n l).
Proof.
  induction 1 as [| x r Hs IH Hx]; intros n Hn p Hp Hflag.
  - destruct Hp.
  - destruct Hp as [-> | Hp].
    + destruct n as [| n]; simpl in *.
      * rewrite Hflag in Hn. simpl in Hn. lia.
      * left; auto.
    + assert (Hxp : Spec.inOrder x p) by (rewrite Forall_forall in Hx; auto).
      assert (Fx : Listed.pinned x = true).
      { unfold Spec.inOrder, Spec.ranked in Hxp.
        destruct Hxp as [[H _] | [H _]]; congruence. }
      simpl in Hn. rewrite Fx in Hn. simpl in Hn.
      destruct n as [| n]; [lia |].
      simpl. right. apply IH; auto. lia.
Qed.

Lemma sorted_inOrder (l : list Listed.t) :
  StronglySorted Spec.inOrder (Js.sort WeavesAI.compareListed l).
Proof.
  assert (H := sort_sorted WeavesAI.compareListed compareListed_total
                           compareListed_trans l).
  induction H as [| x r _ IH Hx]; constructor; auto.
  eapply Forall_impl; [| exact Hx].
  intros y. apply compareListed_inOrder.
Qed.

(** C1.  The merged all-connections view.  It holds an entry for every
    pinned connection the ledger holds and an entry for every connection
    of the list whose composite id matches no connection of the ledger,
    and nothing else; it is a rearrangement of the pinned entries
    followed by those regular entries; it is in the order pinned before
    unpinned, then strength descending, then timestamp descending,
    entries of equal rank keeping the order of the merge; a truncation to
    [limit] keeps its first [limit] entries, which hold the entry of
    every pinned connection when the ledger has no more than [limit];
    GET_CONNECTIONS answers with the first 50. *)
Theorem allConnections_merged_sorted_truncated (ai : WeavesAI.t) :
  let ledger :=
    WeavesStorageManager.pinnedConnections (WeavesAI.storageManager ai) in
  let pinned :=
    WeavesStorageManager.getPinnedConnections (WeavesAI.storageManager ai) in
  let regular := WeavesAI.regularConnections ai in
  let unmatched :=
    filter (fun r => negb (existsb (fun p => String.eqb (Listed.id p) (Listed.id r))
                                   pinned)) regular in
  let all := WeavesAI.getAllConnections ai in
  (pinned = List.map Spec.pinnedEntry (List.map snd ledger)
   /\ regular = List.map Spec.plainEntry (WeavesAI.connections ai))
  /\ (forall k p, In (k, p) ledger -> In (Spec.pinnedEntry p) all)
  /\ (forall c, In c (WeavesAI.connections ai) ->
        Spec.unmatchedBy ledger c -> In (Spec.plainEntry c) all)
  /\ (forall e, In e all ->
        (exists k p, In (k, p) ledger /\ e = Spec.pinnedEntry p)
        \/ (exists c, In c (WeavesAI.connections ai)
                      /\ Spec.unmatchedBy ledger c
                      /\ e = Spec.plainEntry c))
  /\ Permutation all (pinned ++ unmatched)
  /\ (forall p, In p pinned -> In p all)
  /\ (forall r, In r regular ->
        (forall p, In p pinned -> Listed.id p <> Listed.id r) -> In r all)
  /\ (forall r, In r all -> Listed.pinned r = false ->
        In r regular /\ forall p, In p pinned -> Listed.id p <> Listed.id r)
  /\ StronglySorted Spec.inOrder all
  /\ (forall k, filter (Js.sameRank WeavesAI.compareListed k) all =
                filter (Js.sameRank WeavesAI.compareListed k) (pinned ++ unmatched))
  /\ (forall limit,
        List.length (Js.slice0 limit all) = Nat.min limit (List.length all) /\
        (exists rest, all = (Js.slice0 limit all ++ rest)%list) /\
        ((List.length pinned <= limit)%nat ->
         forall p, In p pinned -> In p (Js.slice0 limit all)) /\
        ((Js.size ledger <= limit)%nat ->
         forall k p, In (k, p) ledger ->
           In (Spec.pinnedEntry p) (Js.slice0 limit all)))
  /\ (forall env sender w,
        Listener.weavesAI w = ai ->
        Listener.onMessage env Listener.GET_CONNECTIONS sender w =
        (w, [Listener.Listing
               (Js.slice0 25
                  (Js.sort Listener.byRecency
                     (Js.values (WeavesAI.contentStore ai))))
               (Js.slice0 50 all)])).
Proof.
  intros ledger pinned regular unmatched all.
  assert (Hperm : Permutation all (pinned ++ unmatched)).
  { apply sort_perm. }
  assert (Hunm : forall r, In r unmatched <->
            In r regular /\ forall p, In p pinned -> Listed.id p <> Listed.id r).
  { intros r. unfold unmatched. rewrite filter_In.
    split; intros [Hr H]; split; auto.
    - intros p Hp E. apply negb_true_iff in H.
      assert (X : existsb (fun p0 => String.eqb (Listed.id p0) (Listed.id r)) pinned = true).
      { apply existsb_exists. exists p. split; auto. now apply String.eqb_eq. }
      congruence.
    - apply negb_true_iff. apply not_true_is_false. intros X.
      apply existsb_exists in X as [p [Hp E]]. apply String.eqb_eq in E.
      exact (H p Hp E). }
  assert (Hsorted : StronglySorted Spec.inOrder all) by apply sorted_inOrder.
  assert (Hledger : forall e, In e pinned <->
            exists k p, In (k, p) ledger /\ e = Spec.pinnedEntry p).
  { intros e. unfold pinned, WeavesStorageManager.getPinnedConnections,
      Js.values. fold ledger. split.
    - intros H. apply in_map_iff in H as [p [<- Hp]].
      apply in_map_iff in Hp as [[k p'] [E Hp]]. cbn in E. subst p'.
      exists k, p. auto.
    - intros [k [p [Hp ->]]]. apply in_map_iff. exists p. split; auto.
      apply in_map_iff. exists (k, p). auto. }
  assert (Hplain : forall c, In c (WeavesAI.connections ai) ->
            (In (Spec.plainEntry c) unmatched <-> Spec.unmatchedBy ledger c)).
  { intros c Hc. rewrite Hunm. split.
    - intros [_ H] k p Hp E.
      apply (H (Spec.pinnedEntry p)); [apply Hledger; eauto | exact E].
    - intros H. split.
      + unfold regular, WeavesAI.regularConnections.
        apply in_map_iff. exists c. auto.
      + intros e He E. apply Hledger in He as [k [p [Hp ->]]].
        exact (H k p Hp E). }
  assert (Hpin : forall p, In p pinned -> In p all).
  { intros p Hp. apply (Permutation_in _ (Permutation_sym Hperm)).
    apply in_or_app. left; auto. }
  assert (Hprefix : forall limit, (List.length pinned <= limit)%nat ->
            forall p, In p pinned -> In p (Js.slice0 limit all)).
  { intros limit Hlen p Hp. unfold Js.slice0.
    apply flagged_within_prefix; auto.
    - unfold all, WeavesAI.getAllConnections.
      rewrite (filter_length_perm _ _ _ (sort_perm WeavesAI.compareListed _)).
      rewrite merged_flagged_count. exact Hlen.
    - eapply pinned_entries_flagged; eauto. }
  refine (conj (conj eq_refl eq_refl) (conj _ (conj _ (conj _ (conj Hperm
           (conj Hpin (conj _ (conj _ (conj Hsorted (conj _ (conj _ _))))))))))).
  - intros k p Hp. apply Hpin, Hledger. eauto.
  - intros c Hc Hu. apply (Permutation_in _ (Permutation_sym Hperm)).
    apply in_or_app. right. now apply Hplain.
  - intros e He. apply (Permutation_in _ Hperm) in He.
    apply in_app_or in He as [He | He].
    + left. now apply Hledger.
    + right. pose proof He as Hr. apply Hunm in Hr as [Hr _].
      unfold regular, WeavesAI.regularConnections in Hr.
      apply in_map_iff in Hr as [c [<- Hc]].
      exists c. split; [exact Hc | split; [| reflexivity]].
      now apply (Hplain c Hc).
  - intros r Hr Hid. apply (Permutation_in _ (Permutation_sym Hperm)).
    apply in_or_app. right. apply Hunm. auto.
  - intros r H Hflag. apply (Permutation_in _ Hperm) in H.
    apply in_app_or in H as [H | H].
    + apply pinned_entries_flagged in H. congruence.
    + apply Hunm in H. exact H.
  - intros k. apply (sort_stable WeavesAI.compareListed compareListed_trans).
  - intros limit. refine (conj _ (conj _ (conj (Hprefix limit) _))).
    + unfold Js.slice0. apply length_firstn.
    + exists (skipn limit all). unfold Js.slice0.
      symmetry. apply firstn_skipn.
    + intros Hlen k p Hp. apply Hprefix.
      * unfold pinned, WeavesStorageManager.getPinnedConnections, Js.values.
        rewrite !length_map. exact Hlen.
      * apply Hledger. eauto.
  - intros env sender w <-. reflexivity.
Qed.

(** On a background with three connections, the first of them pinned:
    the view is in order and its first 50 entries hold the entry of the
    connection the ledger holds. *)
Lemma allConnections_witness :
  StronglySorted Spec.inOrder (WeavesAI.getAllConnections Sample.aiWithPin)
  /\ Forall
       (fun e =>
          In (Spec.pinnedEntry (snd e))
             (Js.slice0 50 (WeavesAI.getAllConnections Sample.aiWithPin)))
       (WeavesStorageManager.pinnedConnections (Sample.ledgerOf 1)).
Proof.
  destruct (allConnections_merged_sorted_truncated Sample.aiWithPin)
    as (_ & _ & _ & _ & _ & _ & _ & _ & Hsorted & _ & Hlimit & _).
  split; [exact Hsorted |].
  destruct (Hlimit 50%nat) as (_ & _ & _ & Hin).
  apply Forall_forall. intros [k p] Hp.
  apply (Hin ltac:(vm_compute; repeat constructor) k p Hp).
Defined.

(** ** The pinned ledger *)

Lemma withStorageManager_same (ai : WeavesAI.t) :
  WeavesAI.withStorageManager ai (WeavesAI.storageManager ai) = ai.
Proof. now destruct ai. Qed.

Lemma withPinnedConnections_same (m : WeavesStorageManager.t) :
  WeavesStorageManager.withPinnedConnections m
    (WeavesStorageManager.pinnedConnections m) = m.
Proof. now destruct m. Qed.

Lemma size_set_le {V : Type} (m : Js.Map V) (k : string) (v : V) :
  (Js.size (Js.set m k v) <= S (Js.size m))%nat.
Proof.
  unfold Js.size.
  induction m as [| [k' v'] r IH]; simpl; auto.
  destruct (String.eqb k' k); simpl; lia.
Qed.

Lemma pinConnection_at_capacity (connectionId : string)
  (connection : Connection.t) (now : Z) (today : string)
  (this : WeavesStorageManager.t) (store : Storage.t) :
  Settings.maxPinnedConnections (WeavesStorageManager.settings this)
    <= Z.of_nat (Js.size (WeavesStorageManager.pinnedConnections this)) ->
  WeavesStorageManager.pinConnection connectionId connection now today this store
  = (false, this, store).
Proof.
  intros H. unfold WeavesStorageManager.pinConnection,
    WeavesStorageManager.pinConnection_body.
  apply Z.leb_le in H. now rewrite H.
Qed.

(** A pin never takes the ledger beyond the configured maximum. *)
Lemma pinConnection_within_capacity (connectionId : string)
  (connection : Connection.t) (now : Z) (today : string)
  (this : WeavesStorageManager.t) (store : Storage.t) :
  Z.of_nat (Js.size (WeavesStorageManager.pinnedConnections this))
    <= Settings.maxPinnedConnections (WeavesStorageManager.settings this) ->
  let '(_, this', _) :=
    WeavesStorageManager.pinConnection connectionId connection now today
      this store in
  Z.of_nat (Js.size (WeavesStorageManager.pinnedConnections this'))
    <= Settings.maxPinnedConnections (WeavesStorageManager.settings this').
Proof.
  intros H. unfold WeavesStorageManager.pinConnection,
    WeavesStorageManager.pinConnection_body.
  destruct (Z.leb_spec
              (Settings.maxPinnedConnections (WeavesStorageManager.settings this))
              (Z.of_nat (Js.size (WeavesStorageManager.pinnedConnections this))));
    auto.
  cbn [WeavesStorageManager.withPinnedConnections
       WeavesStorageManager.pinnedConnections WeavesStorageManager.settings].
  match goal with |- context [Js.set ?m ?k ?v] =>
    pose proof (size_set_le m k v) end.
  lia.
Qed.

(** C2.  A pin attempted while the ledger holds at least
    [maxPinnedConnections] entries throws inside [pinConnection], which
    returns [false] and leaves the ledger and the storage as they were;
    so does [WeavesAI.pinConnection], and a PIN_CONNECTION message then
    leaves the ledger unchanged and is first answered [success: false]. *)
Theorem pin_beyond_capacity_fails (connectionId : string)
  (connection : Connection.t) (now : Z) (today : string)
  (this : WeavesStorageManager.t) (store : Storage.t) :
  Settings.maxPinnedConnections (WeavesStorageManager.settings this)
    <= Z.of_nat (Js.size (WeavesStorageManager.pinnedConnections this)) ->
  (exists e,
      WeavesStorageManager.pinConnection_body connectionId connection now today
        this store = inl e)
  /\ WeavesStorageManager.pinConnection connectionId connection now today
       this store = (false, this, store)
  /\ (forall ai, WeavesAI.storageManager ai = this ->
        WeavesAI.pinConnection connectionId now today ai store
        = (false, ai, store))
  /\ (forall env sender w,
        WeavesAI.storageManager (Listener.weavesAI w) = this ->
        let '(w', sent) :=
          Listener.onMessage env (Listener.PIN_CONNECTION connectionId) sender w in
        WeavesAI.storageManager (Listener.weavesAI w') = this
        /\ hd_error sent = Some (Listener.Outcome false)).
Proof.
  intros H. split; [| split; [| split]].
  - unfold WeavesStorageManager.pinConnection_body.
    apply Z.leb_le in H. rewrite H. eauto.
  - now apply pinConnection_at_capacity.
  - intros ai <-. unfold WeavesAI.pinConnection.
    destruct (WeavesAI.findConnection ai connectionId); auto.
    rewrite pinConnection_at_capacity by exact H.
    now rewrite withStorageManager_same.
  - intros env sender w <-.
    unfold Listener.onMessage, Listener.andThen, Listener.onPinConnection1,
      Listener.onPinConnection2, WeavesAI.pinConnection.
    destruct w as [ai st act ck]; cbn [Listener.weavesAI Listener.storage
      Listener.action Listener.clock] in *.
    destruct (WeavesAI.findConnection ai connectionId) as [c |] eqn:F.
    + rewrite pinConnection_at_capacity by exact H.
      rewrite withStorageManager_same.
      cbn [Listener.weavesAI Listener.storage Listener.action Listener.clock].
      rewrite F.
      cbn [WeavesAI.withConnections WeavesAI.storageManager].
      rewrite pinConnection_at_capacity by exact H.
      cbn. auto.
    + cbn [Listener.weavesAI Listener.storage Listener.action Listener.clock].
      rewrite F. cbn. auto.
Qed.

(** The 51st pin: on a ledger of 50 entries under the default settings
    the pin fails and the ledger, still of 50 entries, is as before. *)
Lemma pin_beyond_capacity_witness :
  Js.size (WeavesStorageManager.pinnedConnections (Sample.ledgerOf 50)) = 50%nat
  /\ WeavesStorageManager.pinConnection "x-y-4"
       (Sample.connection "x" "y" (9 # 10) 4) Sample.later "Wed Jan 31 2024"
       (Sample.ledgerOf 50) Sample.emptyStorage
     = (false, Sample.ledgerOf 50, Sample.emptyStorage).
Proof.
  split; [reflexivity |].
  apply (pin_beyond_capacity_fails "x-y-4"
           (Sample.connection "x" "y" (9 # 10) 4) Sample.later
           "Wed Jan 31 2024" (Sample.ledgerOf 50) Sample.emptyStorage).
  vm_compute. discriminate.
Defined.

(** ** The daily reset *)



Lemma differs_same (d : string) : WeavesStorageManager.differs (Some d) d = false.
Proof. unfold WeavesStorageManager.differs. now rewrite String.eqb_refl. Qed.

Lemma reset_already_done (d : string) (this : WeavesStorageManager.t)
  (store : Storage.t) :
  Storage.LAST_RESET_DATE store = Some d ->
  WeavesStorageManager.checkAndPerformDailyReset d this store = (this, store).
Proof.
  intros H. unfold WeavesStorageManager.checkAndPerformDailyReset.
  rewrite H, differs_same. now destruct (negb _).
Qed.

Lemma js_cleanup_keeps (now : Z) (m : StorageManagerJs.t)
  (s : StorageManagerJs.StoreT) :
  StorageManagerJs.settings (fst (StorageManagerJs.cleanupPinnedConnections now m s))
  = StorageManagerJs.settings m
  /\ StorageManagerJs.LAST_RESET_DATE
       (snd (StorageManagerJs.cleanupPinnedConnections now m s))
     = StorageManagerJs.LAST_RESET_DATE s.
Proof.
  unfold StorageManagerJs.cleanupPinnedConnections.
  destruct (0 <? _)%nat; split; reflexivity.
Qed.




(** ** CLEAR_DATA *)

(** C7.  A CLEAR_DATA message empties the content store and the
    connection list, is answered [success: true], and leaves the storage
    manager with its ledger as it was: every key of the ledger still maps
    to the entry it mapped to.  What is saved is the empty daily data and
    the entries of the ledger. *)
Theorem clear_data_keeps_pinned (env : Listener.Env) (sender : Listener.Sender)
  (w : Listener.World) :
  let '(w', sent) := Listener.onMessage env Listener.CLEAR_DATA sender w in
  let ledger :=
    WeavesStorageManager.pinnedConnections
      (WeavesAI.storageManager (Listener.weavesAI w)) in
  let ledger' :=
    WeavesStorageManager.pinnedConnections
      (WeavesAI.storageManager (Listener.weavesAI w')) in
  WeavesAI.contentStore (Listener.weavesAI w') = []
  /\ WeavesAI.connections (Listener.weavesAI w') = []
  /\ sent = [Listener.Outcome true]
  /\ ledger' = ledger
  /\ (forall k, Js.get ledger' k = Js.get ledger k)
  /\ Storage.DAILY_DATA (Listener.storage w')
     = Some (Storage.makeDaily [] [] (Listener.now env (Listener.clock w)))
  /\ Storage.PINNED_CONNECTIONS (Listener.storage w') = Some (Js.entries ledger).
Proof.
  destruct w as [[init cs conns m] st act ck]. cbn. repeat split.
Qed.

(** ** The cleanup of the ledger *)

(** The cleanup of storage-manager.js keeps exactly the entries that are
    not older than the retention period. *)
Lemma js_cleanup_by_retention (now : Z) (m : StorageManagerJs.t)
  (s : StorageManagerJs.StoreT) (e : string * StorageManagerJs.PinnedT) :
  In e (StorageManagerJs.pinnedConnections
          (fst (StorageManagerJs.cleanupPinnedConnections now m s)))
  <-> In e (StorageManagerJs.pinnedConnections m)
      /\ now - StorageManagerJs.retentionDays (StorageManagerJs.settings m)
               * 24 * 60 * 60 * 1000
         <= StorageManagerJs.pinnedAt (snd e).
Proof.
  unfold StorageManagerJs.cleanupPinnedConnections.
  destruct (0 <? _)%nat; cbn [fst StorageManagerJs.pinnedConnections];
    rewrite filter_In, negb_true_iff, Z.ltb_ge; reflexivity.
Qed.

(** C4.  The cleanup of background.js does nothing to a ledger that holds
    no more than [maxPinnedConnections] entries, whatever their age: the
    retention period is not consulted, and an entry pinned before
    [now - dataRetentionDays] stays, also through a daily reset. *)
Theorem cleanup_ignores_age (this : WeavesStorageManager.t) (store : Storage.t) :
  Z.of_nat (Js.size (WeavesStorageManager.pinnedConnections this))
    <= Settings.maxPinnedConnections (WeavesStorageManager.settings this) ->
  WeavesStorageManager.cleanupPinnedConnections this store = (this, store)
  /\ (forall d,
        WeavesStorageManager.pinnedConnections
          (fst (WeavesStorageManager.performDailyReset d this store))
        = WeavesStorageManager.pinnedConnections this).
Proof.
  intros H.
  assert (E : WeavesStorageManager.cleanupPinnedConnections this store
              = (this, store)).
  { unfold WeavesStorageManager.cleanupPinnedConnections.
    apply Z.ltb_ge in H. now rewrite H. }
  split; auto.
  intros d. unfold WeavesStorageManager.performDailyReset,
    WeavesStorageManager.cleanupPinnedConnections.
  apply Z.ltb_ge in H. now rewrite H.
Qed.

(** The ledger of one entry pinned at time 1, thirty days later, under
    the default settings (50 pins, 7 days): the entry is older than the
    retention period and the cleanup keeps it. *)
Lemma cleanup_ignores_age_witness :
  (forall e, In e (WeavesStorageManager.pinnedConnections (Sample.ledgerOf 1)) ->
     Pinned.pinnedAt (snd e)
     < Sample.later
       - Settings.dataRetentionDays
           (WeavesStorageManager.settings (Sample.ledgerOf 1)) * Sample.day)
  /\ WeavesStorageManager.cleanupPinnedConnections (Sample.ledgerOf 1)
       Sample.emptyStorage
     = (Sample.ledgerOf 1, Sample.emptyStorage).
Proof.
  split.
  - intros e [<- | []]. vm_compute. reflexivity.
  - apply (cleanup_ignores_age (Sample.ledgerOf 1) Sample.emptyStorage).
    vm_compute. discriminate.
Defined.

(** ** Messages about an unknown connection *)

Lemma find_none_filter (connectionId : string) (l : list Connection.t) :
  List.find (fun c => String.eqb (WeavesAI.getConnectionId c) connectionId) l = None ->
  Listener.withoutConnection connectionId l = l
  /\ Listener.markPinned connectionId true l = l
  /\ Listener.markPinned connectionId false l = l.
Proof.
  unfold Listener.withoutConnection, WeavesAI.getConnectionId.
  induction l as [| c r IH]; cbn [List.find filter Listener.markPinned]; auto.
  destruct (String.eqb (WeavesStorageManager.generateConnectionId c) connectionId);
    [discriminate |].
  intros H. destruct (IH H) as [-> [-> ->]]. auto.
Qed.

Lemma unpin_absent (connectionId : string) (this : WeavesStorageManager.t)
  (store : Storage.t) :
  Js.has (WeavesStorageManager.pinnedConnections this) connectionId = false ->
  WeavesStorageManager.unpinConnection connectionId this store
  = (false, this, store).
Proof.
  intros H. unfold WeavesStorageManager.unpinConnection.
  rewrite H, delete_absent by exact H.
  now rewrite withPinnedConnections_same.
Qed.

Section UnknownId.
Variables (env : Listener.Env) (connectionId : string).
Variables (ai : WeavesAI.t) (st : Storage.t) (act : list Listener.ActionCall).

Hypothesis not_listed : WeavesAI.findConnection ai connectionId = None.
Hypothesis not_pinned :
  Js.has (WeavesStorageManager.pinnedConnections (WeavesAI.storageManager ai))
         connectionId = false.

Lemma ai_unpin_unknown :
  WeavesAI.unpinConnection connectionId ai st = (false, ai, st).
Proof.
  unfold WeavesAI.unpinConnection.
  rewrite unpin_absent by exact not_pinned.
  now rewrite withStorageManager_same.
Qed.

Lemma connections_untouched :
  WeavesAI.withConnections ai
    (Listener.withoutConnection connectionId (WeavesAI.connections ai)) = ai
  /\ WeavesAI.withConnections ai
       (Listener.markPinned connectionId false (WeavesAI.connections ai)) = ai.
Proof.
  destruct (find_none_filter connectionId (WeavesAI.connections ai) not_listed)
    as [-> [_ ->]].
  now destruct ai.
Qed.

Lemma pin1_unknown ck :
  Listener.onPinConnection1 env connectionId (Listener.makeWorld ai st act ck)
  = (Listener.makeWorld ai st act (S ck), [Listener.Outcome false]).
Proof.
  unfold Listener.onPinConnection1, WeavesAI.pinConnection.
  cbn [Listener.weavesAI]. now rewrite not_listed.
Qed.

Lemma pin2_unknown ck :
  Listener.onPinConnection2 env connectionId (Listener.makeWorld ai st act ck)
  = (Listener.makeWorld ai st act ck, [Listener.Failed "Connection not found"]).
Proof.
  unfold Listener.onPinConnection2.
  cbn [Listener.weavesAI]. now rewrite not_listed.
Qed.

Lemma unpin1_unknown ck :
  Listener.onUnpinConnection1 connectionId (Listener.makeWorld ai st act ck)
  = (Listener.makeWorld ai st act ck, [Listener.Outcome false]).
Proof.
  unfold Listener.onUnpinConnection1.
  cbn [Listener.weavesAI Listener.storage]. now rewrite ai_unpin_unknown.
Qed.

Lemma unpin2_unknown ck :
  snd (Listener.onUnpinConnection2 env connectionId
         (Listener.makeWorld ai st act ck))
  = [Listener.Outcome true].
Proof.
  unfold Listener.onUnpinConnection2.
  destruct (WeavesStorageManager.unpinConnection _ _ _) as [[b m] s].
  reflexivity.
Qed.

Lemma delete1_unknown ck :
  Listener.onDeleteConnection1 env connectionId (Listener.makeWorld ai st act ck)
  = (Listener.makeWorld ai (WeavesAI.saveData (Listener.now env ck) ai st) act (S ck),
     [Listener.Outcome true]).
Proof.
  unfold Listener.onDeleteConnection1.
  cbn [Listener.weavesAI Listener.storage Listener.action Listener.clock].
  rewrite (proj1 connections_untouched), ai_unpin_unknown. reflexivity.
Qed.

Lemma delete2_unknown st' ck :
  snd (Listener.onDeleteConnection2 env connectionId
         (Listener.makeWorld ai st' act ck))
  = [Listener.Outcome false].
Proof.
  unfold Listener.onDeleteConnection2.
  cbn [Listener.weavesAI Listener.storage Listener.action Listener.clock].
  rewrite (proj1 connections_untouched).
  destruct (WeavesStorageManager.unpinConnection _ _ _) as [[b m] s].
  cbn [snd]. now rewrite Nat.ltb_irrefl.
Qed.

End UnknownId.

(** C8.  For a connection id that neither the connection list nor the
    ledger knows, the responses the listener sends, in order: to
    PIN_CONNECTION [success: false] twice; to UNPIN_CONNECTION
    [success: false] from the first block and [success: true] from the
    second; to DELETE_CONNECTION [success: true] from the first block and
    [success: false] from the second.  No block throws. *)
Theorem unknown_id_responses (env : Listener.Env) (sender : Listener.Sender)
  (w : Listener.World) (connectionId : string) :
  WeavesAI.findConnection (Listener.weavesAI w) connectionId = None ->
  Js.has (WeavesStorageManager.pinnedConnections
            (WeavesAI.storageManager (Listener.weavesAI w))) connectionId = false ->
  snd (Listener.onMessage env (Listener.PIN_CONNECTION connectionId) sender w)
  = [Listener.Outcome false; Listener.Failed "Connection not found"]
  /\ snd (Listener.onMessage env (Listener.UNPIN_CONNECTION connectionId) sender w)
     = [Listener.Outcome false; Listener.Outcome true]
  /\ snd (Listener.onMessage env (Listener.DELETE_CONNECTION connectionId) sender w)
     = [Listener.Outcome true; Listener.Outcome false]
  /\ snd (Listener.onUnpinConnection2 env connectionId w) = [Listener.Outcome true]
  /\ snd (Listener.onDeleteConnection1 env connectionId w) = [Listener.Outcome true].
Proof.
  destruct w as [ai st act ck]. cbn [Listener.weavesAI]. intros F L.
  unfold Listener.onMessage, Listener.andThen.
  rewrite pin1_unknown, pin2_unknown, unpin1_unknown, delete1_unknown by assumption.
  pose proof (unpin2_unknown env connectionId ai st act ck) as U.
  pose proof (delete2_unknown env connectionId ai act F L
                (WeavesAI.saveData (Listener.now env ck) ai st) (S ck)) as D.
  destruct (Listener.onUnpinConnection2 env connectionId _) as [w2 r2].
  destruct (Listener.onDeleteConnection2 env connectionId _) as [w3 r3].
  cbn [snd] in *. subst r2 r3. repeat split.
Qed.

(** On the empty background, for the id [x]. *)
Lemma unknown_id_responses_witness :
  snd (Listener.onMessage (Sample.env (Resolves EmptyString))
         (Listener.DELETE_CONNECTION "x") Sample.sender Sample.emptyWorld)
  = [Listener.Outcome true; Listener.Outcome false]
  /\ snd (Listener.onMessage (Sample.env (Resolves EmptyString))
            (Listener.UNPIN_CONNECTION "x") Sample.sender Sample.emptyWorld)
     = [Listener.Outcome false; Listener.Outcome true].
Proof.
  pose proof (unknown_id_responses (Sample.env (Resolves EmptyString))
                Sample.sender Sample.emptyWorld "x" eq_refl eq_refl) as H.
  split; apply H.
Defined.

(** ** Ingestion while the model is not initialised *)

Lemma findConnections_uninitialized (ai : WeavesAI.t) (newContent : Content.t)
  (existing : list Content.t) (reply : PromptResult) :
  WeavesAI.isInitialized ai = false ->
  WeavesAI.findConnections ai newContent existing reply = [].
Proof.
  intros H. unfold WeavesAI.findConnections. now rewrite H.
Qed.

(** C10.  While [isInitialized] is false, [findConnections] returns the
    empty array whatever the model would reply, and a CONTENT_UPDATE from
    a tab appends no connection, raises no badge and is answered with
    [connections: 0] and [highQuality: 0]; the item is nevertheless in the
    content store afterwards, under its id, with the placeholder analysis
    of [analyzeContent]. *)
Theorem uninitialized_finds_nothing (ai : WeavesAI.t) :
  WeavesAI.isInitialized ai = false ->
  (forall newContent existing reply,
      WeavesAI.findConnections ai newContent existing reply = [])
  /\ (forall env t title content url domain platform contentType st act ck,
        let '(w', sent) :=
          Listener.onMessage env
            (Listener.CONTENT_UPDATE title content url domain platform contentType)
            (Listener.makeSender (Some t)) (Listener.makeWorld ai st act ck) in
        sent = [Listener.Processed 0 0]
        /\ WeavesAI.connections (Listener.weavesAI w') = WeavesAI.connections ai
        /\ Listener.action w' = act
        /\ exists item,
             Js.get (WeavesAI.contentStore (Listener.weavesAI w')) (Content.id item)
             = Some item
             /\ Content.id item
                = Js.toString (Listener.tab_id t) ++ "-"
                    ++ Js.toString (Listener.now env ck)
             /\ Content.content item = content
             /\ Content.analysis item
                = Analysis.make "Content requires AI analysis" "unknown" []
                    "neutral" [] [] [] [] "unanalyzed"
                    (Js.substring0 300 content ++ "...")).
Proof.
  intros H. split.
  - intros. now apply findConnections_uninitialized.
  - intros. unfold Listener.onMessage, Listener.onContentUpdate.
    cbn [Listener.tab Listener.weavesAI Listener.storage Listener.action
         Listener.clock].
    rewrite findConnections_uninitialized by exact H.
    cbn [Listener.recordConnections Listener.highQualityConnections filter
         List.length Listener.weavesAI Listener.action WeavesAI.connections
         WeavesAI.withConnections WeavesAI.withContentStore
         WeavesAI.contentStore].
    rewrite app_nil_r.
    repeat split.
    eexists. split; [apply get_set_same |].
    unfold WeavesAI.analyzeContent. rewrite H.
    cbn [negb Content.id Content.content Content.analysis]. repeat split.
Qed.

(** A background not yet initialised, with two items in its store. *)
Lemma uninitialized_witness :
  WeavesAI.findConnections (Listener.weavesAI Sample.world2_uninitialized)
    (Sample.item "7-3" "New" 3) [Sample.item "7-1" "First" 1]
    (Resolves Sample.reply3) = [].
Proof.
  apply (proj1 (uninitialized_finds_nothing
                  (Listener.weavesAI Sample.world2_uninitialized) eq_refl)).
Defined.

(** ** The candidates of [findConnections] *)

Lemma validConnection_true (count : nat) (index : option Z)
  (strength : Js.JsNumber) (reason : string) :
  WeavesAI.validConnection count index strength reason = true <->
  (exists i, index = Some i /\ 0 <= i < Z.of_nat count)
  /\ exists q, strength = Js.JsFinite q /\ Spec.acceptable q reason.
Proof.
  unfold WeavesAI.validConnection, Spec.acceptable, Spec.shallowPhrases.
  rewrite !andb_true_iff, !negb_true_iff, Nat.ltb_lt.
  split.
  - intros [[[[[[Hi Hge] Hle] Hlen] H1] H2] H3].
    split.
    + destruct index as [i |]; [| discriminate].
      exists i. split; auto.
      apply andb_true_iff in Hi as [A B].
      apply Z.leb_le in A. apply Z.ltb_lt in B. lia.
    + destruct strength as [| neg | q]; cbn in Hge, Hle; try discriminate.
      * destruct neg; discriminate.
      * exists q. split; auto.
        apply Qle_bool_iff in Hge, Hle.
        repeat split; auto.
        intros phrase [<- | [<- | [<- | []]]]; auto.
  - intros [[i [-> Hi]] [q [-> [Hge [Hle [Hlen Hph]]]]]].
    repeat split; auto.
    + apply andb_true_iff. split; [apply Z.leb_le | apply Z.ltb_lt]; lia.
    + now apply Qle_bool_iff.
    + now apply Qle_bool_iff.
    + apply Hph. simpl; auto.
    + apply Hph. simpl; auto.
    + apply Hph. simpl; auto.
Qed.

Lemma parseLine_acceptable (analyses : list Content.t) (line : string)
  (c : Candidate.t) :
  WeavesAI.parseLine analyses line = Some c ->
  Spec.acceptable (Candidate.strength c) (Candidate.reason c).
Proof.
  unfold WeavesAI.parseLine.
  destruct (Js.startsWith line "CONNECT:"); [| discriminate].
  destruct (List.map Js.trim _) as [| p0 [| p1 [| p2 rest]]]; try discriminate.
  destruct (WeavesAI.validConnection _ _ _ _) eqn:V; [| discriminate].
  apply validConnection_true in V as [[i [Ei Hi]] [q [Eq Hq]]].
  rewrite Ei, Eq.
  destruct (nth_error analyses (Z.to_nat i)); [| discriminate].
  intros [= <-]. exact Hq.
Qed.

Lemma parseLines_acceptable (analyses : list Content.t) (lines : list string)
  (c : Candidate.t) :
  In c (WeavesAI.parseLines analyses lines) ->
  Spec.acceptable (Candidate.strength c) (Candidate.reason c).
Proof.
  induction lines as [| line rest IH]; cbn [WeavesAI.parseLines]; [intros [] |].
  destruct (WeavesAI.parseLine analyses line) as [c' |] eqn:E; auto.
  intros [<- | H]; auto.
  eapply parseLine_acceptable; eauto.
Qed.

Lemma parseLines_length (analyses : list Content.t) (lines : list string) :
  (List.length (WeavesAI.parseLines analyses lines)
   <= List.length
        (List.filter (fun line => Js.startsWith line "CONNECT:") lines))%nat.
Proof.
  induction lines as [| line rest IH]; cbn [WeavesAI.parseLines filter]; auto.
  destruct (WeavesAI.parseLine analyses line) as [c |] eqn:E.
  - unfold WeavesAI.parseLine in E.
    destruct (Js.startsWith line "CONNECT:"); [| discriminate].
    simpl. lia.
  - destruct (Js.startsWith line "CONNECT:"); simpl; lia.
Qed.

Lemma shallow_reason_invalid (count : nat) (index : option Z)
  (strength : Js.JsNumber) :
  WeavesAI.validConnection count index strength "both discuss climate" = false.
Proof.
  destruct (WeavesAI.validConnection _ _ _ _) eqn:V; auto.
  apply validConnection_true in V as [_ [q [_ [_ [_ [Hlen _]]]]]].
  cbn in Hlen. lia.
Qed.

Lemma shallowReply_rejected (analyses : list Content.t) :
  WeavesAI.parseLine analyses Sample.shallowReply = None.
Proof.
  unfold WeavesAI.parseLine.
  replace (Js.startsWith Sample.shallowReply "CONNECT:") with true
    by (vm_compute; reflexivity).
  replace (List.map Js.trim
             (Js.split "|" (Js.replace Sample.shallowReply "CONNECT:" EmptyString)))
    with ["0"; "0.9"; "both discuss climate"] by (vm_compute; reflexivity).
  now rewrite shallow_reason_invalid.
Qed.

(** C6.  A candidate is pushed only if its strength lies between the
    numbers [0.7] and [1.0] of the source, its reason has more than 50
    characters and its lower-cased reason contains none of "both mention",
    "both discuss", "both are about"; a candidate that fails one of these
    is not pushed.  So every candidate that [findConnections] returns
    meets them, and the reason "both discuss climate" is rejected at any
    strength, 0.9 included. *)
Theorem shallow_candidates_rejected :
  (forall count index strength reason,
      WeavesAI.validConnection count index strength reason = true ->
      exists q, strength = Js.JsFinite q /\ Spec.acceptable q reason)
  /\ (forall count index q reason,
        ~ Spec.acceptable q reason ->
        WeavesAI.validConnection count index (Js.JsFinite q) reason = false)
  /\ (forall this newContent existing reply c,
        In c (WeavesAI.findConnections this newContent existing reply) ->
        Spec.acceptable (Candidate.strength c) (Candidate.reason c))
  /\ (forall count index strength,
        WeavesAI.validConnection count index strength "both discuss climate"
        = false)
  /\ (forall this newContent existing,
        WeavesAI.findConnections this newContent existing
          (Resolves Sample.shallowReply) = [])
  /\ (WeavesAI.minStrength == 6305039478318694 # 9007199254740992)%Q
  /\ (WeavesAI.maxStrength == 1)%Q.
Proof.
  repeat apply conj.
  - intros count index strength reason V.
    apply validConnection_true in V. tauto.
  - intros count index q reason N.
    destruct (WeavesAI.validConnection _ _ _ _) eqn:V; auto.
    apply validConnection_true in V as [_ [q' [[= <-] A]]]. contradiction.
  - intros this newContent existing reply c.
    unfold WeavesAI.findConnections.
    destruct (negb (WeavesAI.isInitialized this)); [intros [] |].
    destruct reply as [e | text]; [intros [] |].
    destruct (String.eqb (Js.trim text) "NO_CONNECTIONS"); [intros [] |].
    apply parseLines_acceptable.
  - apply shallow_reason_invalid.
  - intros this newContent existing. unfold WeavesAI.findConnections.
    destruct (negb (WeavesAI.isInitialized this)); auto.
    replace (String.eqb (Js.trim Sample.shallowReply) "NO_CONNECTIONS")
      with false by (vm_compute; reflexivity).
    replace (Js.split "010" Sample.shallowReply) with [Sample.shallowReply]
      by (vm_compute; reflexivity).
    cbn [WeavesAI.parseLines]. now rewrite shallowReply_rejected.
  - vm_compute. reflexivity.
  - vm_compute. reflexivity.
Qed.

(** The three candidates of the sample reply meet the conditions. *)
Lemma shallow_candidates_witness :
  Forall (fun c => Spec.acceptable (Candidate.strength c) (Candidate.reason c))
    (WeavesAI.findConnections (Listener.weavesAI Sample.world2)
       (Sample.item "7-3" "New" 3)
       [Sample.item "7-1" "First" 1; Sample.item "7-2" "Second" 2]
       (Resolves Sample.reply3)).
Proof.
  destruct shallow_candidates_rejected as (_ & _ & Hall & _).
  apply Forall_forall. intros c. apply Hall.
Defined.

(** ** How many candidates one ingestion records *)

Lemma recordConnections_length (store : Js.Map Content.t) (content : Content.t)
  (env : Listener.Env) (from : nat) (conns : list Candidate.t) :
  List.length (Listener.recordConnections store content env from conns)
  = List.length conns.
Proof.
  revert from. induction conns as [| c r IH]; intros from; simpl; auto.
Qed.

Lemma findConnections_length (this : WeavesAI.t) (newContent : Content.t)
  (existing : list Content.t) (reply : PromptResult) :
  (List.length (WeavesAI.findConnections this newContent existing reply)
   <= match reply with
      | Resolves text => List.length (Spec.connectLines text)
      | Rejects _ => 0
      end)%nat.
Proof.
  unfold WeavesAI.findConnections.
  destruct (negb (WeavesAI.isInitialized this)); [simpl; lia |].
  destruct reply as [e | text]; [simpl; lia |].
  destruct (String.eqb (Js.trim text) "NO_CONNECTIONS"); [simpl; lia |].
  apply parseLines_length.
Qed.

(** A reply of three valid lines: all three candidates are accepted and
    recorded by one CONTENT_UPDATE, which reports 3 connections. *)
Lemma three_candidates_recorded :
  let '(w', sent) :=
    Listener.onMessage (Sample.env (Resolves Sample.reply3)) Sample.update
      Sample.sender Sample.world2 in
  WeavesAI.connections (Listener.weavesAI Sample.world2) = []
  /\ List.length (WeavesAI.connections (Listener.weavesAI w')) = 3%nat
  /\ sent = [Listener.Processed 3 2]
  /\ ~ (List.length (WeavesAI.connections (Listener.weavesAI w')) <= 2)%nat.
Proof.
  vm_compute. repeat split. intros H.
  apply le_S_n, le_S_n in H. inversion H.
Qed.

(** *** Every line that passes the validation is recorded *)

Lemma parseLine_accepted (analyses : list Content.t) (line : string)
  (c : Candidate.t) :
  WeavesAI.parseLine analyses line = Some c <->
  exists i q reason target,
    Spec.accepted (List.length analyses) line i q reason
    /\ nth_error analyses (Z.to_nat i) = Some target
    /\ c = Candidate.make (Content.id target) q reason
             "academic-insight" "provides-framework".
Proof.
  unfold WeavesAI.parseLine, Spec.accepted, Spec.fields. split.
  - destruct (Js.startsWith line "CONNECT:") eqn:S; [| discriminate].
    destruct (List.map Js.trim _) as [| p0 [| p1 [| p2 rest]]] eqn:P;
      try discriminate.
    destruct (WeavesAI.validConnection _ _ _ _) eqn:V; [| discriminate].
    apply validConnection_true in V as [[i [Ei Hi]] [q [Eq Hq]]].
    rewrite Ei, Eq.
    destruct (nth_error analyses (Z.to_nat i)) as [target |] eqn:N;
      [| discriminate].
    intros [= <-]. exists i, q, p2, target.
    split; [split; [reflexivity | exists p0, p1; auto] | auto].
  - intros (i & q & reason & target & [S [p0 [p1 [F [Ei [Hi [Eq Hq]]]]]]]
            & N & ->).
    rewrite S.
    destruct (List.map Js.trim _) as [| a0 [| a1 [| a2 rest]]];
      try discriminate.
    injection F as -> -> ->.
    assert (V : WeavesAI.validConnection (List.length analyses)
                  (Js.parseInt p0) (Js.parseFloat p1) reason = true).
    { apply validConnection_true. split; eauto. }
    rewrite V, Ei, Eq, N. reflexivity.
Qed.

Lemma parseLine_none (analyses : list Content.t) (line : string) :
  WeavesAI.parseLine analyses line = None ->
  forall i q reason,
    ~ Spec.accepted (List.length analyses) line i q reason.
Proof.
  intros H i q reason A.
  assert (R : 0 <= i < Z.of_nat (List.length analyses)).
  { destruct A as [_ [p0 [p1 [_ [_ [R _]]]]]]. exact R. }
  destruct (nth_error analyses (Z.to_nat i)) as [target |] eqn:N.
  - assert (E : WeavesAI.parseLine analyses line
                = Some (Candidate.make (Content.id target) q reason
                          "academic-insight" "provides-framework")).
    { apply parseLine_accepted. exists i, q, reason, target. auto. }
    congruence.
  - apply nth_error_None in N. lia.
Qed.

Lemma parseLines_oneForEach (analyses : list Content.t) (lines : list string) :
  Spec.oneForEachAccepted analyses lines
    (List.map (fun c => (Candidate.contentId c, Candidate.strength c,
                         Candidate.reason c))
              (WeavesAI.parseLines analyses lines)).
Proof.
  induction lines as [| line rest IH];
    cbn [WeavesAI.parseLines Spec.oneForEachAccepted]; [reflexivity |].
  destruct (WeavesAI.parseLine analyses line) as [c |] eqn:E.
  - left. apply parseLine_accepted in E
      as (i & q & reason & target & A & N & ->).
    exists i, q, reason, target. eexists. split; [exact A |].
    split; [exact N |]. split; [reflexivity | exact IH].
  - right. split; [now apply parseLine_none | exact IH].
Qed.

Lemma recordConnections_links (store : Js.Map Content.t) (content : Content.t)
  (env : Listener.Env) (from : nat) (conns : list Candidate.t) :
  List.map Spec.linkOf (Listener.recordConnections store content env from conns)
  = List.map (fun c => (Candidate.contentId c, Candidate.strength c,
                        Candidate.reason c)) conns.
Proof.
  revert from. induction conns as [| c r IH]; intros from;
    cbn [Listener.recordConnections map]; [reflexivity |].
  now rewrite IH.
Qed.

(** The number that [0.75] denotes is three quarters. *)
Lemma highQuality_threshold (q : Q) :
  Qle_bool WeavesAI.highQualityStrength q = Qle_bool (3 # 4) q.
Proof.
  assert (E : (WeavesAI.highQualityStrength == 3 # 4)%Q)
    by (vm_compute; reflexivity).
  apply eq_true_iff_eq. rewrite !Qle_bool_iff. now rewrite E.
Qed.

Lemma recorded_highQuality (store : Js.Map Content.t) (content : Content.t)
  (env : Listener.Env) (from : nat) (conns : list Candidate.t) :
  List.length
    (filter (fun c => Qle_bool (3 # 4) (Connection.strength c))
            (Listener.recordConnections store content env from conns))
  = List.length (Listener.highQualityConnections conns).
Proof.
  unfold Listener.highQualityConnections. revert from.
  induction conns as [| c r IH]; intros from;
    cbn [Listener.recordConnections filter]; [reflexivity |].
  cbn [Listener.recordConnection Connection.strength].
  rewrite highQuality_threshold.
  destruct (Qle_bool (3 # 4) (Candidate.strength c)); cbn [List.length];
    now rewrite IH.
Qed.

Lemma skipn_app_exact {A : Type} (l1 l2 : list A) :
  skipn (List.length l1) (l1 ++ l2) = l2.
Proof. induction l1 as [| x r IH]; auto. Qed.

(** What a CONTENT_UPDATE from a tab appends and answers. *)
Lemma content_update_answer (env : Listener.Env) (t : Listener.Tab)
  (title content url domain platform contentType : string)
  (w : Listener.World) :
  let ai := Listener.weavesAI w in
  let k := Listener.clock w in
  let item :=
    Content.make
      (Js.toString (Listener.tab_id t) ++ "-" ++ Js.toString (Listener.now env k))
      (Listener.tab_id t) (Listener.tab_url t) title content domain platform
      contentType (Listener.now env (S k))
      (WeavesAI.analyzeContent ai content (Listener.analyzed env)) in
  let store := Js.set (WeavesAI.contentStore ai) (Content.id item) item in
  let existingContents :=
    Js.slice0 12
      (Js.sort Listener.byRecency
         (List.filter
            (fun c => negb (String.eqb (Content.id c) (Content.id item)))
            (Js.values store))) in
  let found :=
    WeavesAI.findConnections ai item existingContents (Listener.reply env) in
  let r :=
    Listener.onMessage env
      (Listener.CONTENT_UPDATE title content url domain platform contentType)
      (Listener.makeSender (Some t)) w in
  WeavesAI.connections (Listener.weavesAI (fst r))
  = (WeavesAI.connections ai
     ++ Listener.recordConnections store item env (S (S k)) found)%list
  /\ snd r = [Listener.Processed (List.length found)
                (List.length (Listener.highQualityConnections found))]
  /\ Listener.action (fst r)
     = match Listener.highQualityConnections found with
       | [] => Listener.action w
       | _ :: _ =>
           (Listener.action w ++
            [Listener.setBadgeText
               (Js.toString
                  (Z.of_nat (List.length (Listener.highQualityConnections found))))
               (Some (Listener.tab_id t));
             Listener.setBadgeBackgroundColor "#4CAF50"])%list
       end.
Proof.
  destruct w as [[init cs conns m] st act ck]. repeat split.
Qed.

Lemma split_line (sep : ascii) (l rest : string) :
  ~ In sep (list_ascii_of_string l) ->
  Js.split sep (l ++ String sep rest) = l :: Js.split sep rest.
Proof.
  induction l as [| c l' IH]; intros H.
  - cbn [append Js.split]. now rewrite Ascii.eqb_refl.
  - cbn [append Js.split]. rewrite IH by (intros X; apply H; right; exact X).
    destruct (Ascii.eqb c sep) eqn:E; [| reflexivity].
    apply Ascii.eqb_eq in E. exfalso. apply H. left. exact E.
Qed.

Lemma replyOf_lines (n : nat) :
  Js.split "010" (More.replyOf n)
  = (repeat More.validLine n ++ [EmptyString])%list.
Proof.
  induction n as [| k IH]; [reflexivity |].
  cbn [More.replyOf repeat app].
  change (Sample.newline ++ More.replyOf k)
    with (String "010" (More.replyOf k)).
  rewrite split_line, IH; [reflexivity |].
  intros H.
  assert (X : existsb (Ascii.eqb "010") (list_ascii_of_string More.validLine)
              = true).
  { apply existsb_exists. eexists. split; [exact H | apply Ascii.eqb_refl]. }
  vm_compute in X. discriminate.
Qed.

Lemma replyOf_not_the_keyword (n : nat) :
  String.eqb (Js.trim (More.replyOf n)) "NO_CONNECTIONS" = false.
Proof.
  destruct n as [| k]; [reflexivity |].
  cbn [More.replyOf]. unfold More.validLine.
  cbn [append Js.trim Js.trimStart].
  change (Js.isWhiteSpace "C") with false. cbv iota.
  cbn [Js.trimEnd]. change (Js.isWhiteSpace "C") with false.
  reflexivity.
Qed.

Lemma validLine_recorded (analyses : list Content.t) :
  analyses <> [] ->
  exists c, WeavesAI.parseLine analyses More.validLine = Some c.
Proof.
  destruct analyses as [| target rest]; [congruence |]. intros _.
  set (q := match Js.parseFloat "0.9" with
            | Js.JsFinite x => x
            | _ => 0%Q
            end).
  eexists. apply parseLine_accepted.
  exists 0, q, Sample.reason, target.
  split; [| split; reflexivity].
  split; [vm_compute; reflexivity |].
  exists "0", "0.9".
  split; [vm_compute; reflexivity |].
  split; [vm_compute; reflexivity |].
  split; [cbn [List.length]; lia |].
  split; [vm_compute; reflexivity |].
  split; [vm_compute; discriminate |].
  split; [vm_compute; discriminate |].
  split; [apply Nat.ltb_lt; vm_compute; reflexivity |].
  intros phrase [<- | [<- | [<- | []]]]; vm_compute; reflexivity.
Qed.

Lemma parseLines_replyOf (analyses : list Content.t) (n : nat) :
  analyses <> [] ->
  List.length
    (WeavesAI.parseLines analyses
       (repeat More.validLine n ++ [EmptyString])%list) = n.
Proof.
  intros H. destruct (validLine_recorded analyses H) as [c E].
  induction n as [| k IH]; [reflexivity |].
  cbn [repeat app WeavesAI.parseLines]. rewrite E.
  cbn [List.length]. now rewrite IH.
Qed.

(** C5, amended.  One ingestion records, after the connections the list
    already has, one connection for each line of the reply that starts
    with CONNECT: and passes the validation, in the order of the lines,
    and none for the other lines: their number is at most the number of
    CONNECT: lines, and nothing else bounds it, since for every number
    there is a reply that makes the ingestion record that many.  The
    response reports that number and the number of the recorded
    connections of strength 0.75 or more. *)
Theorem valid_lines_all_recorded (now : nat -> Z) (today : string)
  (analyzed : Analysis.t) (t : Listener.Tab)
  (title content url domain platform contentType : string)
  (w : Listener.World) :
  let ai := Listener.weavesAI w in
  let k := Listener.clock w in
  let item :=
    Content.make
      (Js.toString (Listener.tab_id t) ++ "-" ++ Js.toString (now k))
      (Listener.tab_id t) (Listener.tab_url t) title content domain platform
      contentType (now (S k)) (WeavesAI.analyzeContent ai content analyzed) in
  let store := Js.set (WeavesAI.contentStore ai) (Content.id item) item in
  let compared :=
    Js.slice0 4
      (Js.slice0 12
         (Js.sort Listener.byRecency
            (List.filter
               (fun c => negb (String.eqb (Content.id c) (Content.id item)))
               (Js.values store)))) in
  let answer (reply : PromptResult) :=
    Listener.onMessage (Listener.makeEnv now today analyzed reply)
      (Listener.CONTENT_UPDATE title content url domain platform contentType)
      (Listener.makeSender (Some t)) w in
  let recorded (reply : PromptResult) :=
    skipn (List.length (WeavesAI.connections ai))
          (WeavesAI.connections (Listener.weavesAI (fst (answer reply)))) in
  (forall reply,
      WeavesAI.connections (Listener.weavesAI (fst (answer reply)))
      = (WeavesAI.connections ai ++ recorded reply)%list
      /\ snd (answer reply)
         = [Listener.Processed (List.length (recorded reply))
              (List.length
                 (filter (fun c => Qle_bool (3 # 4) (Connection.strength c))
                         (recorded reply)))])
  /\ (forall text,
        WeavesAI.isInitialized ai = true ->
        Js.trim text <> "NO_CONNECTIONS" ->
        Spec.oneForEachAccepted compared (Js.split "010" text)
          (List.map Spec.linkOf (recorded (Resolves text)))
        /\ (List.length (recorded (Resolves text))
            <= List.length (Spec.connectLines text))%nat)
  /\ (WeavesAI.isInitialized ai = true -> compared <> [] ->
      forall n, exists text, List.length (recorded (Resolves text)) = n).
Proof.
  intros ai k item store compared answer recorded.
  assert (R : forall reply,
            exists found,
              found = WeavesAI.findConnections ai item
                        (Js.slice0 12
                           (Js.sort Listener.byRecency
                              (List.filter
                                 (fun c => negb (String.eqb (Content.id c)
                                                            (Content.id item)))
                                 (Js.values store)))) reply
              /\ recorded reply
                 = Listener.recordConnections store item
                     (Listener.makeEnv now today analyzed reply) (S (S k)) found
              /\ WeavesAI.connections (Listener.weavesAI (fst (answer reply)))
                 = (WeavesAI.connections ai ++ recorded reply)%list
              /\ snd (answer reply)
                 = [Listener.Processed (List.length found)
                      (List.length (Listener.highQualityConnections found))]).
  { intros reply.
    pose proof (content_update_answer (Listener.makeEnv now today analyzed reply)
                  t title content url domain platform contentType w) as H.
    cbv zeta in H. cbn [Listener.now Listener.analyzed Listener.reply] in H.
    destruct H as [Hc [Hs _]].
    eexists. split; [reflexivity |].
    assert (E : recorded reply
                = Listener.recordConnections store item
                    (Listener.makeEnv now today analyzed reply) (S (S k))
                    (WeavesAI.findConnections ai item
                       (Js.slice0 12
                          (Js.sort Listener.byRecency
                             (List.filter
                                (fun c => negb (String.eqb (Content.id c)
                                                           (Content.id item)))
                                (Js.values store)))) reply)).
    { unfold recorded, answer. rewrite Hc. apply skipn_app_exact. }
    split; [exact E |]. split; [| exact Hs].
    rewrite E. exact Hc. }
  assert (F : forall text,
            WeavesAI.isInitialized ai = true ->
            String.eqb (Js.trim text) "NO_CONNECTIONS" = false ->
            recorded (Resolves text)
            = Listener.recordConnections store item
                (Listener.makeEnv now today analyzed (Resolves text)) (S (S k))
                (WeavesAI.parseLines compared (Js.split "010" text))).
  { intros text I N. destruct (R (Resolves text)) as [found [-> [E _]]].
    rewrite E. unfold WeavesAI.findConnections. rewrite I, N. reflexivity. }
  refine (conj _ (conj _ _)).
  - intros reply. destruct (R reply) as [found [_ [E [Hc Hs]]]].
    split; [exact Hc |].
    rewrite Hs, E, recordConnections_length, recorded_highQuality.
    reflexivity.
  - intros text I N. apply String.eqb_neq in N.
    rewrite (F text I N). split.
    + rewrite recordConnections_links. apply parseLines_oneForEach.
    + rewrite recordConnections_length. apply parseLines_length.
  - intros I C n. exists (More.replyOf n).
    rewrite (F _ I (replyOf_not_the_keyword n)).
    rewrite recordConnections_length, replyOf_lines.
    now apply parseLines_replyOf.
Qed.

(** ** Rounding to binary64 above the duplicate threshold *)

Lemma round_half_even_ge (a d m : Z) :
  0 < d -> (2 * m - 1) * d < 2 * a -> m <= Js.round_half_even a d.
Proof.
  intros Hd H. unfold Js.round_half_even.
  pose proof (Z.div_mod a d ltac:(lia)) as E.
  pose proof (Z.mod_pos_bound a d Hd) as B.
  set (q := a / d) in *. set (r := a mod d) in *.
  assert (Hq : m - 1 <= q) by nia.
  destruct (Z.ltb_spec (2 * r) d) as [L | L].
  - nia.
  - destruct (Z.ltb_spec d (2 * r)) as [G | G].
    + lia.
    + destruct (Z.even q); nia.
Qed.

Lemma round_half_even_exact (d k : Z) :
  0 < d -> Js.round_half_even (d * k) d = k.
Proof.
  intros Hd. unfold Js.round_half_even.
  replace (d * k) with (k * d) by lia.
  rewrite Z.div_mul, Z.mod_mul by lia.
  destruct (Z.ltb_spec (2 * 0) d); lia.
Qed.

Lemma log2_close (n d : positive) :
  4 * Zpos d <= 5 * Zpos n -> Zpos n <= Zpos d ->
  Z.log2 (Zpos n) - Z.log2 (Zpos d) = 0 \/
  Z.log2 (Zpos n) - Z.log2 (Zpos d) = -1.
Proof.
  intros H1 H2.
  pose proof (Z.log2_le_mono _ _ H2) as A.
  assert (B : Z.log2 (Zpos d) <= Z.log2 (2 * Zpos n)) by (apply Z.log2_le_mono; lia).
  rewrite Z.log2_double in B by lia.
  lia.
Qed.

(** The double nearest to a ratio between 4/5 and 1 is at least the
    double nearest to 4/5. *)
Lemma binary64_above_threshold (n d : positive) :
  4 * Zpos d <= 5 * Zpos n -> Zpos n <= Zpos d ->
  exists r, Js.binary64_of_pos n d = Js.JsFinite r
            /\ (7205759403792794 # 9007199254740992 <= r)%Q.
Proof.
  intros H1 H2. unfold Js.binary64_of_pos.
  destruct (Z.eq_dec (Zpos n) (Zpos d)) as [E | NE].
  - injection E as ->.
    rewrite Z.sub_diag. unfold Js.scale2.
    change (0 <=? 0) with true. cbv iota beta.
    rewrite Z.pow_0_r, Z.mul_1_r.
    rewrite (proj2 (Z.leb_le (Zpos d) (Zpos d))) by lia.
    change (Z.max 0 (-1022) - 52) with (-52).
    change (0 <=? -52) with false. cbv iota beta.
    change (- -52) with 52.
    rewrite round_half_even_exact by lia.
    change (971 <? -52) with false. change (-52 =? 971) with false.
    cbv iota beta. cbn [orb andb].
    eexists. split; [reflexivity |].
    vm_compute. discriminate.
  - assert (Hlt : Zpos n < Zpos d) by lia.
    assert (He : (let '(n0, d0) :=
                    Js.scale2 (Zpos n) (Zpos d)
                              (Z.log2 (Zpos n) - Z.log2 (Zpos d)) in
                  if d0 <=? n0
                  then Z.log2 (Zpos n) - Z.log2 (Zpos d)
                  else Z.log2 (Zpos n) - Z.log2 (Zpos d) - 1) = -1).
    { destruct (log2_close n d H1 H2) as [-> | ->]; unfold Js.scale2.
      - change (0 <=? 0) with true. cbv iota beta.
        rewrite Z.pow_0_r, Z.mul_1_r.
        destruct (Z.leb_spec (Zpos d) (Zpos n)); lia.
      - change (0 <=? -1) with false. cbv iota beta.
        change (2 ^ (- -1)) with 2.
        destruct (Z.leb_spec (Zpos d) (Zpos n * 2)); lia. }
    destruct (Js.scale2 (Zpos n) (Zpos d) (Z.log2 (Zpos n) - Z.log2 (Zpos d)))
      as [n0 d0].
    rewrite He.
    change (Z.max (-1) (-1022) - 52) with (-53).
    unfold Js.scale2.
    change (0 <=? -53) with false. cbv iota beta.
    change (2 ^ (- -53)) with 9007199254740992.
    change (971 <? -53) with false. change (-53 =? 971) with false.
    cbn [orb andb].
    eexists. split; [reflexivity |].
    unfold Js.pow2_times.
    change (0 <=? -53) with false. cbv iota beta.
    change (Z.to_pos (2 ^ (- -53))) with 9007199254740992%positive.
    unfold Qle. cbn [Qnum Qden].
    apply Z.mul_le_mono_nonneg_r; [lia |].
    apply round_half_even_ge; lia.
Qed.

Lemma double_above_threshold (i : Z) (u : positive) :
  0 <= i <= Zpos u -> (8 # 10 <= i # u)%Q ->
  Qle_bool WeavesContentExtractor.duplicateThreshold (Js.double (i # u)) = true.
Proof.
  intros [H0 H1] H. apply Qle_bool_iff.
  change WeavesContentExtractor.duplicateThreshold
    with (7205759403792794 # 9007199254740992).
  unfold Qle in H. cbn [Qnum Qden] in H.
  unfold Js.double, Js.binary64. cbn [Qnum Qden].
  destruct i as [| n | n]; try lia.
  destruct (binary64_above_threshold n u) as [r [-> Hr]]; try lia.
  exact Hr.
Qed.

(** ** Sets of tokens *)

Lemma setHas_In (s : list string) (x : string) :
  Js.setHas s x = true <-> In x s.
Proof.
  unfold Js.setHas. rewrite existsb_exists. split.
  - intros [y [Hy E]]. apply String.eqb_eq in E. now subst.
  - intros H. exists x. split; auto. apply String.eqb_refl.
Qed.

Lemma newSet_from (l acc : list string) :
  NoDup acc ->
  NoDup (fold_left Js.setAdd l acc)
  /\ forall x, In x (fold_left Js.setAdd l acc) <-> In x acc \/ In x l.
Proof.
  revert acc. induction l as [| y r IH]; intros acc Hacc; cbn [fold_left].
  - split; auto. intros x. simpl. tauto.
  - unfold Js.setAdd at 2 4.
    destruct (Js.setHas acc y) eqn:E.
    + destruct (IH acc Hacc) as [N I]. split; auto.
      intros x. rewrite I. apply setHas_In in E. simpl.
      split; [tauto |]. intros [H | [<- | H]]; auto.
    + assert (Hn : ~ In y acc).
      { intros H. apply setHas_In in H. congruence. }
      assert (N' : NoDup (acc ++ [y])).
      { apply NoDup_app; auto.
        - repeat constructor. intros [].
        - intros z Hz [<- | []]. contradiction. }
      destruct (IH (acc ++ [y])%list N') as [N I]. split; auto.
      intros x. rewrite I, in_app_iff. simpl. tauto.
Qed.

Lemma newSet_NoDup (l : list string) : NoDup (Js.newSet l).
Proof. apply newSet_from. constructor. Qed.

Lemma newSet_In (l : list string) (x : string) : In x (Js.newSet l) <-> In x l.
Proof.
  unfold Js.newSet.
  destruct (newSet_from l [] (NoDup_nil _)) as [_ I].
  rewrite I. simpl. tauto.
Qed.

Lemma intersection_le_union (set1 set2 : list string) :
  (List.length (WeavesContentExtractor.intersection set1 set2)
   <= List.length (WeavesContentExtractor.union set1 set2))%nat.
Proof.
  apply NoDup_incl_length; [apply newSet_NoDup |].
  intros x. unfold WeavesContentExtractor.intersection,
    WeavesContentExtractor.union.
  rewrite !newSet_In, filter_In, in_app_iff. tauto.
Qed.

(** For two texts that are not empty, [contentSimilarity] is the Jaccard
    ratio of their token sets, rounded to a double. *)
Lemma contentSimilarity_jaccard (a b : string) :
  a <> EmptyString -> b <> EmptyString ->
  WeavesContentExtractor.contentSimilarity a b = Js.double (Spec.jaccard a b).
Proof.
  intros Ha Hb. unfold WeavesContentExtractor.contentSimilarity.
  apply String.eqb_neq in Ha, Hb. now rewrite Ha, Hb.
Qed.

Lemma of_nat_le_pos (n : nat) : Z.of_nat n <= Zpos (Pos.of_nat n).
Proof.
  destruct n as [| k]; [simpl; lia |].
  rewrite <- (Nat2Pos.id (S k)) at 1 by discriminate.
  rewrite positive_nat_Z. lia.
Qed.

(** ** The duplicate gate of the content script *)

(** What [extractContent] returns is empty or starts with a character
    that is not white space. *)

Lemma lowerChar_whitespace (c : ascii) :
  Js.isWhiteSpace (Js.lowerChar c) = Js.isWhiteSpace c.
Proof.
  destruct c as [[|] [|] [|] [|] [|] [|] [|] [|]]; reflexivity.
Qed.

Lemma trimStart_head (s : string) :
  Js.trimStart s = EmptyString
  \/ exists c r, Js.trimStart s = String c r /\ Js.isWhiteSpace c = false.
Proof.
  induction s as [| c r IH]; cbn [Js.trimStart]; auto.
  destruct (Js.isWhiteSpace c) eqn:E; auto.
  right. eauto.
Qed.

Lemma cleanContent_head (raw : string) :
  WeavesContentExtractor.cleanContent raw = EmptyString
  \/ exists c r,
       WeavesContentExtractor.cleanContent raw = String c r
       /\ Js.isWhiteSpace c = false.
Proof.
  unfold WeavesContentExtractor.cleanContent, Js.trim.
  destruct (trimStart_head (Js.collapseWhiteSpace raw)) as [-> | [c [r [-> H]]]].
  - left. reflexivity.
  - right. cbn [Js.trimEnd]. rewrite H. cbn [andb].
    unfold Js.substring0.
    change (Z.to_nat 8000) with (S (Z.to_nat 7999)). cbn [Js.take]. eauto.
Qed.

Lemma tokenSet_head (c : ascii) (r : string) :
  Js.isWhiteSpace c = false ->
  exists token,
    token <> EmptyString
    /\ In token (WeavesContentExtractor.tokenSet (String c r)).
Proof.
  intros H. unfold WeavesContentExtractor.tokenSet, Js.split_ws.
  cbn [Js.toLowerCase Js.split_ws_from].
  rewrite lowerChar_whitespace, H.
  destruct (Js.split_ws_from false (Js.toLowerCase r)) as [| p ps];
    eexists; (split; [| apply newSet_In; left; reflexivity]); discriminate.
Qed.

(** Against the empty [lastContent] of a fresh instance, a text that
    [extractContent] returns never reaches the similarity 0.8. *)
Lemma jaccard_with_nothing_sent (c : ascii) (r : string) :
  Js.isWhiteSpace c = false ->
  ~ (8 # 10 <= Spec.jaccard (String c r) EmptyString)%Q.
Proof.
  intros H. destruct (tokenSet_head c r H) as [token [Hne Hin]].
  unfold Spec.jaccard.
  change (WeavesContentExtractor.tokenSet EmptyString) with [EmptyString].
  set (A := WeavesContentExtractor.tokenSet (String c r)) in *.
  assert (I : (List.length (WeavesContentExtractor.intersection A [EmptyString])
               <= 1)%nat).
  { change 1%nat with (List.length [EmptyString]).
    apply NoDup_incl_length; [apply newSet_NoDup |].
    intros x. unfold WeavesContentExtractor.intersection.
    rewrite newSet_In, filter_In, setHas_In. tauto. }
  assert (U : (2 <= List.length (WeavesContentExtractor.union A [EmptyString]))%nat).
  { change 2%nat with (List.length [token; EmptyString]).
    apply NoDup_incl_length.
    - repeat constructor; cbn; intuition.
    - intros x [<- | [<- | []]]; unfold WeavesContentExtractor.union;
        rewrite newSet_In, in_app_iff; cbn; auto. }
  unfold Qle. cbn [Qnum Qden].
  pose proof (of_nat_le_pos (List.length (WeavesContentExtractor.union A [EmptyString]))).
  lia.
Qed.

(** C9.  When the text that [extractContent] returns has a token-set
    Jaccard similarity of at least 0.8 with [lastContent], the text last
    sent, [extractAndSend] sends nothing and keeps [lastContent]: no
    CONTENT_UPDATE reaches the background, whose state, content store
    included, stays as it was. *)
Theorem duplicate_content_skipped
  (document : WeavesContentExtractor.Document) (x : WeavesContentExtractor.t) :
  (8 # 10 <= Spec.jaccard
               (WeavesContentExtractor.content
                  (WeavesContentExtractor.extractContent document))
               (WeavesContentExtractor.lastContent x))%Q ->
  WeavesContentExtractor.extractAndSend document x = (x, None)
  /\ forall env tab w,
       Page.extraction env tab document x w = (x, w, [])
       /\ Js.size (WeavesAI.contentStore
                     (Listener.weavesAI
                        (snd (fst (Page.extraction env tab document x w)))))
          = Js.size (WeavesAI.contentStore (Listener.weavesAI w)).
Proof.
  intros Hsim.
  assert (E : WeavesContentExtractor.extractAndSend document x = (x, None)).
  { unfold WeavesContentExtractor.extractAndSend. cbv zeta.
    destruct (Nat.ltb_spec
                (String.length
                   (WeavesContentExtractor.content
                      (WeavesContentExtractor.extractContent document))) 100)
      as [Hshort | Hlong]; auto.
    cbn [WeavesContentExtractor.content WeavesContentExtractor.extractContent]
      in *.
    destruct (cleanContent_head (WeavesContentExtractor.gathered document))
      as [Z | [c [r [Z Hc]]]]; rewrite Z in *.
    { cbn in Hlong. lia. }
    destruct (string_dec (WeavesContentExtractor.lastContent x) EmptyString)
      as [Hlast | Hlast].
    { rewrite Hlast in Hsim. now apply jaccard_with_nothing_sent in Hsim. }
    rewrite contentSimilarity_jaccard by (auto; discriminate).
    unfold Js.lt, Spec.jaccard in *.
    rewrite double_above_threshold; auto.
    split; [lia |].
    etransitivity; [| apply of_nat_le_pos].
    apply Nat2Z.inj_le, intersection_le_union. }
  split; auto.
  intros env tab w. unfold Page.extraction. rewrite E. auto.
Qed.

(** A near copy of the page last sent: 19 of 20 tokens shared. *)
Lemma duplicate_content_witness :
  WeavesContentExtractor.extractAndSend (Sample.document Sample.textAgain)
    (WeavesContentExtractor.make Sample.text)
  = (WeavesContentExtractor.make Sample.text, None).
Proof.
  apply (duplicate_content_skipped (Sample.document Sample.textAgain)
           (WeavesContentExtractor.make Sample.text)).
  vm_compute. discriminate.
Defined.

(** ** Eviction beyond capacity *)

Lemma byPinnedAt_notAfter (a b : string * Pinned.t) :
  Js.notAfter WeavesStorageManager.byPinnedAt a b
  <-> Pinned.pinnedAt (snd a) <= Pinned.pinnedAt (snd b).
Proof.
  unfold Js.notAfter, WeavesStorageManager.byPinnedAt.
  rewrite inject_Z_nonpos. lia.
Qed.

Lemma byPinnedAt_total (a b : string * Pinned.t) :
  Js.notAfter WeavesStorageManager.byPinnedAt a b
  \/ Js.notAfter WeavesStorageManager.byPinnedAt b a.
Proof. rewrite !byPinnedAt_notAfter. lia. Qed.

Lemma byPinnedAt_trans (a b c : string * Pinned.t) :
  Js.notAfter WeavesStorageManager.byPinnedAt a b ->
  Js.notAfter WeavesStorageManager.byPinnedAt b c ->
  Js.notAfter WeavesStorageManager.byPinnedAt a c.
Proof. rewrite !byPinnedAt_notAfter. lia. Qed.

Section DeleteFacts.
Context {V : Type}.
Implicit Types (m : Js.Map V) (k : string).

Lemma delete_as_filter m k :
  NoDup (Js.keys m) ->
  Js.delete m k = filter (fun e => negb (String.eqb (fst e) k)) m.
Proof.
  unfold Js.keys.
  induction m as [| [k' v] r IH]; cbn [Js.delete filter map fst]; auto.
  intros N. inversion N as [| ? ? Hk Nr]; subst.
  destruct (String.eqb k' k) eqn:E; cbn [negb].
  - apply String.eqb_eq in E. subst k'.
    symmetry. apply forallb_filter_id, forallb_forall.
    intros [k2 v2] H2. cbn [fst]. apply negb_true_iff, String.eqb_neq.
    intros ->. apply Hk. apply in_map_iff. exists (k, v2). auto.
  - now rewrite IH.
Qed.

Lemma keys_filter_NoDup m (f : string * V -> bool) :
  NoDup (Js.keys m) -> NoDup (Js.keys (filter f m)).
Proof.
  unfold Js.keys.
  induction m as [| e r IH]; cbn [filter map]; auto.
  intros N. inversion N as [| ? ? Hk Nr]; subst.
  destruct (f e); cbn [map]; auto.
  constructor; auto.
  intros H. apply Hk. apply in_map_iff in H as [x [E Hx]].
  apply filter_In in Hx as [Hx _]. apply in_map_iff. eauto.
Qed.

Lemma delete_all_NoDup (removed : list (string * V)) m :
  NoDup (Js.keys m) ->
  NoDup (Js.keys (fold_left (fun m' r => Js.delete m' (fst r)) removed m)).
Proof.
  revert m. induction removed as [| r rest IH]; intros m N; cbn [fold_left]; auto.
  rewrite delete_as_filter by exact N.
  apply IH, keys_filter_NoDup, N.
Qed.

(** Deleting the keys of [removed], one after the other, leaves the
    entries of the map whose key is not among them. *)
Lemma delete_all_In (removed : list (string * V)) m (e : string * V) :
  NoDup (Js.keys m) ->
  In e (fold_left (fun m' r => Js.delete m' (fst r)) removed m)
  <-> In e m /\ ~ In (fst e) (Js.keys removed).
Proof.
  revert m. induction removed as [| r rest IH]; intros m N; cbn [fold_left].
  - cbn. tauto.
  - rewrite delete_as_filter by exact N.
    rewrite IH by (apply keys_filter_NoDup, N).
    rewrite filter_In, negb_true_iff, String.eqb_neq. cbn. intuition.
Qed.
End DeleteFacts.

Lemma sorted_app_order {A : Type} (R : A -> A -> Prop) (l1 l2 : list A) :
  StronglySorted R (l1 ++ l2) ->
  forall x y, In x l1 -> In y l2 -> R x y.
Proof.
  induction l1 as [| a r IH]; cbn; intros S x y Hx Hy; [destruct Hx |].
  inversion S as [| ? ? S' F]; subst.
  destruct Hx as [<- | Hx].
  - rewrite Forall_forall in F. apply F, in_or_app. auto.
  - eapply IH; eauto.
Qed.

(** X1.  The part of the cleanup that background.js has: from a ledger
    above the configured maximum it removes the entries pinned first, as
    many as exceed the maximum, and keeps the others. *)
Lemma cleanup_evicts_oldest (this : WeavesStorageManager.t) (store : Storage.t) :
  let ledger := WeavesStorageManager.pinnedConnections this in
  let max := Settings.maxPinnedConnections (WeavesStorageManager.settings this) in
  let ledger' :=
    WeavesStorageManager.pinnedConnections
      (fst (WeavesStorageManager.cleanupPinnedConnections this store)) in
  NoDup (Js.keys ledger) ->
  0 <= max < Z.of_nat (Js.size ledger) ->
  Z.of_nat (Js.size ledger') = max
  /\ (forall e, In e ledger' -> In e ledger)
  /\ (forall e e', In e ledger -> ~ In e ledger' -> In e' ledger' ->
        Pinned.pinnedAt (snd e) <= Pinned.pinnedAt (snd e')).
Proof.
  intros ledger max ledger' N [H0 H1].
  unfold ledger', WeavesStorageManager.cleanupPinnedConnections.
  fold ledger max. rewrite (proj2 (Z.ltb_lt _ _) H1).
  cbn [fst WeavesStorageManager.withPinnedConnections
       WeavesStorageManager.pinnedConnections].
  unfold Js.entries, Js.slice0.
  set (sorted := Js.sort WeavesStorageManager.byPinnedAt ledger).
  set (k := Z.to_nat (Z.of_nat (List.length sorted) - max)).
  set (removed := firstn k sorted).
  assert (P : Permutation sorted ledger) by apply sort_perm.
  assert (S : StronglySorted (Js.notAfter WeavesStorageManager.byPinnedAt)
                (removed ++ skipn k sorted)).
  { unfold removed. rewrite firstn_skipn.
    apply sort_sorted; [apply byPinnedAt_total | apply byPinnedAt_trans]. }
  assert (Nl : NoDup ledger) by (eapply NoDup_map_inv; exact N).
  assert (Ns : NoDup (removed ++ skipn k sorted)).
  { unfold removed. rewrite firstn_skipn.
    eapply Permutation_NoDup; [symmetry; exact P | exact Nl]. }
  assert (Hk : forall e, In e ledger ->
            (In (fst e) (Js.keys removed) <-> In e removed)).
  { intros e He. unfold Js.keys. rewrite in_map_iff. split.
    - intros [r [E Hr]].
      assert (Hr' : In r ledger).
      { apply (Permutation_in _ P). unfold removed in Hr.
        rewrite <- (firstn_skipn k sorted). apply in_or_app. auto. }
      assert (r = e); [| now subst].
      destruct r as [kr vr], e as [ke ve]. cbn in E. subst kr.
      clear - N He Hr'. unfold Js.keys in N.
      induction ledger as [| [k0 v0] rest IH]; [destruct He |].
      cbn in N. inversion N as [| ? ? Hn Nr]; subst.
      destruct He as [He | He], Hr' as [Hr' | Hr'].
      + congruence.
      + injection He as -> ->. exfalso. apply Hn.
        apply in_map_iff. exists (ke, vr). auto.
      + injection Hr' as -> ->. exfalso. apply Hn.
        apply in_map_iff. exists (ke, ve). auto.
      + auto.
    - intros Hr. exists e. auto. }
  assert (I : forall e,
            In e (fold_left (fun m e0 => Js.delete m (fst e0)) removed ledger)
            <-> In e (skipn k sorted)).
  { intros e. rewrite (delete_all_In removed ledger e N). split.
    - intros [He Hn]. rewrite Hk in Hn by exact He.
      apply (Permutation_in _ (Permutation_sym P)) in He.
      rewrite <- (firstn_skipn k sorted) in He.
      apply in_app_or in He as [He | He]; [contradiction | exact He].
    - intros He.
      assert (He' : In e ledger).
      { apply (Permutation_in _ P). rewrite <- (firstn_skipn k sorted).
        apply in_or_app. auto. }
      split; auto. rewrite Hk by exact He'. intros Hr.
      apply NoDup_app_remove_l in Ns as Ns2.
      clear - Ns Hr He.
      induction removed as [| r rest IH]; [destruct Hr |].
      cbn in Ns. inversion Ns as [| ? ? Hn Nr]; subst.
      destruct Hr as [-> | Hr]; auto.
      apply Hn, in_or_app. auto. }
  assert (Nf : NoDup (fold_left (fun m e0 => Js.delete m (fst e0)) removed ledger)).
  { eapply NoDup_map_inv. apply (delete_all_NoDup removed ledger N). }
  repeat split.
  - assert (L : List.length (fold_left (fun m e0 => Js.delete m (fst e0)) removed ledger)
                = List.length (skipn k sorted)).
    { apply Permutation_length, NoDup_Permutation; auto.
      eapply NoDup_app_remove_l; exact Ns. }
    unfold Js.size. rewrite L, length_skipn.
    pose proof (sort_length WeavesStorageManager.byPinnedAt ledger) as SL.
    fold sorted in SL. unfold k. unfold Js.size in H1. lia.
  - intros e He. apply I in He.
    apply (Permutation_in _ P). rewrite <- (firstn_skipn k sorted).
    apply in_or_app. auto.
  - intros e e' He Hne He'.
    apply byPinnedAt_notAfter.
    apply (sorted_app_order _ _ _ S).
    + apply (Permutation_in _ (Permutation_sym P)) in He.
      rewrite <- (firstn_skipn k sorted) in He.
      apply in_app_or in He as [He | He]; auto.
      exfalso. apply Hne, I, He.
    + now apply I.
Qed.

(** ** The storage manager of storage-manager.js *)

Lemma js_compareListed_inOrder (a b : StorageManagerJs.ListedT) :
  Js.notAfter StorageManagerJs.compareListed a b <-> Spec.inOrderJs a b.
Proof. apply comparator_ranked. Qed.

(** X22.  [getAllConnections] of storage-manager.js returns the pinned
    entries and the regular entries whose id no pinned entry has, ordered
    pinned first, then by strength descending, then by timestamp
    descending, entries of one rank in the order of the merge. *)
Lemma js_getAllConnections_ordered (regular : list Connection.t)
  (this : StorageManagerJs.t) :
  let pinned := StorageManagerJs.getPinnedConnections this in
  let listed :=
    List.map (fun c => StorageManagerJs.makeListed
                         (Connection.withPinned c false)
                         (StorageManagerJs.generateConnectionId c) None)
             regular in
  let merged :=
    (pinned ++
     filter (fun r =>
               negb (existsb (fun p => StorageManagerJs.sameId
                                         (StorageManagerJs.id p)
                                         (StorageManagerJs.id r)) pinned))
            listed)%list in
  Permutation (StorageManagerJs.getAllConnections regular this) merged
  /\ StronglySorted Spec.inOrderJs
       (StorageManagerJs.getAllConnections regular this)
  /\ forall k,
       filter (Js.sameRank StorageManagerJs.compareListed k)
              (StorageManagerJs.getAllConnections regular this)
       = filter (Js.sameRank StorageManagerJs.compareListed k) merged.
Proof.
  intros pinned listed merged.
  assert (T : forall a b c,
             Js.notAfter StorageManagerJs.compareListed a b ->
             Js.notAfter StorageManagerJs.compareListed b c ->
             Js.notAfter StorageManagerJs.compareListed a c).
  { intros a b c. rewrite !js_compareListed_inOrder. apply ranked_trans. }
  assert (Tot : forall a b,
             Js.notAfter StorageManagerJs.compareListed a b
             \/ Js.notAfter StorageManagerJs.compareListed b a).
  { intros a b. rewrite !js_compareListed_inOrder. apply ranked_total. }
  repeat split.
  - apply sort_perm.
  - assert (H := sort_sorted StorageManagerJs.compareListed Tot T merged).
    unfold StorageManagerJs.getAllConnections. fold pinned listed merged.
    induction H as [| x r _ IH Hx]; constructor; auto.
    eapply Forall_impl; [| exact Hx].
    intros y. apply js_compareListed_inOrder.
  - intros k. apply (sort_stable StorageManagerJs.compareListed T).
Qed.

(** [pinConnection] of storage-manager.js has no bound: a connection with
    an id is pinned whatever the size of the ledger. *)
Lemma js_pin_unbounded (connection : Connection.t) (now : Z)
  (this : StorageManagerJs.t) (store : StorageManagerJs.StoreT)
  (connectionId : string) :
  StorageManagerJs.generateConnectionId connection = Some connectionId ->
  let '(ok, this', _) :=
    StorageManagerJs.pinConnection connection now this store in
  ok = true
  /\ Js.has (StorageManagerJs.pinnedConnections this') connectionId = true.
Proof.
  intros E. unfold StorageManagerJs.pinConnection. rewrite E.
  split; auto. cbn [StorageManagerJs.pinnedConnections].
  induction (StorageManagerJs.pinnedConnections this) as [| [k v] r IH];
    cbn [Js.set Js.has].
  - now rewrite String.eqb_refl.
  - destruct (String.eqb k connectionId) eqn:K; cbn [Js.has]; rewrite K; auto.
Qed.

(** ** What a reset and a first extraction do *)

(** A reset on load hands [WeavesAI] an empty store and an empty list and
    leaves no daily data in the storage. *)
Lemma reset_clears_daily_data (today : string) (this : WeavesStorageManager.t)
  (store : Storage.t) :
  Settings.autoResetEnabled (WeavesStorageManager.settings this) = true ->
  Storage.LAST_RESET_DATE store <> Some today ->
  let '(data, _, store') :=
    WeavesStorageManager.loadStoredData today this store in
  WeavesStorageManager.contentStore data = []
  /\ WeavesStorageManager.connections data = []
  /\ Storage.DAILY_DATA store' = None
  /\ Storage.LAST_RESET_DATE store' = Some today.
Proof.
  intros A D. unfold WeavesStorageManager.loadStoredData.
  assert (E : WeavesStorageManager.differs (Storage.LAST_RESET_DATE store) today
              = true).
  { unfold WeavesStorageManager.differs.
    destruct (Storage.LAST_RESET_DATE store) as [d |]; auto.
    apply negb_true_iff, String.eqb_neq. congruence. }
  rewrite E, A. cbn [andb].
  unfold WeavesStorageManager.performDailyReset,
    WeavesStorageManager.cleanupPinnedConnections.
  destruct (_ <? _); cbn; auto.
Qed.

(** Before anything was sent, a text of 100 characters or more is sent. *)
Lemma first_extraction_sent (document : WeavesContentExtractor.Document) :
  (100 <= String.length
            (WeavesContentExtractor.content
               (WeavesContentExtractor.extractContent document)))%nat ->
  exists message,
    WeavesContentExtractor.extractAndSend document
      (WeavesContentExtractor.make EmptyString)
    = (WeavesContentExtractor.make
         (WeavesContentExtractor.content
            (WeavesContentExtractor.extractContent document)),
       Some message).
Proof.
  intros H. unfold WeavesContentExtractor.extractAndSend. cbv zeta.
  apply Nat.ltb_ge in H. rewrite H.
  unfold WeavesContentExtractor.contentSimilarity.
  cbn [WeavesContentExtractor.lastContent].
  rewrite String.eqb_refl, orb_true_r.
  replace (Js.lt 0 WeavesContentExtractor.duplicateThreshold) with true
    by (vm_compute; reflexivity).
  eauto.
Qed.

(** [lastContent] is only ever replaced by a text that was sent. *)
Lemma lastContent_is_sent (document : WeavesContentExtractor.Document)
  (x : WeavesContentExtractor.t) :
  let '(x', sent) := WeavesContentExtractor.extractAndSend document x in
  match sent with
  | Some _ =>
      WeavesContentExtractor.lastContent x'
      = WeavesContentExtractor.content
          (WeavesContentExtractor.extractContent document)
      /\ (100 <= String.length (WeavesContentExtractor.lastContent x'))%nat
  | None => x' = x
  end.
Proof.
  unfold WeavesContentExtractor.extractAndSend. cbv zeta.
  destruct (Nat.ltb_spec
              (String.length
                 (WeavesContentExtractor.content
                    (WeavesContentExtractor.extractContent document))) 100);
    auto.
  destruct (Js.lt _ _); auto.
Qed.

(** ** The primitives on examples *)

Example split_ws_edges :
  Js.split_ws " a  b " = [EmptyString; "a"; "b"; EmptyString]
  /\ Js.split_ws EmptyString = [EmptyString].
Proof. split; reflexivity. Qed.

Example split_bar : Js.split "|" "a|b||c" = ["a"; "b"; EmptyString; "c"].
Proof. reflexivity. Qed.

Example replace_first :
  Js.replace "CONNECT: 0 | CONNECT: 1" "CONNECT:" EmptyString = " 0 | CONNECT: 1".
Proof. reflexivity. Qed.

Example parseInt_examples :
  Js.parseInt "12px" = Some 12 /\ Js.parseInt "0x1A" = Some 26
  /\ Js.parseInt "[0]" = None /\ Js.parseInt "-7" = Some (-7).
Proof. repeat split; reflexivity. Qed.

Example parseFloat_examples :
  Js.parseFloat "0.75" = Js.JsFinite (6755399441055744 # 9007199254740992)
  /\ Js.parseFloat "high" = Js.JsNaN
  /\ Js.parseFloat "-Infinity" = Js.JsInfinity true
  /\ Js.parseFloat "1e400" = Js.JsInfinity false
  /\ Js.parseFloat "0.69999999999999999" = Js.parseFloat "0.7".
Proof. repeat split; vm_compute; reflexivity. Qed.

Example toString_examples :
  Js.toString 1700000000000 = "1700000000000" /\ Js.toString 0 = "0".
Proof. split; reflexivity. Qed.

Example generateConnectionId_example :
  WeavesStorageManager.generateConnectionId
    (Sample.connection "7-1700000000000" "7-1699999999000" (9 # 10) 1700000000500)
  = "7-1700000000000-7-1699999999000-1700000000500".
Proof. reflexivity. Qed.

Example getAllConnections_example :
  List.map (fun l => (Listed.id l, Listed.pinned l))
           (WeavesAI.getAllConnections Sample.aiWithPin)
  = [("a-b-1", true); ("x-z-7", false); ("x-y-4", false)].
Proof. vm_compute. reflexivity. Qed.

Example jaccard_example :
  Spec.jaccard Sample.textAgain Sample.text = 19 # 20
  /\ Spec.jaccard "the quick brown fox" "The  QUICK brown fox" = 4 # 4.
Proof. split; vm_compute; reflexivity. Qed.

Example shallow_reason_length :
  String.length "both discuss climate" = 20%nat.
Proof. reflexivity. Qed.

(** ** The ledger stays a map within capacity *)

Lemma set_keys {V : Type} (m : Js.Map V) (k : string) (v : V) :
  Js.keys (Js.set m k v)
  = if Js.has m k then Js.keys m else (Js.keys m ++ [k])%list.
Proof.
  unfold Js.keys.
  induction m as [| [k' v'] r IH]; cbn [Js.set Js.has map fst app]; auto.
  destruct (String.eqb k' k) eqn:E; cbn [orb map fst]; auto.
  rewrite IH. now destruct (Js.has r k).
Qed.

Lemma has_In_keys {V : Type} (m : Js.Map V) (k : string) :
  Js.has m k = true <-> In k (Js.keys m).
Proof.
  unfold Js.keys.
  induction m as [| [k' v'] r IH]; cbn [Js.has map fst In].
  - split; [discriminate | tauto].
  - rewrite orb_true_iff, IH, String.eqb_eq. tauto.
Qed.

Lemma set_keys_NoDup {V : Type} (m : Js.Map V) (k : string) (v : V) :
  NoDup (Js.keys m) -> NoDup (Js.keys (Js.set m k v)).
Proof.
  intros N. rewrite set_keys.
  destruct (Js.has m k) eqn:H; auto.
  apply NoDup_app; auto.
  - repeat constructor. intros [].
  - intros x Hx [<- | []]. apply has_In_keys in Hx. congruence.
Qed.

Lemma delete_keys_NoDup {V : Type} (m : Js.Map V) (k : string) :
  NoDup (Js.keys m) -> NoDup (Js.keys (Js.delete m k)).
Proof.
  intros N. rewrite delete_as_filter by exact N.
  apply keys_filter_NoDup, N.
Qed.

Lemma pin_keeps_ledger (connectionId : string) (connection : Connection.t)
  (now : Z) (today : string) (this : WeavesStorageManager.t)
  (store : Storage.t) :
  Spec.ledgerWithinCapacity this ->
  Spec.ledgerWithinCapacity
    (snd (fst (WeavesStorageManager.pinConnection connectionId connection now
                 today this store))).
Proof.
  intros [N C]. split.
  - unfold WeavesStorageManager.pinConnection,
      WeavesStorageManager.pinConnection_body.
    destruct (_ <=? _); cbn; auto.
    now apply set_keys_NoDup.
  - pose proof (pinConnection_within_capacity connectionId connection now
                  today this store C) as H.
    destruct (WeavesStorageManager.pinConnection _ _ _ _ _ _) as [[b m] s].
    exact H.
Qed.

Lemma unpin_keeps_ledger (connectionId : string)
  (this : WeavesStorageManager.t) (store : Storage.t) :
  Spec.ledgerWithinCapacity this ->
  Spec.ledgerWithinCapacity
    (snd (fst (WeavesStorageManager.unpinConnection connectionId this store))).
Proof.
  intros [N C]. unfold WeavesStorageManager.unpinConnection.
  assert (G : Spec.ledgerWithinCapacity
                (WeavesStorageManager.withPinnedConnections this
                   (Js.delete (WeavesStorageManager.pinnedConnections this)
                              connectionId))).
  { split;
      cbn [WeavesStorageManager.withPinnedConnections
           WeavesStorageManager.pinnedConnections WeavesStorageManager.settings].
    - now apply delete_keys_NoDup.
    - pose proof (size_delete_le (WeavesStorageManager.pinnedConnections this)
                    connectionId). lia. }
  destruct (Js.has _ _); exact G.
Qed.

(** Whatever message the listener handles, a ledger that is a map within
    its maximum remains one. *)
Lemma listener_keeps_ledger (env : Listener.Env) (message : Listener.Message)
  (sender : Listener.Sender) (w : Listener.World) :
  Spec.ledgerWithinCapacity (WeavesAI.storageManager (Listener.weavesAI w)) ->
  Spec.ledgerWithinCapacity
    (WeavesAI.storageManager
       (Listener.weavesAI (fst (Listener.onMessage env message sender w)))).
Proof.
  destruct w as [[init cs conns m] st act ck].
  cbn [Listener.weavesAI WeavesAI.storageManager]. intros H.
  destruct message as [title content url domain platform contentType
                      | | id | id | | id | | other];
    unfold Listener.onMessage, Listener.andThen.
  - unfold Listener.onContentUpdate. destruct (Listener.tab sender); exact H.
  - exact H.
  - unfold Listener.onPinConnection1, Listener.onPinConnection2,
      WeavesAI.pinConnection, WeavesAI.findConnection.
    cbn [Listener.weavesAI Listener.storage Listener.action Listener.clock
         WeavesAI.connections WeavesAI.storageManager].
    destruct (find _ conns) as [c |] eqn:F.
    + pose proof (pin_keeps_ledger id c (Listener.now env ck)
                    (Listener.today env) m st H) as H1.
      destruct (WeavesStorageManager.pinConnection id c _ _ m st)
        as [[b1 m1] st1].
      cbn [fst snd] in H1.
      cbn [Listener.weavesAI Listener.storage Listener.action Listener.clock
           WeavesAI.connections WeavesAI.storageManager
           WeavesAI.withStorageManager WeavesAI.withConnections
           WeavesAI.isInitialized WeavesAI.contentStore].
      rewrite F.
      pose proof (pin_keeps_ledger id (Connection.withPinned c true)
                    (Listener.now env (S ck)) (Listener.today env) m1 st1 H1)
        as H2.
      destruct (WeavesStorageManager.pinConnection id _ _ _ m1 st1)
        as [[b2 m2] st2].
      exact H2.
    + cbn [Listener.weavesAI WeavesAI.connections]. rewrite F. exact H.
  - unfold Listener.onUnpinConnection1, Listener.onUnpinConnection2,
      WeavesAI.unpinConnection.
    cbn [Listener.weavesAI Listener.storage Listener.action Listener.clock
         WeavesAI.connections WeavesAI.storageManager].
    pose proof (unpin_keeps_ledger id m st H) as H1.
    destruct (WeavesStorageManager.unpinConnection id m st) as [[b1 m1] st1].
    cbn [fst snd] in H1.
    cbn [Listener.weavesAI Listener.storage Listener.action Listener.clock
         WeavesAI.connections WeavesAI.storageManager
         WeavesAI.withStorageManager WeavesAI.withConnections
         WeavesAI.isInitialized WeavesAI.contentStore].
    pose proof (unpin_keeps_ledger id m1 st1 H1) as H2.
    destruct (WeavesStorageManager.unpinConnection id m1 st1) as [[b2 m2] st2].
    exact H2.
  - exact H.
  - unfold Listener.onDeleteConnection1, Listener.onDeleteConnection2,
      WeavesAI.unpinConnection.
    cbn [Listener.weavesAI Listener.storage Listener.action Listener.clock
         WeavesAI.connections WeavesAI.storageManager
         WeavesAI.withStorageManager WeavesAI.withConnections
         WeavesAI.isInitialized WeavesAI.contentStore].
    pose proof (unpin_keeps_ledger id m st H) as H1.
    destruct (WeavesStorageManager.unpinConnection id m st) as [[b1 m1] st1].
    cbn [fst snd] in H1.
    cbn [Listener.weavesAI Listener.storage Listener.action Listener.clock
         WeavesAI.connections WeavesAI.storageManager
         WeavesAI.withStorageManager WeavesAI.withConnections
         WeavesAI.isInitialized WeavesAI.contentStore WeavesAI.saveData].
    match goal with
    | |- context [WeavesStorageManager.unpinConnection id m1 ?s] =>
        pose proof (unpin_keeps_ledger id m1 s H1) as H2;
        destruct (WeavesStorageManager.unpinConnection id m1 s) as [[b2 m2] st2]
    end.
    exact H2.
  - exact H.
  - exact H.
Qed.

(** X23.  With a ledger within its maximum and the maximum at 50 or
    below, the answer to GET_CONNECTIONS, of at most 50 connections,
    holds the entry of every pinned connection the ledger holds: cutting
    the merged view to 50 never drops a pin. *)
Lemma get_connections_lists_every_pin (env : Listener.Env)
  (sender : Listener.Sender) (w : Listener.World) (k : string) (p : Pinned.t) :
  let m := WeavesAI.storageManager (Listener.weavesAI w) in
  Spec.ledgerWithinCapacity m ->
  Settings.maxPinnedConnections (WeavesStorageManager.settings m) <= 50 ->
  In (k, p) (WeavesStorageManager.pinnedConnections m) ->
  exists content connections,
    Listener.onMessage env Listener.GET_CONNECTIONS sender w
    = (w, [Listener.Listing content connections])
    /\ In (Spec.pinnedEntry p) connections
    /\ Listed.pinned (Spec.pinnedEntry p) = true
    /\ (List.length connections <= 50)%nat.
Proof.
  intros m [_ C] M Hp.
  cbn [Listener.onMessage]. unfold Listener.onGetConnections.
  do 2 eexists. split; [reflexivity |].
  assert (L : In (Spec.pinnedEntry p)
                 (WeavesStorageManager.getPinnedConnections m)).
  { unfold WeavesStorageManager.getPinnedConnections, Js.values.
    apply in_map_iff. exists p. split; [reflexivity |].
    apply in_map_iff. exists (k, p). auto. }
  refine (conj _ (conj eq_refl _)).
  - apply flagged_within_prefix.
    + apply sorted_inOrder.
    + unfold WeavesAI.getAllConnections.
      rewrite (filter_length_perm _ _ _ (sort_perm WeavesAI.compareListed _)).
      rewrite merged_flagged_count. fold m.
      unfold WeavesStorageManager.getPinnedConnections, Js.values.
      rewrite !length_map. unfold Js.size in C. lia.
    + apply sort_In. unfold WeavesAI.mergedConnections.
      apply in_or_app. left. exact L.
    + reflexivity.
  - unfold Js.slice0. rewrite length_firstn. lia.
Qed.

(* ================================================================== *)
(** * Further properties of the code *)
(* ================================================================== *)

(** ** More on maps *)

Section MoreMapFacts.
Context {V : Type}.
Implicit Types (m : Js.Map V) (k : string) (v : V).

Lemma has_delete_same m k :
  NoDup (Js.keys m) -> Js.has (Js.delete m k) k = false.
Proof.
  intros N. apply not_true_is_false. intros H.
  apply has_In_keys in H. unfold Js.keys in H.
  apply in_map_iff in H as [[k' v] [E H]]. cbn in E. subst k'.
  rewrite delete_as_filter in H by exact N.
  apply filter_In in H as [_ H]. cbn in H.
  now rewrite String.eqb_refl in H.
Qed.

Lemma set_fresh m k v :
  Js.has m k = false -> Js.set m k v = (m ++ [(k, v)])%list.
Proof.
  induction m as [| [k' v'] r IH]; cbn [Js.has Js.set app]; auto.
  intros H. apply orb_false_iff in H as [E H]. now rewrite E, IH.
Qed.

Lemma delete_last m k v :
  Js.has m k = false -> Js.delete (m ++ [(k, v)])%list k = m.
Proof.
  induction m as [| [k' v'] r IH]; cbn [Js.has Js.delete app].
  - intros _. now rewrite String.eqb_refl.
  - intros H. apply orb_false_iff in H as [E H]. now rewrite E, IH.
Qed.

Lemma In_set m k v (e : string * V) :
  In e (Js.set m k v) -> e = (k, v) \/ In e m.
Proof.
  induction m as [| [k' v'] r IH]; cbn [Js.set In].
  - intros [<- | []]. auto.
  - destruct (String.eqb k' k) eqn:E; cbn [In].
    + apply String.eqb_eq in E. subst k'. intros [<- | H]; auto.
    + intros [<- | H]; auto. destruct (IH H); auto.
Qed.

Lemma get_In m k v :
  NoDup (Js.keys m) -> In (k, v) m -> Js.get m k = Some v.
Proof.
  unfold Js.keys.
  induction m as [| [k' v'] r IH]; cbn [Js.get In map fst]; [tauto |].
  intros N [E | H]; inversion N as [| ? ? Hn Nr]; subst.
  - injection E as -> ->. now rewrite String.eqb_refl.
  - destruct (String.eqb k' k) eqn:E; auto.
    apply String.eqb_eq in E. subst k'. exfalso. apply Hn.
    apply in_map_iff. exists (k, v). auto.
Qed.

Lemma ofEntries_from (l acc : list (string * V)) :
  NoDup (Js.keys (acc ++ l)%list) ->
  fold_left (fun m kv => Js.set m (fst kv) (snd kv)) l acc = (acc ++ l)%list.
Proof.
  revert acc. induction l as [| [k v] r IH]; intros acc N; cbn [fold_left fst snd].
  - now rewrite app_nil_r.
  - assert (F : Js.has acc k = false).
    { apply not_true_is_false. intros H. apply has_In_keys in H.
      unfold Js.keys in N. rewrite map_app in N. cbn in N.
      apply NoDup_remove_2 in N. apply N, in_or_app. auto. }
    rewrite set_fresh by exact F.
    rewrite IH; rewrite <- app_assoc; cbn [app]; auto.
Qed.

(** A map rebuilt from its entries is the map. *)
Lemma ofEntries_entries m :
  NoDup (Js.keys m) -> Js.ofEntries (Js.entries m) = m.
Proof.
  intros N. unfold Js.ofEntries, Js.entries.
  now rewrite ofEntries_from.
Qed.
End MoreMapFacts.

(** ** Eviction, on a crowded ledger *)

(** Three entries where two are allowed: the entry pinned first goes. *)
Lemma cleanup_evicts_oldest_witness :
  Z.of_nat
    (Js.size
       (WeavesStorageManager.pinnedConnections
          (fst (WeavesStorageManager.cleanupPinnedConnections More.crowded
                  Sample.emptyStorage)))) = 2
  /\ Js.keys
       (WeavesStorageManager.pinnedConnections
          (fst (WeavesStorageManager.cleanupPinnedConnections More.crowded
                  Sample.emptyStorage))) = ["a-b-2"; "a-b-3"].
Proof.
  split; [| reflexivity].
  pose proof (cleanup_evicts_oldest More.crowded Sample.emptyStorage) as H.
  cbv zeta in H. apply H.
  - vm_compute. repeat constructor; cbn; intuition discriminate.
  - split; [vm_compute; discriminate | vm_compute; reflexivity].
Defined.

(** ** The retention cleanup of storage-manager.js *)

Lemma filter_twice {A : Type} (f : A -> bool) (l : list A) :
  filter f (filter f l) = filter f l.
Proof.
  induction l as [| x r IH]; cbn [filter]; auto.
  destruct (f x) eqn:E; cbn [filter]; rewrite ?E, IH; auto.
Qed.

(** X2.  [cleanupPinnedConnections] of storage-manager.js keeps, in their
    order, exactly the entries pinned no earlier than [now] minus the
    retention period; it writes the storage only when it removed
    something, and run again at the same time it changes nothing. *)
Theorem js_cleanup_keeps_recent (now : Z) (m : StorageManagerJs.t)
  (s : StorageManagerJs.StoreT) :
  let cutoff :=
    now - StorageManagerJs.retentionDays (StorageManagerJs.settings m)
          * 24 * 60 * 60 * 1000 in
  let m' := fst (StorageManagerJs.cleanupPinnedConnections now m s) in
  let s' := snd (StorageManagerJs.cleanupPinnedConnections now m s) in
  (forall e, In e (StorageManagerJs.pinnedConnections m')
             <-> In e (StorageManagerJs.pinnedConnections m)
                 /\ cutoff <= StorageManagerJs.pinnedAt (snd e))
  /\ (exists gone,
        Permutation (StorageManagerJs.pinnedConnections m)
                    (StorageManagerJs.pinnedConnections m' ++ gone)
        /\ Forall (fun e => StorageManagerJs.pinnedAt (snd e) < cutoff) gone
        /\ (gone = [] -> s' = s)
        /\ (gone <> [] ->
            StorageManagerJs.PINNED_CONNECTIONS s'
            = Some (StorageManagerJs.pinnedConnections m')))
  /\ StorageManagerJs.settings m' = StorageManagerJs.settings m
  /\ StorageManagerJs.cleanupPinnedConnections now m' s' = (m', s').
Proof.
  intros cutoff m' s'.
  set (f := fun e : string * StorageManagerJs.PinnedT =>
              negb (StorageManagerJs.pinnedAt (snd e) <? cutoff)).
  set (l := StorageManagerJs.pinnedConnections m).
  assert (Em : StorageManagerJs.pinnedConnections m' = filter f l).
  { unfold m', StorageManagerJs.cleanupPinnedConnections.
    destruct (0 <? _)%nat; reflexivity. }
  assert (Es : StorageManagerJs.settings m' = StorageManagerJs.settings m).
  { unfold m', StorageManagerJs.cleanupPinnedConnections.
    destruct (0 <? _)%nat; reflexivity. }
  assert (Len : (List.length (filter f l)
                 + List.length (filter (fun e => negb (f e)) l)
                 = List.length l)%nat).
  { clear. induction l as [| x r IH]; cbn [filter]; auto.
    destruct (f x); cbn [negb List.length]; lia. }
  repeat apply conj.
  - intros e. rewrite Em. unfold f, l.
    rewrite filter_In, negb_true_iff, Z.ltb_ge. reflexivity.
  - exists (filter (fun e => negb (f e)) l). repeat apply conj.
    + rewrite Em. clear. induction l as [| x r IH]; cbn [filter]; auto.
      destruct (f x); cbn [negb app].
      * now constructor.
      * rewrite IH at 1. apply Permutation_middle.
    + apply Forall_forall. intros e He. apply filter_In in He as [_ He].
      unfold f in He. rewrite negb_involutive in He. now apply Z.ltb_lt.
    + intros G. rewrite G in Len. cbn in Len.
      unfold s', StorageManagerJs.cleanupPinnedConnections.
      fold cutoff l f.
      replace (List.length l - List.length (filter f l))%nat with 0%nat by lia.
      reflexivity.
    + intros G.
      assert (0 < List.length (filter (fun e => negb (f e)) l))%nat.
      { destruct (filter (fun e => negb (f e)) l); [congruence | cbn; lia]. }
      unfold s', m', StorageManagerJs.cleanupPinnedConnections.
      fold cutoff l f.
      destruct (Nat.ltb_spec 0 (List.length l - List.length (filter f l)));
        [reflexivity | lia].
  - exact Es.
  - destruct m' as [l' st'] eqn:M. cbn in Em, Es. subst l' st'.
    unfold StorageManagerJs.cleanupPinnedConnections.
    cbn [StorageManagerJs.pinnedConnections StorageManagerJs.settings].
    fold cutoff f. rewrite filter_twice, Nat.sub_diag. reflexivity.
Qed.

(** ** The ledger stays keyed by the composite id *)

Lemma generateConnectionId_withPinned (c : Connection.t) (b : bool) :
  WeavesStorageManager.generateConnectionId (Connection.withPinned c b)
  = WeavesStorageManager.generateConnectionId c.
Proof. reflexivity. Qed.

Lemma findConnection_id (ai : WeavesAI.t) (connectionId : string)
  (c : Connection.t) :
  WeavesAI.findConnection ai connectionId = Some c ->
  WeavesStorageManager.generateConnectionId c = connectionId
  /\ In c (WeavesAI.connections ai).
Proof.
  unfold WeavesAI.findConnection. intros H.
  apply find_some in H as [H E]. apply String.eqb_eq in E. auto.
Qed.

Lemma pin_keeps_keyed (connectionId : string) (connection : Connection.t)
  (now : Z) (today : string) (this : WeavesStorageManager.t)
  (store : Storage.t) :
  Inv.ledgerKeyed this ->
  WeavesStorageManager.generateConnectionId connection = connectionId ->
  Inv.ledgerKeyed
    (snd (fst (WeavesStorageManager.pinConnection connectionId connection now
                 today this store))).
Proof.
  intros K E. unfold WeavesStorageManager.pinConnection,
    WeavesStorageManager.pinConnection_body.
  destruct (_ <=? _); cbn [fst snd]; auto.
  intros k p H. cbn in H. apply In_set in H as [H | H]; auto.
  injection H as -> ->. exact E.
Qed.

Lemma unpin_keeps_keyed (connectionId : string)
  (this : WeavesStorageManager.t) (store : Storage.t) :
  Inv.ledgerKeyed this ->
  Inv.ledgerKeyed
    (snd (fst (WeavesStorageManager.unpinConnection connectionId this store))).
Proof.
  intros K. unfold WeavesStorageManager.unpinConnection.
  assert (G : Inv.ledgerKeyed
                (WeavesStorageManager.withPinnedConnections this
                   (Js.delete (WeavesStorageManager.pinnedConnections this)
                              connectionId))).
  { intros k p H. cbn in H. apply delete_incl in H. auto. }
  destruct (Js.has _ _); exact G.
Qed.

Lemma listener_keeps_keyed (env : Listener.Env) (message : Listener.Message)
  (sender : Listener.Sender) (w : Listener.World) :
  Inv.ledgerKeyed (WeavesAI.storageManager (Listener.weavesAI w)) ->
  Inv.ledgerKeyed
    (WeavesAI.storageManager
       (Listener.weavesAI (fst (Listener.onMessage env message sender w)))).
Proof.
  destruct w as [[init cs conns m] st act ck].
  cbn [Listener.weavesAI WeavesAI.storageManager]. intros H.
  destruct message as [title content url domain platform contentType
                      | | id | id | | id | | other];
    unfold Listener.onMessage, Listener.andThen.
  - unfold Listener.onContentUpdate. destruct (Listener.tab sender); exact H.
  - exact H.
  - unfold Listener.onPinConnection1, Listener.onPinConnection2,
      WeavesAI.pinConnection.
    cbn [Listener.weavesAI Listener.storage Listener.action Listener.clock].
    destruct (WeavesAI.findConnection _ id) as [c |] eqn:F.
    + destruct (findConnection_id _ _ _ F) as [Ec _].
      cbn [WeavesAI.storageManager].
      pose proof (pin_keeps_keyed id c (Listener.now env ck)
                    (Listener.today env) m st H Ec) as H1.
      destruct (WeavesStorageManager.pinConnection id c _ _ m st)
        as [[b1 m1] st1].
      cbn [fst snd] in H1.
      cbn [Listener.weavesAI Listener.storage Listener.action Listener.clock].
      assert (F' : WeavesAI.findConnection
                     (WeavesAI.withStorageManager
                        (WeavesAI.make init cs conns m) m1) id = Some c)
        by exact F.
      rewrite F'.
      cbn [WeavesAI.storageManager WeavesAI.withStorageManager
           WeavesAI.withConnections WeavesAI.isInitialized
           WeavesAI.contentStore WeavesAI.connections].
      pose proof (pin_keeps_keyed id (Connection.withPinned c true)
                    (Listener.now env (S ck)) (Listener.today env) m1 st1 H1 Ec)
        as H2.
      destruct (WeavesStorageManager.pinConnection id _ _ _ m1 st1)
        as [[b2 m2] st2].
      exact H2.
    + cbn [Listener.weavesAI]. rewrite F. exact H.
  - unfold Listener.onUnpinConnection1, Listener.onUnpinConnection2,
      WeavesAI.unpinConnection.
    cbn [Listener.weavesAI Listener.storage Listener.action Listener.clock
         WeavesAI.connections WeavesAI.storageManager].
    pose proof (unpin_keeps_keyed id m st H) as H1.
    destruct (WeavesStorageManager.unpinConnection id m st) as [[b1 m1] st1].
    cbn [fst snd] in H1.
    cbn [Listener.weavesAI Listener.storage Listener.action Listener.clock
         WeavesAI.connections WeavesAI.storageManager
         WeavesAI.withStorageManager WeavesAI.withConnections
         WeavesAI.isInitialized WeavesAI.contentStore].
    pose proof (unpin_keeps_keyed id m1 st1 H1) as H2.
    destruct (WeavesStorageManager.unpinConnection id m1 st1) as [[b2 m2] st2].
    exact H2.
  - exact H.
  - unfold Listener.onDeleteConnection1, Listener.onDeleteConnection2,
      WeavesAI.unpinConnection.
    cbn [Listener.weavesAI Listener.storage Listener.action Listener.clock
         WeavesAI.connections WeavesAI.storageManager
         WeavesAI.withStorageManager WeavesAI.withConnections
         WeavesAI.isInitialized WeavesAI.contentStore].
    pose proof (unpin_keeps_keyed id m st H) as H1.
    destruct (WeavesStorageManager.unpinConnection id m st) as [[b1 m1] st1].
    cbn [fst snd] in H1.
    cbn [Listener.weavesAI Listener.storage Listener.action Listener.clock
         WeavesAI.connections WeavesAI.storageManager
         WeavesAI.withStorageManager WeavesAI.withConnections
         WeavesAI.isInitialized WeavesAI.contentStore WeavesAI.saveData].
    match goal with
    | |- context [WeavesStorageManager.unpinConnection id m1 ?s] =>
        pose proof (unpin_keeps_keyed id m1 s H1) as H2;
        destruct (WeavesStorageManager.unpinConnection id m1 s) as [[b2 m2] st2]
    end.
    exact H2.
  - exact H.
  - exact H.
Qed.

(** X3.  Whatever message the listener handles, a ledger that is a map
    within [maxPinnedConnections] whose entries are stored under the
    composite id of their connection is still one afterwards; so is it
    after a daily reset check. *)
Theorem ledger_wellformed_invariant (env : Listener.Env)
  (message : Listener.Message) (sender : Listener.Sender)
  (w : Listener.World) :
  let m := WeavesAI.storageManager (Listener.weavesAI w) in
  let m' :=
    WeavesAI.storageManager
      (Listener.weavesAI (fst (Listener.onMessage env message sender w))) in
  Spec.ledgerWithinCapacity m -> Inv.ledgerKeyed m ->
  (Spec.ledgerWithinCapacity m' /\ Inv.ledgerKeyed m')
  /\ forall today store,
       fst (WeavesStorageManager.checkAndPerformDailyReset today m store) = m.
Proof.
  intros m m' C K. split; [split |].
  - now apply listener_keeps_ledger.
  - now apply listener_keeps_keyed.
  - intros today store.
    unfold WeavesStorageManager.checkAndPerformDailyReset,
      WeavesStorageManager.performDailyReset.
    destruct (negb _); auto.
    destruct (WeavesStorageManager.differs _ _); auto.
    unfold WeavesStorageManager.cleanupPinnedConnections.
    destruct C as [_ C]. apply Z.ltb_ge in C. now rewrite C.
Qed.

(** From the sample background, after a PIN_CONNECTION for its listed
    connection. *)
Lemma ledger_wellformed_witness :
  let w' :=
    fst (Listener.onMessage (Sample.env (Resolves EmptyString))
           (Listener.PIN_CONNECTION "7-2-7-1-5") Sample.sender More.background) in
  Spec.ledgerWithinCapacity (WeavesAI.storageManager (Listener.weavesAI w'))
  /\ Inv.ledgerKeyed (WeavesAI.storageManager (Listener.weavesAI w')).
Proof.
  apply (ledger_wellformed_invariant (Sample.env (Resolves EmptyString))
           (Listener.PIN_CONNECTION "7-2-7-1-5") Sample.sender More.background).
  - split; [constructor | vm_compute; discriminate].
  - intros k p [].
Defined.

(** ** What is saved and what is loaded *)

Lemma saveData_persisted (t : Z) (ai : WeavesAI.t) (st : Storage.t)
  (act : list Listener.ActionCall) (ck : nat) :
  Inv.persisted (Listener.makeWorld ai (WeavesAI.saveData t ai st) act ck).
Proof.
  split; [exists t |]; reflexivity.
Qed.

Lemma andThen_fst (b1 b2 : Listener.Branch) (w : Listener.World) :
  fst (Listener.andThen b1 b2 w) = fst (b2 (fst (b1 w))).
Proof.
  unfold Listener.andThen.
  destruct (b1 w) as [w1 r1]. cbn [fst]. now destruct (b2 w1).
Qed.

Lemma unpin2_persisted (env : Listener.Env) (id : string) (w : Listener.World) :
  Inv.persisted (fst (Listener.onUnpinConnection2 env id w)).
Proof.
  unfold Listener.onUnpinConnection2.
  destruct (WeavesStorageManager.unpinConnection _ _ _) as [[b m] s].
  apply saveData_persisted.
Qed.

Lemma delete2_persisted (env : Listener.Env) (id : string) (w : Listener.World) :
  Inv.persisted (fst (Listener.onDeleteConnection2 env id w)).
Proof.
  unfold Listener.onDeleteConnection2.
  destruct (WeavesStorageManager.unpinConnection _ _ _) as [[b m] s].
  apply saveData_persisted.
Qed.

Lemma pin1_persisted (env : Listener.Env) (id : string) (w : Listener.World) :
  Inv.persisted w ->
  Inv.persisted (fst (Listener.onPinConnection1 env id w))
  /\ WeavesAI.connections
       (Listener.weavesAI (fst (Listener.onPinConnection1 env id w)))
     = WeavesAI.connections (Listener.weavesAI w).
Proof.
  destruct w as [[init cs conns m] st act ck]. intros [[t D] P].
  cbn in D, P.
  unfold Listener.onPinConnection1, WeavesAI.pinConnection.
  cbn [Listener.weavesAI Listener.storage Listener.action Listener.clock].
  destruct (WeavesAI.findConnection _ id) as [c |].
  - cbn [WeavesAI.storageManager].
    unfold WeavesStorageManager.pinConnection,
      WeavesStorageManager.pinConnection_body.
    destruct (_ <=? _); cbn; (split; [split; [exists t |] |]); auto.
  - cbn. (split; [split; [exists t |] |]); auto.
Qed.

Lemma pin2_persisted (env : Listener.Env) (id : string) (w : Listener.World) :
  Inv.persisted w -> Inv.persisted (fst (Listener.onPinConnection2 env id w)).
Proof.
  intros H. unfold Listener.onPinConnection2.
  destruct (WeavesAI.findConnection _ id) as [c |]; [| exact H].
  destruct (WeavesStorageManager.pinConnection _ _ _ _ _ _) as [[b m] s].
  apply saveData_persisted.
Qed.

(** X5.  The storage follows the instance: if it holds the content store,
    the connection list and the ledger before a message, it holds them
    after it; and after a CONTENT_UPDATE from a tab, an UNPIN_CONNECTION,
    a DELETE_CONNECTION or a CLEAR_DATA it holds them whatever it held
    before. *)
Theorem storage_follows_memory (env : Listener.Env)
  (message : Listener.Message) (sender : Listener.Sender)
  (w : Listener.World) :
  let w' := fst (Listener.onMessage env message sender w) in
  (Inv.persisted w -> Inv.persisted w')
  /\ (Inv.saves message sender = true -> Inv.persisted w').
Proof.
  intros w'. unfold w'.
  destruct message as [title content url domain platform contentType
                      | | id | id | | id | | other];
    cbn [Listener.onMessage Inv.saves]; rewrite ?andThen_fst.
  - unfold Listener.onContentUpdate.
    destruct (Listener.tab sender) as [t |].
    + split; intros _; apply saveData_persisted.
    + split; [auto | discriminate].
  - split; [auto | discriminate].
  - split; [| discriminate].
    intros H. apply pin2_persisted. now apply pin1_persisted.
  - split; intros _; apply unpin2_persisted.
  - split; [auto | discriminate].
  - split; intros _; apply delete2_persisted.
  - split; intros _; apply saveData_persisted.
  - split; [auto | discriminate].
Qed.

(** After a DELETE_CONNECTION on the sample background. *)
Lemma storage_follows_memory_witness :
  Inv.persisted
    (fst (Listener.onMessage (Sample.env (Resolves EmptyString))
            (Listener.DELETE_CONNECTION "7-2-7-1-5") Sample.sender
            More.background)).
Proof.
  apply (storage_follows_memory (Sample.env (Resolves EmptyString))
           (Listener.DELETE_CONNECTION "7-2-7-1-5") Sample.sender
           More.background).
  reflexivity.
Defined.

(** X4.  What was saved is what is loaded: from a storage that holds the
    content store, the connection list and the ledger of an instance, a
    fresh instance loads, within the day of the last reset, the same
    content store, the same connection list and the same ledger, and
    leaves the storage as it is. *)
Theorem reload_restores_memory (today : string) (w : Listener.World)
  (fresh : WeavesAI.t) :
  Inv.persisted w ->
  NoDup (Js.keys (WeavesAI.contentStore (Listener.weavesAI w))) ->
  NoDup (Js.keys (WeavesStorageManager.pinnedConnections
                    (WeavesAI.storageManager (Listener.weavesAI w)))) ->
  Storage.LAST_RESET_DATE (Listener.storage w) = Some today ->
  let '(loaded, store') :=
    WeavesAI.loadStoredData today fresh (Listener.storage w) in
  WeavesAI.contentStore loaded = WeavesAI.contentStore (Listener.weavesAI w)
  /\ WeavesAI.connections loaded = WeavesAI.connections (Listener.weavesAI w)
  /\ store' = Listener.storage w
  /\ WeavesStorageManager.pinnedConnections
       (WeavesStorageManager.loadPinnedConnections
          (WeavesAI.storageManager fresh) (Listener.storage w))
     = WeavesStorageManager.pinnedConnections
         (WeavesAI.storageManager (Listener.weavesAI w)).
Proof.
  intros [[t D] P] N1 N2 L.
  unfold WeavesAI.loadStoredData, WeavesStorageManager.loadStoredData,
    WeavesStorageManager.loadPinnedConnections.
  rewrite L, differs_same, D, P. cbn [andb].
  cbn [WeavesAI.contentStore WeavesAI.connections
       WeavesStorageManager.contentStore WeavesStorageManager.connections
       Storage.contentStore Storage.connections
       WeavesStorageManager.withPinnedConnections
       WeavesStorageManager.pinnedConnections].
  rewrite !ofEntries_entries by assumption. auto.
Qed.

(** The sample background, reloaded on the day its storage was reset. *)
Lemma reload_restores_memory_witness :
  WeavesAI.contentStore
    (fst (WeavesAI.loadStoredData "Wed Jan 31 2024"
            (WeavesAI.make false [] [] Sample.emptyManager)
            (Listener.storage More.background)))
  = WeavesAI.contentStore (Listener.weavesAI More.background).
Proof.
  pose proof (reload_restores_memory "Wed Jan 31 2024" More.background
                (WeavesAI.make false [] [] Sample.emptyManager)) as H.
  destruct (WeavesAI.loadStoredData _ _ _) as [loaded store'].
  apply H.
  - split; [exists 6 |]; reflexivity.
  - repeat constructor; cbn; intuition discriminate.
  - constructor.
  - reflexivity.
Defined.

(** X6.  A load on a new day, with the automatic reset on and a ledger
    within its maximum: the instance starts with an empty content store
    and an empty connection list, the storage has no daily data left and
    records the day, while the ledger and the pinned connections saved
    are as before. *)
Theorem reset_on_load_keeps_pins (today : string) (ai : WeavesAI.t)
  (store : Storage.t) :
  Settings.autoResetEnabled
    (WeavesStorageManager.settings (WeavesAI.storageManager ai)) = true ->
  Storage.LAST_RESET_DATE store <> Some today ->
  Z.of_nat (Js.size (WeavesStorageManager.pinnedConnections
                       (WeavesAI.storageManager ai)))
    <= Settings.maxPinnedConnections
         (WeavesStorageManager.settings (WeavesAI.storageManager ai)) ->
  let '(ai', store') := WeavesAI.loadStoredData today ai store in
  WeavesAI.contentStore ai' = []
  /\ WeavesAI.connections ai' = []
  /\ WeavesAI.storageManager ai' = WeavesAI.storageManager ai
  /\ Storage.DAILY_DATA store' = None
  /\ Storage.LAST_RESET_DATE store' = Some today
  /\ Storage.PINNED_CONNECTIONS store' = Storage.PINNED_CONNECTIONS store
  /\ WeavesStorageManager.checkAndPerformDailyReset today
       (WeavesAI.storageManager ai') store'
     = (WeavesAI.storageManager ai', store').
Proof.
  intros A D C.
  unfold WeavesAI.loadStoredData, WeavesStorageManager.loadStoredData.
  assert (E : WeavesStorageManager.differs (Storage.LAST_RESET_DATE store) today
              = true).
  { unfold WeavesStorageManager.differs.
    destruct (Storage.LAST_RESET_DATE store) as [d |]; auto.
    apply negb_true_iff, String.eqb_neq. congruence. }
  rewrite E, A. cbn [andb].
  unfold WeavesStorageManager.performDailyReset,
    WeavesStorageManager.cleanupPinnedConnections.
  apply Z.ltb_ge in C. rewrite C.
  cbn [WeavesAI.contentStore WeavesAI.connections WeavesAI.storageManager
       WeavesStorageManager.contentStore WeavesStorageManager.connections].
  repeat apply conj; try reflexivity.
  apply reset_already_done. reflexivity.
Qed.

(** The sample background loaded the day after. *)
Lemma reset_on_load_witness :
  WeavesAI.connections
    (fst (WeavesAI.loadStoredData "Thu Feb 01 2024"
            (Listener.weavesAI More.background)
            (Listener.storage More.background))) = []
  /\ Storage.DAILY_DATA
       (snd (WeavesAI.loadStoredData "Thu Feb 01 2024"
               (Listener.weavesAI More.background)
               (Listener.storage More.background))) = None.
Proof.
  pose proof (reset_on_load_keeps_pins "Thu Feb 01 2024"
                (Listener.weavesAI More.background)
                (Listener.storage More.background)) as H.
  destruct (WeavesAI.loadStoredData _ _ _) as [ai' store'].
  cbn [fst snd].
  assert (G : WeavesAI.contentStore ai' = [] /\ WeavesAI.connections ai' = []
              /\ WeavesAI.storageManager ai'
                 = WeavesAI.storageManager (Listener.weavesAI More.background)
              /\ Storage.DAILY_DATA store' = None
              /\ Storage.LAST_RESET_DATE store' = Some "Thu Feb 01 2024"
              /\ Storage.PINNED_CONNECTIONS store'
                 = Storage.PINNED_CONNECTIONS (Listener.storage More.background)
              /\ WeavesStorageManager.checkAndPerformDailyReset
                   "Thu Feb 01 2024" (WeavesAI.storageManager ai') store'
                 = (WeavesAI.storageManager ai', store')).
  { apply H.
    - reflexivity.
    - discriminate.
    - vm_compute. discriminate. }
  split; apply G.
Defined.

(** ** The periodic sweep *)

(** X7.  The sweep run at [nowMs] keeps the items whose timestamp is not
    before one week earlier and the connections whose timestamp is after
    it, in their order: an item exactly one week old stays, a connection
    exactly one week old goes.  It touches neither the ledger nor the
    storage, keeps the content store a map, and run again at the same
    time changes nothing. *)
Theorem sweep_keeps_one_week (nowMs : Z) (w : Listener.World) :
  let oneWeekAgo := nowMs - 604800000 in
  let w' := Listener.sweep nowMs w in
  (forall e, In e (WeavesAI.contentStore (Listener.weavesAI w'))
             <-> In e (WeavesAI.contentStore (Listener.weavesAI w))
                 /\ oneWeekAgo <= Content.timestamp (snd e))
  /\ (forall c, In c (WeavesAI.connections (Listener.weavesAI w'))
                <-> In c (WeavesAI.connections (Listener.weavesAI w))
                    /\ oneWeekAgo < Connection.timestamp c)
  /\ WeavesAI.storageManager (Listener.weavesAI w')
     = WeavesAI.storageManager (Listener.weavesAI w)
  /\ Listener.storage w' = Listener.storage w
  /\ (NoDup (Js.keys (WeavesAI.contentStore (Listener.weavesAI w))) ->
      NoDup (Js.keys (WeavesAI.contentStore (Listener.weavesAI w'))))
  /\ Listener.sweep nowMs w' = w'.
Proof.
  intros oneWeekAgo w'.
  destruct w as [[init cs conns m] st act ck].
  unfold w', Listener.sweep.
  cbn [Listener.weavesAI Listener.storage Listener.action Listener.clock
       WeavesAI.contentStore WeavesAI.connections WeavesAI.storageManager
       WeavesAI.withConnections WeavesAI.withContentStore
       WeavesAI.isInitialized].
  change (nowMs - 7 * 24 * 60 * 60 * 1000) with oneWeekAgo.
  repeat apply conj; try reflexivity.
  - intros e. rewrite filter_In, negb_true_iff, Z.ltb_ge. reflexivity.
  - intros c. rewrite filter_In, Z.ltb_lt. reflexivity.
  - apply keys_filter_NoDup.
  - now rewrite !filter_twice.
Qed.

(** ** Deleting a connection *)

Lemma unpin_ledger (connectionId : string) (this : WeavesStorageManager.t)
  (store : Storage.t) :
  WeavesStorageManager.pinnedConnections
    (snd (fst (WeavesStorageManager.unpinConnection connectionId this store)))
  = Js.delete (WeavesStorageManager.pinnedConnections this) connectionId
  /\ WeavesStorageManager.settings
       (snd (fst (WeavesStorageManager.unpinConnection connectionId this store)))
     = WeavesStorageManager.settings this.
Proof.
  unfold WeavesStorageManager.unpinConnection.
  destruct (Js.has _ _); split; reflexivity.
Qed.

Lemma get_delete_other {V : Type} (m : Js.Map V) (k k' : string) :
  k' <> k -> Js.get (Js.delete m k) k' = Js.get m k'.
Proof.
  intros Hne.
  induction m as [| [k0 v0] r IH]; cbn [Js.delete Js.get]; auto.
  destruct (String.eqb k0 k) eqn:E.
  - apply String.eqb_eq in E. subst k0.
    destruct (String.eqb k k') eqn:E'; auto.
    apply String.eqb_eq in E'. congruence.
  - cbn [Js.get]. now rewrite IH.
Qed.

Lemma delete_message_state (env : Listener.Env) (id : string)
  (sender : Listener.Sender) (w : Listener.World) :
  let ai := Listener.weavesAI w in
  let ai' :=
    Listener.weavesAI
      (fst (Listener.onMessage env (Listener.DELETE_CONNECTION id) sender w)) in
  WeavesAI.connections ai'
  = Listener.withoutConnection id (WeavesAI.connections ai)
  /\ WeavesStorageManager.pinnedConnections (WeavesAI.storageManager ai')
     = Js.delete
         (Js.delete (WeavesStorageManager.pinnedConnections
                       (WeavesAI.storageManager ai)) id) id
  /\ WeavesAI.contentStore ai' = WeavesAI.contentStore ai.
Proof.
  destruct w as [[init cs conns m] st act ck].
  cbn [Listener.onMessage]. rewrite andThen_fst.
  unfold Listener.onDeleteConnection1, Listener.onDeleteConnection2,
    WeavesAI.unpinConnection.
  cbn [Listener.weavesAI Listener.storage Listener.action Listener.clock
       WeavesAI.connections WeavesAI.storageManager WeavesAI.contentStore
       WeavesAI.withStorageManager WeavesAI.withConnections
       WeavesAI.isInitialized].
  pose proof (unpin_ledger id m st) as [L1 _].
  destruct (WeavesStorageManager.unpinConnection id m st) as [[b1 m1] st1].
  cbn [fst snd] in L1.
  cbn [fst Listener.weavesAI Listener.storage Listener.action Listener.clock
       WeavesAI.connections WeavesAI.storageManager WeavesAI.contentStore
       WeavesAI.withStorageManager WeavesAI.withConnections
       WeavesAI.isInitialized].
  match goal with
  | |- context [WeavesStorageManager.unpinConnection id m1 ?s] =>
      pose proof (unpin_ledger id m1 s) as [L2 _];
      destruct (WeavesStorageManager.unpinConnection id m1 s) as [[b2 m2] st2]
  end.
  cbn [fst snd] in L2.
  cbn [fst Listener.weavesAI WeavesAI.connections WeavesAI.storageManager
       WeavesAI.contentStore WeavesAI.withStorageManager].
  repeat apply conj; auto.
  - unfold Listener.withoutConnection. apply filter_twice.
  - now rewrite L2, L1.
Qed.

Lemma In_has {V : Type} (m : Js.Map V) (k : string) (v : V) :
  In (k, v) m -> Js.has m k = true.
Proof.
  intros H. apply has_In_keys. unfold Js.keys.
  apply in_map_iff. exists (k, v). auto.
Qed.

(** X8.  A DELETE_CONNECTION removes the connection everywhere: no
    connection of the list has the id any more, the ledger, stored under
    ids, has no entry for it, and the merged view lists no entry with it;
    the other connections and the other entries of the ledger stay, and
    so does the content store; the storage then holds the result. *)
Theorem delete_removes_everywhere (env : Listener.Env) (id : string)
  (sender : Listener.Sender) (w : Listener.World) :
  let ai := Listener.weavesAI w in
  let w' :=
    fst (Listener.onMessage env (Listener.DELETE_CONNECTION id) sender w) in
  let ai' := Listener.weavesAI w' in
  let ledger :=
    WeavesStorageManager.pinnedConnections (WeavesAI.storageManager ai) in
  let ledger' :=
    WeavesStorageManager.pinnedConnections (WeavesAI.storageManager ai') in
  NoDup (Js.keys ledger) ->
  Inv.ledgerKeyed (WeavesAI.storageManager ai) ->
  (forall c, In c (WeavesAI.connections ai')
             <-> In c (WeavesAI.connections ai)
                 /\ WeavesAI.getConnectionId c <> id)
  /\ Js.has ledger' id = false
  /\ (forall k, k <> id -> Js.get ledger' k = Js.get ledger k)
  /\ (forall e, In e (WeavesAI.getAllConnections ai') -> Listed.id e <> id)
  /\ WeavesAI.contentStore ai' = WeavesAI.contentStore ai
  /\ Inv.persisted w'.
Proof.
  intros ai w' ai' ledger ledger' N K.
  pose proof (delete_message_state env id sender w) as H.
  cbv zeta in H. destruct H as [Ec [El Es]].
  subst ledger' ai' ledger ai w'.
  set (w' := fst (Listener.onMessage env (Listener.DELETE_CONNECTION id)
                    sender w)) in *.
  set (ledger := WeavesStorageManager.pinnedConnections
                   (WeavesAI.storageManager (Listener.weavesAI w))) in *.
  set (ledger' := WeavesStorageManager.pinnedConnections
                    (WeavesAI.storageManager (Listener.weavesAI w'))) in *.
  assert (Hhas : Js.has ledger' id = false).
  { rewrite El.
    rewrite (delete_absent (Js.delete ledger id) id)
      by (now apply has_delete_same).
    now apply has_delete_same. }
  assert (Hsub : forall e, In e ledger' -> In e ledger).
  { intros e He. rewrite El in He.
    now apply delete_incl, delete_incl in He. }
  refine (conj _ (conj _ (conj _ (conj _ (conj _ _))))).
  - intros c. rewrite Ec. unfold Listener.withoutConnection.
    rewrite filter_In, negb_true_iff, String.eqb_neq. reflexivity.
  - exact Hhas.
  - intros k Hk. rewrite El.
    now rewrite !get_delete_other.
  - intros e He E.
    unfold WeavesAI.getAllConnections in He. apply sort_In in He.
    unfold WeavesAI.mergedConnections in He.
    apply in_app_or in He as [He | He].
    + unfold WeavesStorageManager.getPinnedConnections, Js.values in He.
      apply in_map_iff in He as [p [<- Hp]].
      apply in_map_iff in Hp as [[k p'] [Ep Hp]]. cbn in Ep. subst p'.
      cbn [Listed.id] in E.
      rewrite (K k p (Hsub _ Hp)) in E. subst k.
      apply In_has in Hp. unfold ledger' in Hhas.
      rewrite Hhas in Hp. discriminate.
    + apply filter_In in He as [He _].
      unfold WeavesAI.regularConnections in He.
      apply in_map_iff in He as [c [<- Hc]]. cbn [Listed.id] in E.
      rewrite Ec in Hc. unfold Listener.withoutConnection in Hc.
      apply filter_In in Hc as [_ Hc].
      apply negb_true_iff, String.eqb_neq in Hc. contradiction.
  - exact Es.
  - unfold w'. cbn [Listener.onMessage]. rewrite andThen_fst.
    apply delete2_persisted.
Qed.

(** Deleting the listed connection of the sample background. *)
Lemma delete_removes_everywhere_witness :
  WeavesAI.connections
    (Listener.weavesAI
       (fst (Listener.onMessage (Sample.env (Resolves EmptyString))
               (Listener.DELETE_CONNECTION "7-2-7-1-5") Sample.sender
               More.background))) = []
  /\ Js.has
       (WeavesStorageManager.pinnedConnections
          (WeavesAI.storageManager
             (Listener.weavesAI
                (fst (Listener.onMessage (Sample.env (Resolves EmptyString))
                        (Listener.DELETE_CONNECTION "7-2-7-1-5") Sample.sender
                        More.background))))) "7-2-7-1-5" = false.
Proof.
  split; [reflexivity |].
  pose proof (delete_removes_everywhere (Sample.env (Resolves EmptyString))
                "7-2-7-1-5" Sample.sender More.background) as H.
  cbv zeta in H. apply H.
  - constructor.
  - intros k p [].
Defined.

(** ** Pinning a connection of the list *)

Lemma get_Some_In {V : Type} (m : Js.Map V) (k : string) (v : V) :
  Js.get m k = Some v -> In (k, v) m.
Proof.
  induction m as [| [k' v'] r IH]; cbn [Js.get In]; [discriminate |].
  destruct (String.eqb k' k) eqn:E; auto.
  apply String.eqb_eq in E. subst k'. intros [= ->]. auto.
Qed.

Lemma pinned_entry_listed (m : WeavesStorageManager.t) (k : string)
  (p : Pinned.t) :
  In (k, p) (WeavesStorageManager.pinnedConnections m) ->
  In (Listed.make (Connection.withPinned (Pinned.connection p) true)
        (WeavesStorageManager.generateConnectionId (Pinned.connection p))
        (Some (Pinned.pinnedAt p, Pinned.pinnedDate p)))
     (WeavesStorageManager.getPinnedConnections m).
Proof.
  intros H. unfold WeavesStorageManager.getPinnedConnections, Js.values.
  apply in_map_iff. exists p. split; auto.
  apply in_map_iff. exists (k, p). auto.
Qed.

(** In the merged view an entry whose id is in the ledger's list is a
    pinned one. *)
Lemma listed_id_pinned (ai : WeavesAI.t) (e0 e : Listed.t) :
  In e0 (WeavesStorageManager.getPinnedConnections (WeavesAI.storageManager ai)) ->
  In e (WeavesAI.getAllConnections ai) ->
  Listed.id e = Listed.id e0 ->
  Listed.pinned e = true.
Proof.
  intros H0 He E.
  unfold WeavesAI.getAllConnections in He. apply sort_In in He.
  unfold WeavesAI.mergedConnections in He.
  apply in_app_or in He as [He | He].
  - unfold WeavesStorageManager.getPinnedConnections in He.
    apply in_map_iff in He as [p [<- _]]. reflexivity.
  - apply filter_In in He as [_ He]. apply negb_true_iff in He.
    assert (X : existsb (fun pinned => String.eqb (Listed.id pinned) (Listed.id e))
                  (WeavesStorageManager.getPinnedConnections
                     (WeavesAI.storageManager ai)) = true).
    { apply existsb_exists. exists e0. split; auto.
      apply String.eqb_eq. auto. }
    congruence.
Qed.

Lemma pin_message_result (env : Listener.Env) (id : string)
  (sender : Listener.Sender) (w : Listener.World) (c : Connection.t) :
  let ai := Listener.weavesAI w in
  let m := WeavesAI.storageManager ai in
  WeavesAI.findConnection ai id = Some c ->
  Z.of_nat (Js.size (WeavesStorageManager.pinnedConnections m))
  < Settings.maxPinnedConnections (WeavesStorageManager.settings m) ->
  exists m' storage' p,
    Listener.onMessage env (Listener.PIN_CONNECTION id) sender w
    = (Listener.makeWorld
         (WeavesAI.make (WeavesAI.isInitialized ai) (WeavesAI.contentStore ai)
            (Listener.markPinned id true (WeavesAI.connections ai)) m')
         storage' (Listener.action w) (S (S (S (Listener.clock w)))),
       [Listener.Outcome true; Listener.Outcome true])
    /\ Js.get (WeavesStorageManager.pinnedConnections m') id = Some p
    /\ Pinned.connection p = Connection.withPinned c true
    /\ Pinned.pinnedDate p = Listener.today env.
Proof.
  destruct w as [[init cs conns m] st act ck].
  cbn [Listener.weavesAI WeavesAI.storageManager Listener.action
       Listener.clock WeavesAI.isInitialized WeavesAI.contentStore
       WeavesAI.connections].
  intros F C.
  cbn [Listener.onMessage]. unfold Listener.andThen.
  unfold Listener.onPinConnection1, WeavesAI.pinConnection.
  cbn [Listener.weavesAI Listener.storage Listener.action Listener.clock].
  rewrite F.
  unfold WeavesStorageManager.pinConnection at 1,
    WeavesStorageManager.pinConnection_body at 1.
  cbn [WeavesAI.storageManager].
  apply Z.leb_gt in C. rewrite C.
  cbn [WeavesAI.withStorageManager WeavesAI.isInitialized
       WeavesAI.contentStore WeavesAI.connections WeavesAI.storageManager].
  unfold Listener.onPinConnection2.
  cbn [Listener.weavesAI Listener.storage Listener.action Listener.clock].
  unfold WeavesAI.findConnection in *.
  cbn [WeavesAI.connections WeavesAI.withStorageManager] in *. rewrite F.
  cbn [WeavesAI.withConnections WeavesAI.withStorageManager
       WeavesAI.isInitialized WeavesAI.contentStore WeavesAI.connections
       WeavesAI.storageManager].
  unfold WeavesStorageManager.pinConnection,
    WeavesStorageManager.pinConnection_body.
  cbn [WeavesStorageManager.withPinnedConnections
       WeavesStorageManager.pinnedConnections WeavesStorageManager.settings].
  match goal with
  | |- context [if ?b then _ else _] => destruct b
  end;
    cbn [fst snd app Listener.weavesAI WeavesAI.withStorageManager
         WeavesAI.isInitialized WeavesAI.contentStore WeavesAI.connections
         WeavesAI.storageManager];
    do 3 eexists;
    (split; [reflexivity |]);
    cbn [WeavesStorageManager.withPinnedConnections
         WeavesStorageManager.pinnedConnections];
    (split; [apply get_set_same | split; reflexivity]).
Qed.

(** X9.  Pinning a connection of the list while the ledger has room:
    both blocks answer success, the ledger holds under the id the
    connection with [pinned: true] and today's date, the first connection
    of the list with that id is flagged and no other is touched, and the
    merged view shows the connection as pinned, with no unpinned entry of
    the same id beside it. *)
Theorem pin_lists_connection_pinned (env : Listener.Env) (id : string)
  (sender : Listener.Sender) (w : Listener.World) (c : Connection.t) :
  let ai := Listener.weavesAI w in
  let m := WeavesAI.storageManager ai in
  WeavesAI.findConnection ai id = Some c ->
  Z.of_nat (Js.size (WeavesStorageManager.pinnedConnections m))
  < Settings.maxPinnedConnections (WeavesStorageManager.settings m) ->
  Inv.ledgerKeyed m ->
  let r := Listener.onMessage env (Listener.PIN_CONNECTION id) sender w in
  let ai' := Listener.weavesAI (fst r) in
  snd r = [Listener.Outcome true; Listener.Outcome true]
  /\ (exists p,
        Js.get (WeavesStorageManager.pinnedConnections
                  (WeavesAI.storageManager ai')) id = Some p
        /\ Pinned.connection p = Connection.withPinned c true
        /\ Pinned.pinnedDate p = Listener.today env)
  /\ WeavesAI.connections ai'
     = Listener.markPinned id true (WeavesAI.connections ai)
  /\ (exists e, In e (WeavesAI.getAllConnections ai')
                /\ Listed.id e = id
                /\ Listed.connection e = Connection.withPinned c true)
  /\ (forall e, In e (WeavesAI.getAllConnections ai') ->
                Listed.id e = id -> Listed.pinned e = true).
Proof.
  intros ai m F C K r ai'.
  pose proof (listener_keeps_keyed env (Listener.PIN_CONNECTION id) sender w K)
    as K'.
  destruct (pin_message_result env id sender w c F C)
    as [m' [storage' [p [E [G [Pc Pd]]]]]].
  subst r ai'. rewrite E in *. clear E.
  cbn [fst snd Listener.weavesAI WeavesAI.storageManager WeavesAI.connections]
    in *.
  set (ai' := WeavesAI.make _ _ _ m').
  assert (R : [Listener.Outcome true; Listener.Outcome true]
              = [Listener.Outcome true; Listener.Outcome true]) by reflexivity.
  assert (Ec : Listener.markPinned id true (WeavesAI.connections ai)
               = Listener.markPinned id true (WeavesAI.connections ai))
    by reflexivity.
  apply get_Some_In in G as I.
  pose proof (pinned_entry_listed m' _ _ I) as L.
  assert (Eid : WeavesStorageManager.generateConnectionId (Pinned.connection p)
                = id) by (apply (K' id p I)).
  refine (conj R (conj _ (conj Ec (conj _ _)))).
  - exists p. auto.
  - eexists. split; [| split].
    + unfold WeavesAI.getAllConnections. apply sort_In.
      unfold WeavesAI.mergedConnections. apply in_or_app. left. exact L.
    + exact Eid.
    + cbn [Listed.connection]. now rewrite Pc.
  - intros e He E. apply (listed_id_pinned ai' _ e L He).
    cbn [Listed.id]. congruence.
Qed.

(** Pinning the listed connection of the sample background. *)
Lemma pin_lists_connection_witness :
  snd (Listener.onMessage (Sample.env (Resolves EmptyString))
         (Listener.PIN_CONNECTION "7-2-7-1-5") Sample.sender More.background)
  = [Listener.Outcome true; Listener.Outcome true].
Proof.
  pose proof (pin_lists_connection_pinned (Sample.env (Resolves EmptyString))
                "7-2-7-1-5" Sample.sender More.background More.listed) as H.
  cbv zeta in H. apply H.
  - reflexivity.
  - vm_compute. reflexivity.
  - intros k p [].
Defined.

(** ** Pinning and unpinning at the ledger *)

(** X10.  At the ledger, pinning an id it does not hold while there is
    room and then unpinning it gives back the ledger as it was, entry for
    entry and in the same order; both calls report [true] and the storage
    ends with the entries of that ledger.  Unpinning an id the ledger
    does not hold reports [false] and writes nothing. *)
Theorem pin_then_unpin_restores (connectionId : string)
  (connection : Connection.t) (now : Z) (today : string)
  (this : WeavesStorageManager.t) (store : Storage.t) :
  Js.has (WeavesStorageManager.pinnedConnections this) connectionId = false ->
  Z.of_nat (Js.size (WeavesStorageManager.pinnedConnections this))
  < Settings.maxPinnedConnections (WeavesStorageManager.settings this) ->
  let '(pinned, this1, store1) :=
    WeavesStorageManager.pinConnection connectionId connection now today
      this store in
  let '(removed, this2, store2) :=
    WeavesStorageManager.unpinConnection connectionId this1 store1 in
  pinned = true /\ removed = true /\ this2 = this
  /\ Storage.PINNED_CONNECTIONS store1
     = Some (WeavesStorageManager.pinnedConnections this
             ++ [(connectionId,
                  Pinned.make (Connection.withPinned connection true) now
                    today)])%list
  /\ Storage.PINNED_CONNECTIONS store2
     = Some (WeavesStorageManager.pinnedConnections this)
  /\ WeavesStorageManager.unpinConnection connectionId this2 store2
     = (false, this2, store2).
Proof.
  intros F C. destruct this as [ledger settings].
  cbn [WeavesStorageManager.pinnedConnections WeavesStorageManager.settings]
    in F, C.
  unfold WeavesStorageManager.pinConnection,
    WeavesStorageManager.pinConnection_body.
  cbn [WeavesStorageManager.pinnedConnections WeavesStorageManager.settings].
  apply Z.leb_gt in C. rewrite C.
  unfold WeavesStorageManager.unpinConnection.
  cbn [WeavesStorageManager.withPinnedConnections
       WeavesStorageManager.pinnedConnections WeavesStorageManager.settings].
  rewrite (set_fresh ledger connectionId _ F).
  assert (H : Js.has (ledger ++ [(connectionId,
                 Pinned.make (Connection.withPinned connection true) now
                   today)])%list connectionId = true).
  { apply has_In_keys. unfold Js.keys. rewrite map_app.
    apply in_or_app. right. left. reflexivity. }
  rewrite H, (delete_last ledger connectionId _ F).
  cbn [WeavesStorageManager.withPinnedConnections
       WeavesStorageManager.pinnedConnections WeavesStorageManager.settings].
  rewrite F, (delete_absent ledger connectionId F).
  repeat split.
Qed.

(** A pin and an unpin on the empty ledger. *)
Lemma pin_then_unpin_witness :
  snd (fst (WeavesStorageManager.unpinConnection "7-2-7-1-5"
              (snd (fst (WeavesStorageManager.pinConnection "7-2-7-1-5"
                           More.listed 10 "Wed Jan 31 2024"
                           Sample.emptyManager Sample.emptyStorage)))
              (snd (WeavesStorageManager.pinConnection "7-2-7-1-5"
                      More.listed 10 "Wed Jan 31 2024"
                      Sample.emptyManager Sample.emptyStorage))))
  = Sample.emptyManager.
Proof.
  pose proof (pin_then_unpin_restores "7-2-7-1-5" More.listed 10
                "Wed Jan 31 2024" Sample.emptyManager Sample.emptyStorage) as H.
  destruct (WeavesStorageManager.pinConnection "7-2-7-1-5" More.listed 10
              "Wed Jan 31 2024" Sample.emptyManager Sample.emptyStorage)
    as [[pinned this1] store1].
  cbn [fst snd].
  destruct (WeavesStorageManager.unpinConnection "7-2-7-1-5" this1 store1)
    as [[removed this2] store2].
  cbn [fst snd]. apply H.
  - reflexivity.
  - vm_compute. reflexivity.
Defined.

(** ** What a CONTENT_UPDATE records *)

Lemma get_set_other {V : Type} (m : Js.Map V) (k k' : string) (v : V) :
  k' <> k -> Js.get (Js.set m k v) k' = Js.get m k'.
Proof.
  intros Hne.
  induction m as [| [k0 v0] r IH]; cbn [Js.set Js.get].
  - destruct (String.eqb k k') eqn:E; auto.
    apply String.eqb_eq in E. congruence.
  - destruct (String.eqb k0 k) eqn:E; cbn [Js.get].
    + apply String.eqb_eq in E. subst k0.
      destruct (String.eqb k k') eqn:E'; auto.
      apply String.eqb_eq in E'. congruence.
    + now rewrite IH.
Qed.

Lemma In_slice0 {A : Type} (n : nat) (l : list A) (x : A) :
  In x (Js.slice0 n l) -> In x l.
Proof.
  unfold Js.slice0. intros H.
  rewrite <- (firstn_skipn n l). apply in_or_app. auto.
Qed.

Lemma parseLine_target (analyses : list Content.t) (line : string)
  (c : Candidate.t) :
  WeavesAI.parseLine analyses line = Some c ->
  exists i existing,
    nth_error analyses i = Some existing
    /\ Candidate.contentId c = Content.id existing
    /\ Candidate.type c = "academic-insight"
    /\ Candidate.relationship c = "provides-framework".
Proof.
  unfold WeavesAI.parseLine.
  destruct (Js.startsWith line "CONNECT:"); [| discriminate].
  destruct (List.map Js.trim _) as [| p0 [| p1 [| p2 rest]]]; try discriminate.
  destruct (WeavesAI.validConnection _ _ _ _); [| discriminate].
  destruct (Js.parseInt p0) as [i |]; [| discriminate].
  destruct (Js.parseFloat p1) as [| neg | q]; try discriminate.
  destruct (nth_error analyses (Z.to_nat i)) as [existing |] eqn:N;
    [| discriminate].
  intros [= <-]. exists (Z.to_nat i), existing. auto.
Qed.

Lemma parseLines_target (analyses : list Content.t) (lines : list string)
  (c : Candidate.t) :
  In c (WeavesAI.parseLines analyses lines) ->
  exists i existing,
    nth_error analyses i = Some existing
    /\ Candidate.contentId c = Content.id existing
    /\ Candidate.type c = "academic-insight"
    /\ Candidate.relationship c = "provides-framework".
Proof.
  induction lines as [| line rest IH]; cbn [WeavesAI.parseLines]; [intros [] |].
  destruct (WeavesAI.parseLine analyses line) as [c' |] eqn:E; auto.
  intros [<- | H]; auto.
  eapply parseLine_target; eauto.
Qed.

Lemma parseLines_nothing_to_compare (lines : list string) :
  WeavesAI.parseLines [] lines = [].
Proof.
  induction lines as [| line rest IH]; cbn [WeavesAI.parseLines]; auto.
  destruct (WeavesAI.parseLine [] line) as [c |] eqn:E; auto.
  apply parseLine_target in E as [i [e [N _]]].
  destruct i; discriminate.
Qed.

Lemma findConnections_target (this : WeavesAI.t) (newContent : Content.t)
  (existing : list Content.t) (reply : PromptResult) (c : Candidate.t) :
  In c (WeavesAI.findConnections this newContent existing reply) ->
  exists i e,
    (i < 4)%nat /\ nth_error existing i = Some e
    /\ Candidate.contentId c = Content.id e
    /\ Candidate.type c = "academic-insight"
    /\ Candidate.relationship c = "provides-framework".
Proof.
  unfold WeavesAI.findConnections.
  destruct (negb (WeavesAI.isInitialized this)); [intros [] |].
  destruct reply as [err | text]; [intros [] |].
  destruct (String.eqb (Js.trim text) "NO_CONNECTIONS"); [intros [] |].
  intros H. apply parseLines_target in H as [i [e [N H]]].
  unfold WeavesAI.existingAnalyses, Js.slice0 in N.
  rewrite nth_error_firstn in N.
  destruct (Nat.ltb i 4) eqn:L; [| discriminate].
  apply Nat.ltb_lt in L. exists i, e. auto.
Qed.

(** X11.  Every candidate [findConnections] returns carries the id of
    one of the first four of the contents it was given, with the fixed
    type and relationship; with nothing to compare with, with a prompt
    that is rejected, or with a reply that is NO_CONNECTIONS once
    trimmed, it returns no candidate. *)
Theorem candidates_among_compared (this : WeavesAI.t) (newContent : Content.t)
  (existing : list Content.t) (reply : PromptResult) :
  Forall
    (fun c =>
       exists i e,
         (i < 4)%nat /\ nth_error existing i = Some e
         /\ Candidate.contentId c = Content.id e
         /\ Candidate.type c = "academic-insight"
         /\ Candidate.relationship c = "provides-framework")
    (WeavesAI.findConnections this newContent existing reply)
  /\ (existing = [] ->
      WeavesAI.findConnections this newContent existing reply = [])
  /\ (forall error, reply = Rejects error ->
      WeavesAI.findConnections this newContent existing reply = [])
  /\ (forall text, reply = Resolves text ->
      Js.trim text = "NO_CONNECTIONS" ->
      WeavesAI.findConnections this newContent existing reply = []).
Proof.
  refine (conj _ (conj _ (conj _ _))).
  - apply Forall_forall. intros c. apply findConnections_target.
  - intros ->. unfold WeavesAI.findConnections.
    destruct (negb _); auto. destruct reply; auto.
    destruct (String.eqb _ _); auto.
    apply parseLines_nothing_to_compare.
  - intros error ->. unfold WeavesAI.findConnections.
    now destruct (negb _).
  - intros text -> E. unfold WeavesAI.findConnections.
    destruct (negb _); auto. now rewrite E.
Qed.

Lemma recordConnections_In (store : Js.Map Content.t) (content : Content.t)
  (env : Listener.Env) (from : nat) (conns : list Candidate.t)
  (c : Connection.t) :
  In c (Listener.recordConnections store content env from conns) ->
  exists cand at_,
    In cand conns /\ c = Listener.recordConnection store content cand at_.
Proof.
  revert from.
  induction conns as [| cand r IH]; intros from;
    cbn [Listener.recordConnections In]; [tauto |].
  intros [<- | H].
  - exists cand, (Listener.now env from). auto.
  - destruct (IH _ H) as [cand' [at_ [I E]]]. exists cand', at_. auto.
Qed.

Lemma content_update_state (env : Listener.Env) (sender : Listener.Sender)
  (t : Listener.Tab) (title content url domain platform contentType : string)
  (w : Listener.World) :
  Listener.tab sender = Some t ->
  let ai := Listener.weavesAI w in
  let k := Listener.clock w in
  let item :=
    Content.make
      (Js.toString (Listener.tab_id t) ++ "-" ++ Js.toString (Listener.now env k))
      (Listener.tab_id t) (Listener.tab_url t) title content domain platform
      contentType (Listener.now env (S k))
      (WeavesAI.analyzeContent ai content (Listener.analyzed env)) in
  let store := Js.set (WeavesAI.contentStore ai) (Content.id item) item in
  let existingContents :=
    Js.slice0 12
      (Js.sort Listener.byRecency
         (List.filter
            (fun c => negb (String.eqb (Content.id c) (Content.id item)))
            (Js.values store))) in
  let connections :=
    WeavesAI.findConnections ai item existingContents (Listener.reply env) in
  Listener.weavesAI
    (fst (Listener.onMessage env
            (Listener.CONTENT_UPDATE title content url domain platform
               contentType) sender w))
  = WeavesAI.make (WeavesAI.isInitialized ai) store
      (WeavesAI.connections ai
       ++ Listener.recordConnections store item env (S (S k)) connections)%list
      (WeavesAI.storageManager ai).
Proof.
  intros T. cbn [Listener.onMessage]. unfold Listener.onContentUpdate.
  rewrite T. destruct w as [[init cs conns m] st act ck]. reflexivity.
Qed.

(** X12.  A CONTENT_UPDATE from a tab, on a content store keyed by ids:
    the new item is stored under tab id, a dash and the time, with the
    tab's url whatever url the message carries, and the other keys keep
    their items; the connections recorded are appended to the list, each
    from the new item and to an item that was already in the store, with
    that item's title (or Unknown when it is empty) and url; the ledger
    is not touched. *)
Theorem content_update_links_to_stored (env : Listener.Env)
  (sender : Listener.Sender) (t : Listener.Tab)
  (title content url domain platform contentType : string)
  (w : Listener.World) :
  let ai := Listener.weavesAI w in
  let newId :=
    (Js.toString (Listener.tab_id t) ++ "-"
     ++ Js.toString (Listener.now env (Listener.clock w)))%string in
  Listener.tab sender = Some t ->
  Inv.storeKeyed (WeavesAI.contentStore ai) ->
  let ai' :=
    Listener.weavesAI
      (fst (Listener.onMessage env
              (Listener.CONTENT_UPDATE title content url domain platform
                 contentType) sender w)) in
  Inv.storeKeyed (WeavesAI.contentStore ai')
  /\ (exists item,
        Js.get (WeavesAI.contentStore ai') newId = Some item
        /\ Content.id item = newId /\ Content.title item = title
        /\ Content.url item = Listener.tab_url t
        /\ Content.content item = content)
  /\ (forall k, k <> newId ->
        Js.get (WeavesAI.contentStore ai') k
        = Js.get (WeavesAI.contentStore ai) k)
  /\ WeavesAI.storageManager ai' = WeavesAI.storageManager ai
  /\ exists recorded,
       WeavesAI.connections ai' = (WeavesAI.connections ai ++ recorded)%list
       /\ Forall
            (fun c =>
               Connection.from c = newId
               /\ Connection.fromTitle c = title
               /\ Connection.fromUrl c = Listener.tab_url t
               /\ Connection.pinned c = None
               /\ exists target,
                    In (Connection.to c, target) (WeavesAI.contentStore ai)
                    /\ Connection.to c <> newId
                    /\ Connection.toTitle c
                       = (if String.eqb (Content.title target) EmptyString
                          then "Unknown" else Content.title target)
                    /\ Connection.toUrl c = Content.url target)
            recorded.
Proof.
  intros ai newId T [N K] ai'.
  pose proof (content_update_state env sender t title content url domain
                platform contentType w T) as E.
  cbv zeta in E. subst ai'. rewrite E. clear E.
  fold ai. fold newId.
  set (item := Content.make newId _ _ _ _ _ _ _ _ _).
  change (Content.id item) with newId.
  set (store := Js.set (WeavesAI.contentStore ai) newId item).
  set (found := WeavesAI.findConnections ai item _ _).
  cbn [WeavesAI.contentStore WeavesAI.connections WeavesAI.storageManager].
  assert (N' : NoDup (Js.keys store)) by (now apply set_keys_NoDup).
  assert (S' : forall k c, In (k, c) store ->
                 (k, c) = (newId, item) \/ In (k, c) (WeavesAI.contentStore ai))
    by (intros k c; apply In_set).
  refine (conj _ (conj _ (conj _ (conj eq_refl _)))).
  - split; auto. intros k c H.
    destruct (S' _ _ H) as [[= -> ->] | H']; auto.
  - exists item. split; [apply get_set_same | auto].
  - intros k Hk. now apply get_set_other.
  - eexists. split; [reflexivity |].
    apply Forall_forall. intros c Hc.
    apply recordConnections_In in Hc as [cand [at_ [Hcand ->]]].
    apply findConnections_target in Hcand as [i [e [_ [Hn [Hid _]]]]].
    apply nth_error_In, In_slice0 in Hn.
    apply sort_In, filter_In in Hn as [Hv Hne].
    apply negb_true_iff, String.eqb_neq in Hne.
    change (Content.id item) with newId in Hne.
    unfold Js.values in Hv. apply in_map_iff in Hv as [[k e'] [Ee Hv]].
    cbn in Ee. subst e'.
    assert (Hcs : In (k, e) (WeavesAI.contentStore ai)).
    { destruct (S' _ _ Hv) as [[= -> ->] | H']; auto.
      exfalso. apply Hne. reflexivity. }
    pose proof (K _ _ Hcs) as Ek. subst k.
    assert (G : Js.get store (Candidate.contentId cand) = Some e)
      by (rewrite Hid; now apply get_In).
    unfold Listener.recordConnection. rewrite G.
    cbn [Connection.from Connection.fromTitle Connection.fromUrl
         Connection.pinned Connection.to Connection.toTitle Connection.toUrl].
    repeat (split; [reflexivity |]).
    exists e. rewrite Hid. auto.
Qed.

(** A CONTENT_UPDATE on the sample background of two items. *)
Lemma content_update_witness :
  Inv.storeKeyed
    (WeavesAI.contentStore
       (Listener.weavesAI
          (fst (Listener.onMessage (Sample.env (Resolves Sample.reply3))
                  Sample.update Sample.sender Sample.world2)))).
Proof.
  pose proof (content_update_links_to_stored (Sample.env (Resolves Sample.reply3))
                Sample.sender Sample.tab "New" "text of the new page"
                "https://example.org/new" "example.org" "Web" "general"
                Sample.world2) as H.
  cbv zeta in H. apply H.
  - reflexivity.
  - split.
    + repeat constructor; cbn; intuition discriminate.
    + intros k c [[= <- <-] | [[= <- <-] | []]]; reflexivity.
Defined.

(** ** The recent content of a listing *)

Lemma byRecency_notAfter (a b : Content.t) :
  Js.notAfter Listener.byRecency a b
  <-> Content.timestamp b <= Content.timestamp a.
Proof.
  unfold Js.notAfter, Listener.byRecency.
  rewrite inject_Z_nonpos. lia.
Qed.

Lemma byRecency_total (a b : Content.t) :
  Js.notAfter Listener.byRecency a b \/ Js.notAfter Listener.byRecency b a.
Proof. rewrite !byRecency_notAfter. lia. Qed.

Lemma byRecency_trans (a b c : Content.t) :
  Js.notAfter Listener.byRecency a b ->
  Js.notAfter Listener.byRecency b c ->
  Js.notAfter Listener.byRecency a c.
Proof. rewrite !byRecency_notAfter. lia. Qed.

Lemma byRecency_sameRank (k c : Content.t) :
  Js.sameRank Listener.byRecency k c
  = (Content.timestamp c =? Content.timestamp k).
Proof.
  unfold Js.sameRank.
  destruct (Qle_bool (Listener.byRecency k c) 0) eqn:A,
           (Qle_bool (Listener.byRecency c k) 0) eqn:B; cbn [andb];
    symmetry.
  - apply byRecency_notAfter in A, B. apply Z.eqb_eq. lia.
  - apply Z.eqb_neq. intros E.
    assert (X : Js.notAfter Listener.byRecency c k)
      by (apply byRecency_notAfter; lia).
    unfold Js.notAfter in X. congruence.
  - apply Z.eqb_neq. intros E.
    assert (X : Js.notAfter Listener.byRecency k c)
      by (apply byRecency_notAfter; lia).
    unfold Js.notAfter in X. congruence.
  - apply Z.eqb_neq. intros E.
    assert (X : Js.notAfter Listener.byRecency k c)
      by (apply byRecency_notAfter; lia).
    unfold Js.notAfter in X. congruence.
Qed.

(** X13.  GET_CONNECTIONS changes nothing and answers once; the content
    it lists is the first 25 of the items of the store put newest first,
    items of one timestamp in the order the store holds them. *)
Theorem recent_content_newest_first (env : Listener.Env)
  (sender : Listener.Sender) (w : Listener.World) :
  let items := Js.values (WeavesAI.contentStore (Listener.weavesAI w)) in
  exists sorted,
    Listener.onMessage env Listener.GET_CONNECTIONS sender w
    = (w, [Listener.Listing (firstn 25 sorted)
             (firstn 50 (WeavesAI.getAllConnections (Listener.weavesAI w)))])
    /\ Permutation sorted items
    /\ StronglySorted
         (fun a b => Content.timestamp b <= Content.timestamp a) sorted
    /\ forall k : Content.t,
         filter (fun c => Content.timestamp c =? Content.timestamp k) sorted
         = filter (fun c => Content.timestamp c =? Content.timestamp k) items.
Proof.
  intros items. exists (Js.sort Listener.byRecency items).
  refine (conj eq_refl (conj (sort_perm _ _) (conj _ _))).
  - assert (H := sort_sorted Listener.byRecency byRecency_total
                             byRecency_trans items).
    induction H as [| x r _ IH Hx]; constructor; auto.
    eapply Forall_impl; [| exact Hx].
    intros y. apply byRecency_notAfter.
  - intros k.
    pose proof (sort_stable Listener.byRecency byRecency_trans k items) as S.
    assert (F : forall l : list Content.t,
              filter (fun c => Content.timestamp c =? Content.timestamp k) l
              = filter (Js.sameRank Listener.byRecency k) l).
    { intros l. apply filter_ext. intros c.
      now rewrite byRecency_sameRank. }
    now rewrite !F.
Qed.

(** ** The similarity of two texts and the gate of the content script *)

Lemma same_elements_length (l l' : list string) :
  NoDup l -> NoDup l' -> (forall x, In x l <-> In x l') ->
  List.length l = List.length l'.
Proof.
  intros N N' H. apply Permutation_length, NoDup_Permutation; auto.
Qed.

Lemma intersection_In (set1 set2 : list string) (x : string) :
  In x (WeavesContentExtractor.intersection set1 set2)
  <-> In x set1 /\ In x set2.
Proof.
  unfold WeavesContentExtractor.intersection.
  now rewrite newSet_In, filter_In, setHas_In.
Qed.

Lemma union_In (set1 set2 : list string) (x : string) :
  In x (WeavesContentExtractor.union set1 set2) <-> In x set1 \/ In x set2.
Proof.
  unfold WeavesContentExtractor.union. now rewrite newSet_In, in_app_iff.
Qed.

Lemma split_ws_from_pieces (in_run : bool) (s : string) :
  Js.split_ws_from in_run s <> [].
Proof.
  revert in_run.
  induction s as [| c r IH]; intros in_run; cbn [Js.split_ws_from];
    [discriminate |].
  destruct (Js.isWhiteSpace c).
  - destruct in_run; [apply IH | discriminate].
  - destruct (Js.split_ws_from false r); discriminate.
Qed.

Lemma tokenSet_size (s : string) :
  (1 <= List.length (WeavesContentExtractor.tokenSet s))%nat.
Proof.
  unfold WeavesContentExtractor.tokenSet, Js.split_ws.
  pose proof (split_ws_from_pieces false (Js.toLowerCase s)) as H.
  destruct (Js.split_ws_from false (Js.toLowerCase s)) as [| p ps] eqn:E;
    [congruence |].
  assert (I : In p (Js.newSet (p :: ps))) by (apply newSet_In; left; auto).
  destruct (Js.newSet (p :: ps)); [destruct I | simpl; lia].
Qed.

Lemma self_similarity_duplicate (a : string) :
  a <> EmptyString ->
  Js.lt (WeavesContentExtractor.contentSimilarity a a)
        WeavesContentExtractor.duplicateThreshold = false.
Proof.
  intros Ha. unfold WeavesContentExtractor.contentSimilarity.
  apply String.eqb_neq in Ha. rewrite Ha. cbn [orb].
  set (S := WeavesContentExtractor.tokenSet a).
  assert (N : NoDup S) by apply newSet_NoDup.
  assert (I : List.length (WeavesContentExtractor.intersection S S)
              = List.length S).
  { apply same_elements_length; auto; [apply newSet_NoDup |].
    intros x. rewrite intersection_In. tauto. }
  assert (U : List.length (WeavesContentExtractor.union S S) = List.length S).
  { apply same_elements_length; auto; [apply newSet_NoDup |].
    intros x. rewrite union_In. tauto. }
  rewrite I, U.
  pose proof (tokenSet_size a) as P. fold S in P.
  assert (E : Zpos (Pos.of_nat (List.length S)) = Z.of_nat (List.length S)).
  { rewrite <- positive_nat_Z, Nat2Pos.id by lia. reflexivity. }
  unfold Js.lt. rewrite double_above_threshold; auto.
  - lia.
  - unfold Qle. cbn [Qnum Qden]. lia.
Qed.

(** X14.  [contentSimilarity] does not depend on the order of its two
    texts, is 0 when one of them is empty, and puts a text that is not
    empty at or above the threshold 0.8 against itself. *)
Theorem similarity_symmetric (a b : string) :
  WeavesContentExtractor.contentSimilarity a b
  = WeavesContentExtractor.contentSimilarity b a
  /\ WeavesContentExtractor.contentSimilarity a EmptyString = 0%Q
  /\ WeavesContentExtractor.contentSimilarity EmptyString b = 0%Q
  /\ (a <> EmptyString ->
      Js.lt (WeavesContentExtractor.contentSimilarity a a)
            WeavesContentExtractor.duplicateThreshold = false).
Proof.
  refine (conj _ (conj _ (conj eq_refl (self_similarity_duplicate a)))).
  - unfold WeavesContentExtractor.contentSimilarity.
    rewrite (orb_comm (String.eqb b EmptyString)).
    destruct (_ || _); auto.
    f_equal. f_equal; [f_equal | f_equal];
      apply same_elements_length; try apply newSet_NoDup; intros x.
    + rewrite !intersection_In. tauto.
    + rewrite !union_In. tauto.
  - unfold WeavesContentExtractor.contentSimilarity.
    now rewrite String.eqb_refl, orb_true_r.
Qed.

Lemma take_length (n : nat) (s : string) :
  (String.length (Js.take n s) <= n)%nat.
Proof.
  revert s. induction n as [| k IH]; intros s; cbn [Js.take String.length];
    auto.
  destruct s as [| c r]; cbn [String.length]; [lia |].
  specialize (IH r). lia.
Qed.

(** X15.  The gate of [extractAndSend]: a text of fewer than 100
    characters is never sent and leaves the instance as it is; on a
    fresh instance a text of 100 characters or more is sent, as the
    cleaned text of at most 8000 characters with the title cut to 200,
    and becomes [lastContent]; and after any extraction, extracting the
    same page again sends nothing and changes nothing. *)
Theorem extraction_gate (document : WeavesContentExtractor.Document)
  (x : WeavesContentExtractor.t) :
  let extracted := WeavesContentExtractor.extractContent document in
  let text := WeavesContentExtractor.content extracted in
  ((String.length text < 100)%nat ->
   WeavesContentExtractor.extractAndSend document x = (x, None))
  /\ ((100 <= String.length text)%nat ->
      WeavesContentExtractor.extractAndSend document
        (WeavesContentExtractor.make EmptyString)
      = (WeavesContentExtractor.make text,
         Some (Listener.CONTENT_UPDATE
                 (WeavesContentExtractor.title extracted) text
                 (WeavesContentExtractor.href document)
                 (WeavesContentExtractor.hostname document)
                 (WeavesContentExtractor.detectedPlatform document)
                 (WeavesContentExtractor.detectedType document))))
  /\ Z.of_nat (String.length text) <= 8000
  /\ Z.of_nat (String.length (WeavesContentExtractor.title extracted)) <= 200
  /\ (let x1 := fst (WeavesContentExtractor.extractAndSend document x) in
      WeavesContentExtractor.extractAndSend document x1 = (x1, None)).
Proof.
  intros extracted text.
  refine (conj _ (conj _ (conj _ (conj _ _)))).
  - intros H. unfold WeavesContentExtractor.extractAndSend. cbv zeta.
    fold extracted. fold text. apply Nat.ltb_lt in H. now rewrite H.
  - intros H. unfold WeavesContentExtractor.extractAndSend. cbv zeta.
    fold extracted. fold text. apply Nat.ltb_ge in H. rewrite H.
    unfold WeavesContentExtractor.contentSimilarity.
    cbn [WeavesContentExtractor.lastContent].
    rewrite String.eqb_refl, orb_true_r.
    replace (Js.lt 0 WeavesContentExtractor.duplicateThreshold) with true
      by (vm_compute; reflexivity).
    reflexivity.
  - pose proof (take_length (Z.to_nat 8000)
                  (Js.trim (Js.collapseWhiteSpace
                              (WeavesContentExtractor.gathered document)))) as H.
    change (Js.take (Z.to_nat 8000) _) with text in H. lia.
  - pose proof (take_length (Z.to_nat 200)
                  (WeavesContentExtractor.documentTitle document)) as H.
    change (Js.take (Z.to_nat 200) _)
      with (WeavesContentExtractor.title extracted) in H. lia.
  - cbv zeta. unfold WeavesContentExtractor.extractAndSend. cbv zeta.
    fold extracted. fold text.
    destruct (String.length text <? 100)%nat eqn:L; cbn [fst];
      [reflexivity |].
    destruct (Js.lt (WeavesContentExtractor.contentSimilarity text
                       (WeavesContentExtractor.lastContent x)) _) eqn:D;
      cbn [fst].
    + cbn [WeavesContentExtractor.lastContent].
      rewrite self_similarity_duplicate; auto.
      intros E. rewrite E in L. discriminate.
    + now rewrite D.
Qed.

(** ** The answer to a CONTENT_UPDATE *)

(** X16.  A CONTENT_UPDATE that comes from no tab is answered with a
    failure and changes nothing.  From a tab it appends the connections
    it records to the list and is answered once, with the number of
    connections recorded and the number of those of strength 0.75 or
    more, which is never the greater; the badge of the tab is set when,
    and only when, that second number is not 0, and shows it; the
    content script shows no notification exactly when no connection was
    recorded; and the storage then holds the new state. *)
Theorem update_response_counts (env : Listener.Env) (sender : Listener.Sender)
  (title content url domain platform contentType : string)
  (w : Listener.World) :
  let r :=
    Listener.onMessage env
      (Listener.CONTENT_UPDATE title content url domain platform contentType)
      sender w in
  match Listener.tab sender with
  | None => r = (w, [Listener.Failed Listener.tabUndefined])
  | Some t =>
      let before := WeavesAI.connections (Listener.weavesAI w) in
      let recorded :=
        skipn (List.length before)
              (WeavesAI.connections (Listener.weavesAI (fst r))) in
      let n := List.length recorded in
      let h :=
        List.length
          (filter (fun c => Qle_bool (3 # 4) (Connection.strength c))
                  recorded) in
      WeavesAI.connections (Listener.weavesAI (fst r))
      = (before ++ recorded)%list
      /\ snd r = [Listener.Processed n h]
      /\ (h <= n)%nat
      /\ Listener.action (fst r)
         = (if (h =? 0)%nat then Listener.action w
            else Listener.action w ++
                 [Listener.setBadgeText (Js.toString (Z.of_nat h))
                    (Some (Listener.tab_id t));
                  Listener.setBadgeBackgroundColor "#4CAF50"])%list
      /\ (WeavesContentExtractor.notification (Listener.Processed n h) = None
          <-> n = 0%nat)
      /\ Inv.persisted (fst r)
  end.
Proof.
  intros r. destruct sender as [[t |]]; [| reflexivity].
  cbv beta iota delta [Listener.tab].
  intros before recorded n h.
  pose proof (content_update_answer env t title content url domain platform
                contentType w) as H.
  cbv zeta in H. fold r in H. fold before in H.
  destruct H as [Hc [Hs Ha]].
  match type of Hc with
  | _ = (_ ++ Listener.recordConnections ?st ?it _ ?fr ?fo)%list =>
      set (found := fo) in *;
      set (rec := Listener.recordConnections st it env fr fo) in *
  end.
  assert (E : recorded = rec)
    by (unfold recorded; rewrite Hc; apply skipn_app_exact).
  assert (En : n = List.length found)
    by (unfold n; rewrite E; apply recordConnections_length).
  assert (Eh : h = List.length (Listener.highQualityConnections found))
    by (unfold h; rewrite E; apply recorded_highQuality).
  assert (L : (h <= n)%nat)
    by (rewrite Eh, En; apply filter_length_le).
  refine (conj _ (conj _ (conj L (conj _ (conj _ _))))).
  - now rewrite E.
  - now rewrite En, Eh.
  - rewrite Ha, Eh.
    destruct (Listener.highQualityConnections found); reflexivity.
  - cbn [WeavesContentExtractor.notification].
    destruct h as [| h']; destruct n as [| n']; cbn;
      split; try discriminate; try reflexivity; lia.
  - unfold r. cbn [Listener.onMessage Listener.tab].
    unfold Listener.onContentUpdate. cbn [Listener.tab].
    apply saveData_persisted.
Qed.

(** ** The ledger of storage-manager.js *)

Lemma has_set_same {V : Type} (m : Js.Map V) (k : string) (v : V) :
  Js.has (Js.set m k v) k = true.
Proof.
  apply has_In_keys. rewrite set_keys.
  destruct (Js.has m k) eqn:H.
  - now apply has_In_keys.
  - apply in_or_app. right. left. reflexivity.
Qed.

Lemma has_set_other {V : Type} (m : Js.Map V) (k k' : string) (v : V) :
  k' <> k -> Js.has (Js.set m k v) k' = Js.has m k'.
Proof.
  intros Hne. apply eq_true_iff_eq.
  rewrite !has_In_keys, set_keys.
  destruct (Js.has m k); [tauto |].
  rewrite in_app_iff. cbn [In]. intuition congruence.
Qed.

Lemma has_delete_other {V : Type} (m : Js.Map V) (k k' : string) :
  k' <> k -> Js.has (Js.delete m k) k' = Js.has m k'.
Proof.
  intros Hne.
  induction m as [| [k0 v0] r IH]; cbn [Js.delete Js.has]; auto.
  destruct (String.eqb k0 k) eqn:E; cbn [Js.has].
  - apply String.eqb_eq in E. subst k0.
    destruct (String.eqb k k') eqn:E'; auto.
    apply String.eqb_eq in E'. congruence.
  - now rewrite IH.
Qed.

(** X17.  [pinConnection] of storage-manager.js refuses, changing
    nothing, a connection whose [from] or [to] is empty or whose
    timestamp is 0; any other connection it pins under its composite id
    and saves the ledger.  Unpinning that id then reports [true], leaves
    the id unpinned, and every other id pinned or not as it was before
    the two calls. *)
Theorem js_pin_then_unpin (connection : Connection.t) (now : Z)
  (this : StorageManagerJs.t) (store : StorageManagerJs.StoreT) :
  NoDup (Js.keys (StorageManagerJs.pinnedConnections this)) ->
  match StorageManagerJs.generateConnectionId connection with
  | None =>
      (Connection.from connection = EmptyString
       \/ Connection.to connection = EmptyString
       \/ Connection.timestamp connection = 0)
      /\ StorageManagerJs.pinConnection connection now this store
         = (false, this, store)
  | Some connectionId =>
      let '(pinned, this1, store1) :=
        StorageManagerJs.pinConnection connection now this store in
      let '(removed, this2, store2) :=
        StorageManagerJs.unpinConnection connectionId this1 store1 in
      pinned = true
      /\ StorageManagerJs.isPinned connectionId this1 = true
      /\ StorageManagerJs.PINNED_CONNECTIONS store1
         = Some (StorageManagerJs.pinnedConnections this1)
      /\ removed = true
      /\ StorageManagerJs.isPinned connectionId this2 = false
      /\ StorageManagerJs.PINNED_CONNECTIONS store2
         = Some (StorageManagerJs.pinnedConnections this2)
      /\ forall k, k <> connectionId ->
           StorageManagerJs.isPinned k this2 = StorageManagerJs.isPinned k this
  end.
Proof.
  intros N. unfold StorageManagerJs.pinConnection.
  destruct (StorageManagerJs.generateConnectionId connection) as [id |] eqn:G.
  - unfold StorageManagerJs.unpinConnection, StorageManagerJs.isPinned.
    cbn [StorageManagerJs.pinnedConnections StorageManagerJs.settings].
    rewrite has_set_same.
    cbn [StorageManagerJs.pinnedConnections StorageManagerJs.savePinnedConnections
         StorageManagerJs.PINNED_CONNECTIONS].
    refine (conj eq_refl (conj eq_refl (conj eq_refl
             (conj eq_refl (conj _ (conj eq_refl _)))))).
    + apply has_delete_same. now apply set_keys_NoDup.
    + intros k Hk. now rewrite has_delete_other, has_set_other.
  - split; auto.
    unfold StorageManagerJs.generateConnectionId in G.
    destruct (String.eqb (Connection.from connection) EmptyString) eqn:A;
      [apply String.eqb_eq in A; auto |].
    destruct (String.eqb (Connection.to connection) EmptyString) eqn:B;
      [apply String.eqb_eq in B; auto |].
    destruct (Connection.timestamp connection =? 0) eqn:C;
      [apply Z.eqb_eq in C; auto | discriminate].
Qed.

(** A pin and an unpin on the sample ledger of storage-manager.js. *)
Lemma js_pin_then_unpin_witness :
  StorageManagerJs.isPinned "7-2-7-1-5"
    (snd (fst (StorageManagerJs.pinConnection More.listed 10 More.jsLedger
                 More.jsStore))) = true
  /\ StorageManagerJs.pinConnection
       (Sample.connection "a" "b" (8 # 10) 0) 10 More.jsLedger More.jsStore
     = (false, More.jsLedger, More.jsStore).
Proof.
  assert (N : NoDup (Js.keys (StorageManagerJs.pinnedConnections More.jsLedger))).
  { repeat constructor; cbn; intuition discriminate. }
  split.
  - pose proof (js_pin_then_unpin More.listed 10 More.jsLedger More.jsStore N)
      as H.
    change (StorageManagerJs.generateConnectionId More.listed)
      with (Some "7-2-7-1-5") in H.
    destruct (StorageManagerJs.pinConnection More.listed 10 More.jsLedger
                More.jsStore) as [[pinned this1] store1].
    destruct (StorageManagerJs.unpinConnection "7-2-7-1-5" this1 store1)
      as [[removed this2] store2].
    cbn [fst snd]. apply H.
  - apply (js_pin_then_unpin (Sample.connection "a" "b" (8 # 10) 0) 10
             More.jsLedger More.jsStore N).
Defined.

(** X18.  The daily reset of storage-manager.js on a new day, when it is
    enabled: it reports [true], empties the stored data, records the
    day, and keeps of the ledger exactly the entries pinned within the
    retention period, the settings as they are.  Disabled, it does
    nothing. *)
Theorem js_daily_reset_keeps_recent_pins (now : Z) (today : string)
  (this : StorageManagerJs.t) (store : StorageManagerJs.StoreT) :
  StorageManagerJs.LAST_RESET_DATE store <> Some today ->
  let cutoff :=
    now - StorageManagerJs.retentionDays (StorageManagerJs.settings this)
          * 24 * 60 * 60 * 1000 in
  let '(done, this', store') :=
    StorageManagerJs.checkDailyReset now today this store in
  if StorageManagerJs.dailyResetEnabled (StorageManagerJs.settings this) then
    done = true
    /\ StorageManagerJs.WEAVES_DATA store' = None
    /\ StorageManagerJs.LAST_RESET_DATE store' = Some today
    /\ StorageManagerJs.SETTINGS store' = StorageManagerJs.SETTINGS store
    /\ StorageManagerJs.settings this' = StorageManagerJs.settings this
    /\ (forall e, In e (StorageManagerJs.pinnedConnections this')
                  <-> In e (StorageManagerJs.pinnedConnections this)
                      /\ cutoff <= StorageManagerJs.pinnedAt (snd e))
  else done = false /\ this' = this /\ store' = store.
Proof.
  intros D cutoff. unfold StorageManagerJs.checkDailyReset.
  destruct (StorageManagerJs.dailyResetEnabled _); cbn [negb]; [| auto].
  assert (E : WeavesStorageManager.differs
                (StorageManagerJs.LAST_RESET_DATE store) today = true).
  { unfold WeavesStorageManager.differs.
    destruct (StorageManagerJs.LAST_RESET_DATE store) as [d |]; auto.
    apply negb_true_iff, String.eqb_neq. congruence. }
  rewrite E. unfold StorageManagerJs.performDailyReset,
    StorageManagerJs.cleanupPinnedConnections.
  destruct (0 <? _)%nat;
    cbn [StorageManagerJs.savePinnedConnections StorageManagerJs.WEAVES_DATA
         StorageManagerJs.LAST_RESET_DATE StorageManagerJs.SETTINGS
         StorageManagerJs.PINNED_CONNECTIONS StorageManagerJs.settings
         StorageManagerJs.pinnedConnections];
    (repeat (split; [reflexivity |]));
    intros e; rewrite filter_In, negb_true_iff, Z.ltb_ge; reflexivity.
Qed.

(** The reset, 30 days on, of a ledger with a pin of the first day and a
    pin of the day before. *)
Lemma js_daily_reset_witness :
  Js.keys (StorageManagerJs.pinnedConnections
             (snd (fst (StorageManagerJs.checkDailyReset (30 * Sample.day)
                          "Wed Jan 31 2024" More.jsLedger More.jsStore))))
  = ["a-c-2"]
  /\ StorageManagerJs.LAST_RESET_DATE
       (snd (StorageManagerJs.checkDailyReset (30 * Sample.day)
               "Wed Jan 31 2024" More.jsLedger More.jsStore))
     = Some "Wed Jan 31 2024".
Proof.
  split; [reflexivity |].
  pose proof (js_daily_reset_keeps_recent_pins (30 * Sample.day)
                "Wed Jan 31 2024" More.jsLedger More.jsStore) as H.
  destruct (StorageManagerJs.checkDailyReset (30 * Sample.day)
              "Wed Jan 31 2024" More.jsLedger More.jsStore)
    as [[done this'] store'].
  cbn [snd]. apply H. discriminate.
Defined.

(** ** From the buttons of the popup to the background *)

Lemma composite_id_not_empty (c : Connection.t) :
  String.eqb (WeavesStorageManager.generateConnectionId c) EmptyString = false.
Proof.
  apply String.eqb_neq. unfold WeavesStorageManager.generateConnectionId.
  destruct (Connection.from c); discriminate.
Qed.

(** Where an entry of the merged view comes from. *)
Lemma listed_origin (ai : WeavesAI.t) (e : Listed.t) :
  In e (WeavesAI.getAllConnections ai) ->
  (exists k p,
      In (k, p) (WeavesStorageManager.pinnedConnections
                   (WeavesAI.storageManager ai))
      /\ e = Listed.make (Connection.withPinned (Pinned.connection p) true)
               (WeavesStorageManager.generateConnectionId (Pinned.connection p))
               (Some (Pinned.pinnedAt p, Pinned.pinnedDate p)))
  \/ (exists c,
        In c (WeavesAI.connections ai)
        /\ e = Listed.make (Connection.withPinned c false)
                 (WeavesAI.getConnectionId c) None).
Proof.
  intros H. unfold WeavesAI.getAllConnections in H. apply sort_In in H.
  unfold WeavesAI.mergedConnections in H.
  apply in_app_or in H as [H | H].
  - left. unfold WeavesStorageManager.getPinnedConnections, Js.values in H.
    apply in_map_iff in H as [p [<- Hp]].
    apply in_map_iff in Hp as [[k p'] [E Hp]]. cbn in E. subst p'.
    exists k, p. auto.
  - right. apply filter_In in H as [H _].
    unfold WeavesAI.regularConnections in H.
    apply in_map_iff in H as [c [<- Hc]]. exists c. auto.
Qed.

(** X19.  A connection the popup displays after GET_CONNECTIONS is one
    of the listing and has its [from], [to] and timestamp; its buttons
    carry the id the background gave it, unpin when it is pinned and pin
    when it is not; a click on either button sends the message for that
    id; and the background knows the id: the ledger holds it when the
    connection is pinned, the connection list has a connection of that
    id when it is not. *)
Theorem popup_buttons_reach_background (env : Listener.Env)
  (sender : Listener.Sender) (w : Listener.World) (e : Listed.t) :
  let ai := Listener.weavesAI w in
  let popup :=
    Popup.loadConnectionsData
      (hd_error (snd (Listener.onMessage env Listener.GET_CONNECTIONS sender w))) in
  Inv.ledgerKeyed (WeavesAI.storageManager ai) ->
  In e (Popup.displayed popup) ->
  In e (firstn 50 (WeavesAI.getAllConnections ai))
  /\ Popup.hasRequiredFields e = true
  /\ Popup.pinButton e false
     = (Some (Listed.id e),
        if Listed.pinned e then Popup.unpin else Popup.pin)
  /\ Popup.deleteButton e = (Some (Listed.id e), Popup.delete)
  /\ Popup.handleConnectionClick (Listed.id e) (snd (Popup.pinButton e false))
       popup
     = Some (if Listed.pinned e
             then Listener.UNPIN_CONNECTION (Listed.id e)
             else Listener.PIN_CONNECTION (Listed.id e))
  /\ Popup.handleConnectionClick (Listed.id e) Popup.delete popup
     = Some (Listener.DELETE_CONNECTION (Listed.id e))
  /\ (if Listed.pinned e
      then Js.has (WeavesStorageManager.pinnedConnections
                     (WeavesAI.storageManager ai)) (Listed.id e) = true
      else exists c, WeavesAI.findConnection ai (Listed.id e) = Some c).
Proof.
  intros ai popup K D.
  assert (C : In e (Popup.currentConnections popup))
    by (apply (In_slice0 12), D).
  unfold popup in C. cbn [Listener.onMessage] in C.
  unfold Listener.onGetConnections in C.
  cbn [snd hd_error Popup.loadConnectionsData Popup.currentConnections] in C.
  unfold Popup.validConnections in C. apply filter_In in C as [L V].
  apply andb_true_iff in V as [R _].
  fold ai in L. unfold Js.slice0 in L.
  assert (G : In e (WeavesAI.getAllConnections ai))
    by (apply (In_slice0 50), L).
  assert (I : Popup.hasId e = true).
  { unfold Popup.hasId. apply negb_true_iff.
    destruct (listed_origin ai e G) as [[k [p [_ ->]]] | [c [_ ->]]];
      apply composite_id_not_empty. }
  assert (Eid : Popup.idOf e = Some (Listed.id e))
    by (unfold Popup.idOf; now rewrite I).
  assert (F : exists c, Popup.findConnection popup (Listed.id e) = Some c).
  { unfold Popup.findConnection.
    destruct (find _ (Popup.currentConnections popup)) as [c |] eqn:E; eauto.
    exfalso.
    assert (C : In e (Popup.currentConnections popup))
      by (apply (In_slice0 12), D).
    apply (find_none _ _ E) in C. cbv beta in C.
    rewrite Eid, String.eqb_refl in C. discriminate. }
  destruct F as [c F].
  refine (conj L (conj R (conj _ (conj _ (conj _ (conj _ _)))))).
  - unfold Popup.pinButton. now rewrite Eid.
  - unfold Popup.deleteButton. now rewrite Eid.
  - unfold Popup.pinButton. cbn [snd orb].
    destruct (Listed.pinned e); cbn [Popup.handleConnectionClick];
      unfold Popup.togglePin; now rewrite F.
  - cbn [Popup.handleConnectionClick]. unfold Popup.deleteConnection.
    now rewrite F.
  - destruct (listed_origin ai e G) as [[k [p [Hp ->]]] | [x [Hx ->]]].
    + change (Listed.pinned _) with true. cbn [Listed.id].
      rewrite (K k p Hp). eapply In_has. exact Hp.
    + change (Listed.pinned _) with false. cbn [Listed.id].
      unfold WeavesAI.findConnection.
      destruct (find _ (WeavesAI.connections ai)) as [y |] eqn:E; eauto.
      exfalso. apply (find_none _ _ E) in Hx. cbv beta in Hx.
      rewrite String.eqb_refl in Hx. discriminate.
Qed.

(** The pin button of the connection the sample background lists. *)
Lemma popup_buttons_witness :
  Popup.handleConnectionClick "7-2-7-1-5" Popup.pin
    (Popup.loadConnectionsData
       (hd_error (snd (Listener.onMessage (Sample.env (Resolves EmptyString))
                         Listener.GET_CONNECTIONS Sample.sender
                         More.background))))
  = Some (Listener.PIN_CONNECTION "7-2-7-1-5").
Proof.
  pose proof (popup_buttons_reach_background (Sample.env (Resolves EmptyString))
                Sample.sender More.background
                (Listed.make (Connection.withPinned More.listed false)
                   "7-2-7-1-5" None)) as H.
  cbv zeta in H.
  refine (proj1 (proj2 (proj2 (proj2 (proj2 (H _ _)))))).
  - intros k p [].
  - left. reflexivity.
Defined.

(** ** Unpinning through the listener *)

Lemma unpin_message_result (env : Listener.Env) (id : string)
  (sender : Listener.Sender) (w : Listener.World) :
  let ai := Listener.weavesAI w in
  let m := WeavesAI.storageManager ai in
  let ledger := WeavesStorageManager.pinnedConnections m in
  exists storage',
    Listener.onMessage env (Listener.UNPIN_CONNECTION id) sender w
    = (Listener.makeWorld
         (WeavesAI.make (WeavesAI.isInitialized ai) (WeavesAI.contentStore ai)
            (Listener.markPinned id false (WeavesAI.connections ai))
            (WeavesStorageManager.make (Js.delete (Js.delete ledger id) id)
               (WeavesStorageManager.settings m)))
         storage' (Listener.action w) (S (Listener.clock w)),
       [Listener.Outcome (Js.has ledger id); Listener.Outcome true]).
Proof.
  destruct w as [[init cs conns [ledger settings]] st act ck].
  cbn [Listener.weavesAI WeavesAI.storageManager Listener.action
       Listener.clock WeavesAI.isInitialized WeavesAI.contentStore
       WeavesAI.connections WeavesStorageManager.pinnedConnections
       WeavesStorageManager.settings].
  cbn [Listener.onMessage]. unfold Listener.andThen.
  unfold Listener.onUnpinConnection1, Listener.onUnpinConnection2,
    WeavesAI.unpinConnection, WeavesStorageManager.unpinConnection.
  cbn [Listener.weavesAI Listener.storage Listener.action Listener.clock
       WeavesAI.storageManager WeavesStorageManager.pinnedConnections
       WeavesStorageManager.withPinnedConnections
       WeavesStorageManager.settings].
  destruct (Js.has ledger id);
    cbn [Listener.weavesAI Listener.storage Listener.action Listener.clock
         WeavesAI.storageManager WeavesAI.withStorageManager
         WeavesAI.withConnections WeavesAI.isInitialized
         WeavesAI.contentStore WeavesAI.connections
         WeavesStorageManager.pinnedConnections
         WeavesStorageManager.withPinnedConnections
         WeavesStorageManager.settings];
    destruct (Js.has (Js.delete ledger id) id);
    cbn [app]; eexists; reflexivity.
Qed.

(** The connection that [find] returns is the first of the array with
    the id; [markPinned] rewrites its flag and nothing else. *)
Lemma markPinned_first (id : string) (b : bool) (l : list Connection.t) :
  (exists l1 c l2,
      l = (l1 ++ c :: l2)%list
      /\ (forall x, In x l1 -> WeavesAI.getConnectionId x <> id)
      /\ WeavesAI.getConnectionId c = id
      /\ Listener.markPinned id b l
         = (l1 ++ Connection.withPinned c b :: l2)%list)
  \/ ((forall x, In x l -> WeavesAI.getConnectionId x <> id)
      /\ Listener.markPinned id b l = l).
Proof.
  unfold WeavesAI.getConnectionId.
  induction l as [| c r IH]; cbn [Listener.markPinned].
  - right. split; [intros x [] | reflexivity].
  - destruct (String.eqb (WeavesStorageManager.generateConnectionId c) id)
      eqn:E.
    + apply String.eqb_eq in E. left. exists [], c, r.
      refine (conj eq_refl (conj _ (conj E eq_refl))). intros x [].
    + apply String.eqb_neq in E.
      destruct IH as [(l1 & c' & l2 & -> & H1 & Hc & ->) | [H ->]].
      * left. exists (c :: l1), c', l2.
        refine (conj eq_refl (conj _ (conj Hc eq_refl))).
        intros x [<- | Hx]; auto.
      * right. split; [| reflexivity]. intros x [<- | Hx]; auto.
Qed.

(** X20.  An UNPIN_CONNECTION is answered twice, first with whether the
    ledger held the id, then with success.  Afterwards the ledger,
    stored under ids, does not hold the id and holds every other entry
    as before; the first connection of the list with that id, if there
    is one, is flagged unpinned and the list is otherwise as it was; no
    entry of the merged view with that id is pinned; and the storage
    holds the result. *)
Theorem unpin_removes_from_ledger (env : Listener.Env) (id : string)
  (sender : Listener.Sender) (w : Listener.World) :
  let ai := Listener.weavesAI w in
  let ledger :=
    WeavesStorageManager.pinnedConnections (WeavesAI.storageManager ai) in
  let r := Listener.onMessage env (Listener.UNPIN_CONNECTION id) sender w in
  let ai' := Listener.weavesAI (fst r) in
  let ledger' :=
    WeavesStorageManager.pinnedConnections (WeavesAI.storageManager ai') in
  NoDup (Js.keys ledger) ->
  Inv.ledgerKeyed (WeavesAI.storageManager ai) ->
  snd r = [Listener.Outcome (Js.has ledger id); Listener.Outcome true]
  /\ Js.has ledger' id = false
  /\ (forall k, k <> id -> Js.get ledger' k = Js.get ledger k)
  /\ WeavesAI.connections ai'
     = Listener.markPinned id false (WeavesAI.connections ai)
  /\ ((exists l1 c l2,
         WeavesAI.connections ai = (l1 ++ c :: l2)%list
         /\ (forall x, In x l1 -> WeavesAI.getConnectionId x <> id)
         /\ WeavesAI.getConnectionId c = id
         /\ WeavesAI.connections ai'
            = (l1 ++ Connection.withPinned c false :: l2)%list)
      \/ ((forall x, In x (WeavesAI.connections ai) ->
                     WeavesAI.getConnectionId x <> id)
          /\ WeavesAI.connections ai' = WeavesAI.connections ai))
  /\ (forall e, In e (WeavesAI.getAllConnections ai') ->
                Listed.id e = id -> Listed.pinned e = false)
  /\ WeavesAI.contentStore ai' = WeavesAI.contentStore ai
  /\ Inv.persisted (fst r).
Proof.
  intros ai ledger r ai' ledger' N K.
  pose proof (listener_keeps_keyed env (Listener.UNPIN_CONNECTION id) sender w K)
    as K'.
  assert (P : Inv.persisted (fst r)).
  { unfold r. cbn [Listener.onMessage]. rewrite andThen_fst.
    apply unpin2_persisted. }
  destruct (unpin_message_result env id sender w) as [storage' E].
  cbv zeta in E. fold ai in E. fold ledger in E.
  subst ledger' ai' r. rewrite E in *. clear E.
  cbn [fst snd Listener.weavesAI WeavesAI.storageManager WeavesAI.connections
       WeavesAI.contentStore WeavesStorageManager.pinnedConnections] in *.
  assert (D : Js.delete (Js.delete ledger id) id = Js.delete ledger id).
  { apply delete_absent. now apply has_delete_same. }
  rewrite D in *.
  assert (H : Js.has (Js.delete ledger id) id = false)
    by (now apply has_delete_same).
  refine (conj eq_refl (conj H (conj _ (conj eq_refl (conj _ (conj _
           (conj eq_refl P))))))).
  - intros k Hk. now apply get_delete_other.
  - apply markPinned_first.
  - intros e He Eid.
    apply listed_origin in He as [[k [p [Hp ->]]] | [c [_ ->]]];
      [| reflexivity].
    exfalso. cbn [WeavesAI.storageManager
                  WeavesStorageManager.pinnedConnections] in Hp.
    cbn [Listed.id] in Eid. rewrite (K' k p Hp) in Eid. subst k.
    apply In_has in Hp. congruence.
Qed.

(** Unpinning the connection the sample background has pinned: the
    ledger held it and holds it no more, and the connection of the list
    is flagged unpinned. *)
Lemma unpin_removes_witness :
  snd (Listener.onMessage (Sample.env (Resolves EmptyString))
         (Listener.UNPIN_CONNECTION "7-2-7-1-5") Sample.sender
         More.pinnedBackground)
  = [Listener.Outcome true; Listener.Outcome true]
  /\ Js.has
       (WeavesStorageManager.pinnedConnections
          (WeavesAI.storageManager
             (Listener.weavesAI
                (fst (Listener.onMessage (Sample.env (Resolves EmptyString))
                        (Listener.UNPIN_CONNECTION "7-2-7-1-5") Sample.sender
                        More.pinnedBackground))))) "7-2-7-1-5" = false
  /\ WeavesAI.connections
       (Listener.weavesAI
          (fst (Listener.onMessage (Sample.env (Resolves EmptyString))
                  (Listener.UNPIN_CONNECTION "7-2-7-1-5") Sample.sender
                  More.pinnedBackground)))
     = [Connection.withPinned More.listed false].
Proof.
  pose proof (unpin_removes_from_ledger (Sample.env (Resolves EmptyString))
                "7-2-7-1-5" Sample.sender More.pinnedBackground) as H.
  cbv zeta in H.
  assert (N : NoDup (Js.keys (WeavesStorageManager.pinnedConnections
                                (WeavesAI.storageManager
                                   (Listener.weavesAI More.pinnedBackground))))).
  { repeat constructor. intros []. }
  assert (K : Inv.ledgerKeyed
                (WeavesAI.storageManager
                   (Listener.weavesAI More.pinnedBackground))).
  { intros k p [[= <- <-] | []]. reflexivity. }
  destruct (H N K) as (A & B & _ & C & _).
  split; [exact A | split; [exact B | exact C]].
Defined.

(** ** The first answer of the doubled blocks *)

(** X21.  PIN_CONNECTION and DELETE_CONNECTION, like UNPIN_CONNECTION,
    run two blocks of the listener.  The first answer to a
    DELETE_CONNECTION is success whatever the state; the first answer
    to a PIN_CONNECTION is success exactly when the list has a
    connection of that id and the ledger is below its maximum; the
    second answer to a DELETE_CONNECTION tells whether a connection was
    still there to remove, which after the first block it never is. *)
Theorem first_answers (env : Listener.Env) (id : string)
  (sender : Listener.Sender) (w : Listener.World) :
  let ai := Listener.weavesAI w in
  let m := WeavesAI.storageManager ai in
  snd (Listener.onMessage env (Listener.DELETE_CONNECTION id) sender w)
  = [Listener.Outcome true; Listener.Outcome false]
  /\ exists second,
       snd (Listener.onMessage env (Listener.PIN_CONNECTION id) sender w)
       = [Listener.Outcome
            (match WeavesAI.findConnection ai id with
             | Some _ =>
                 Z.of_nat (Js.size (WeavesStorageManager.pinnedConnections m))
                 <? Settings.maxPinnedConnections
                      (WeavesStorageManager.settings m)
             | None => false
             end);
          second]
       /\ (second = Listener.Outcome true
           \/ second = Listener.Failed "Connection not found")
       /\ (second = Listener.Outcome true
           <-> WeavesAI.findConnection ai id <> None).
Proof.
  destruct w as [[init cs conns m] st act ck].
  cbn [Listener.weavesAI WeavesAI.storageManager].
  split.
  - cbn [Listener.onMessage]. unfold Listener.andThen,
      Listener.onDeleteConnection1, Listener.onDeleteConnection2,
      WeavesAI.unpinConnection.
    cbn [Listener.weavesAI Listener.storage Listener.action Listener.clock
         WeavesAI.withConnections WeavesAI.connections
         WeavesAI.storageManager].
    destruct (WeavesStorageManager.unpinConnection id m st) as [[b1 m1] st1].
    cbn [Listener.weavesAI Listener.storage Listener.action Listener.clock
         WeavesAI.withConnections WeavesAI.withStorageManager
         WeavesAI.connections WeavesAI.storageManager].
    destruct (WeavesStorageManager.unpinConnection id m1 _) as [[b2 m2] st2].
    cbn [snd app]. unfold Listener.withoutConnection.
    rewrite filter_twice, Nat.ltb_irrefl. reflexivity.
  - cbn [Listener.onMessage]. unfold Listener.andThen,
      Listener.onPinConnection1, Listener.onPinConnection2,
      WeavesAI.pinConnection, WeavesAI.findConnection.
    cbn [Listener.weavesAI Listener.storage Listener.action Listener.clock
         WeavesAI.connections WeavesAI.storageManager].
    destruct (find _ conns) as [c |] eqn:F.
    + unfold WeavesStorageManager.pinConnection at 1,
        WeavesStorageManager.pinConnection_body at 1.
      rewrite Z.ltb_antisym.
      destruct (_ <=? _);
        cbn [negb Listener.weavesAI Listener.storage Listener.action
             Listener.clock WeavesAI.withStorageManager WeavesAI.connections
             WeavesAI.storageManager];
        rewrite F;
        destruct (WeavesStorageManager.pinConnection _ _ _ _ _ _)
          as [[b2 m2] st2];
        cbn [snd app]; eexists;
        (split; [reflexivity | split; [auto | split; congruence]]).
    + cbn [Listener.weavesAI WeavesAI.connections]. rewrite F. cbn [snd app].
      eexists. split; [reflexivity | split; [auto |]].
      split; [discriminate | congruence].
Qed.

(** ** Every pin within the listing, on the sample background with a pin *)

Lemma get_connections_lists_every_pin_witness :
  Forall
    (fun e =>
       exists content connections,
         Listener.onMessage (Sample.env (Resolves EmptyString))
           Listener.GET_CONNECTIONS Sample.sender More.pinnedBackground
         = (More.pinnedBackground, [Listener.Listing content connections])
         /\ In (Spec.pinnedEntry (snd e)) connections
         /\ Listed.pinned (Spec.pinnedEntry (snd e)) = true
         /\ (List.length connections <= 50)%nat)
    (WeavesStorageManager.pinnedConnections
       (WeavesAI.storageManager (Listener.weavesAI More.pinnedBackground))).
Proof.
  apply Forall_forall. intros [k p] Hp.
  apply (get_connections_lists_every_pin (Sample.env (Resolves EmptyString))
           Sample.sender More.pinnedBackground k p).
  - split; [repeat constructor; intros [] | vm_compute; discriminate].
  - vm_compute. discriminate.
  - exact Hp.
Defined.
